(** * Tunnel State & Lifecycle Manager: a shallow embedding

    This development embeds the core of [config/manager_frontend.py]
    (class [UniversalTunnelManager]) and proves properties of its state
    store, route reconciliation, tunnel lifecycle and temporary-tunnel
    supervision, and of callers in [test/test.py] and [api/routes.py] that
    construct a manager for one call.

    Conventions.
    - Python [str] is [string]; [Optional[str]] is [option string].
    - A Python [dict] used as a map is a stdpp [gmap].
    - The manager object ([self]) and the outside world (files, external
      commands) are threaded explicitly through a state-and-exception monad.
    - Answers of external commands come from an oracle [env]; every answer
      may depend on the moment of the call (the number of external actions
      performed so far).

    Modelling notes.
    - A config file holds the value that [yaml.dump] wrote: dumping and
      loading a config is the identity.  Writing the state file or a config
      file always succeeds.
    - [dir_files] lists the entries of the config directory other than the
      state file and the config files.
    - The wall clock counts milliseconds; it is advanced by [time.sleep] and
      by the time a blocking [readline] takes.
    - The four platform strategies of the autostart registrar are summarised
      by their outcome; the files they write or delete are not config files,
      credentials or state.
    - Informational [print]s are left out; the messages of failure exits are
      kept in [console]. *)

From Stdlib Require Import ZArith String Ascii List Bool Lia.
From stdpp Require Import base option list gmap strings fin_maps pretty.

Local Open Scope list_scope.

(** ** Python string operations *)

Module PyStr.

(** [sub in s] *)
Fixpoint contains (sub s : string) : bool :=
  if String.prefix sub s then true
  else match s with
       | EmptyString => false
       | String _ s' => contains sub s'
       end.

(** [s.startswith(p)] and [s.endswith(p)] *)
Definition startswith (p s : string) : bool := String.prefix p s.

Definition endswith (p s : string) : bool :=
  String.prefix (String.rev p) (String.rev s).

(** ASCII characters matched by the regular expression class [\s]. *)
Definition is_space (c : ascii) : bool :=
  let n := nat_of_ascii c in
  ((9 <=? n) && (n <=? 13)) || ((28 <=? n) && (n <=? 32)).

Fixpoint take_nonspace (s : string) : string :=
  match s with
  | EmptyString => EmptyString
  | String c s' => if is_space c then EmptyString else String c (take_nonspace s')
  end.

Fixpoint drop_space (s : string) : string :=
  match s with
  | EmptyString => EmptyString
  | String c s' => if is_space c then drop_space s' else s
  end.

Fixpoint drop (n : nat) (s : string) : string :=
  match n, s with
  | S n', String _ s' => drop n' s'
  | _, _ => s
  end.

(** [re.search(r'https://[^\s]+', s)]: the leftmost match, if any. *)
Fixpoint search_url (s : string) : option string :=
  match s with
  | EmptyString => None
  | String _ s' =>
      if String.prefix "https://" s then
        match take_nonspace (drop 8 s) with
        | EmptyString => search_url s'
        | tok => Some ("https://" +:+ tok)
        end
      else search_url s'
  end.

(** [s.split()[0]]: the first whitespace-separated token, if any. *)
Definition first_token (s : string) : option string :=
  match take_nonspace (drop_space s) with
  | EmptyString => None
  | tok => Some tok
  end.

(** [s.split('\n')] *)
Fixpoint split_lines_go (cur : string) (s : string) : list string :=
  match s with
  | EmptyString => [String.rev cur]
  | String c s' =>
      if Ascii.eqb c "010"%char then String.rev cur :: split_lines_go EmptyString s'
      else split_lines_go (String c cur) s'
  end.

Definition split_lines (s : string) : list string := split_lines_go EmptyString s.

(** [s.strip()] *)
Definition strip (s : string) : string :=
  String.rev (drop_space (String.rev (drop_space s))).

End PyStr.

(** ** Data model *)

(** A tunnel-name variable: [None] or a string.  [truthy] is Python's
    truth value, [fmt] the rendering inside an f-string. *)
Definition pyname := option string.

Definition truthy (n : pyname) : bool :=
  match n with
  | Some s => negb (String.eqb s "")
  | None => false
  end.

(** [if not tunnel_name: tunnel_name = self.tunnel_name] *)
Definition resolve_tunnel_name (tunnel_name current : pyname) : pyname :=
  if negb (truthy tunnel_name) then current else tunnel_name.

Definition fmt (n : pyname) : string :=
  match n with
  | Some s => s
  | None => "None"
  end.

(** A rule of the ingress list as loaded from YAML: a mapping with optional
    [hostname] and [service] keys, or any value that is not a mapping. *)
Inductive rule :=
| RDict (hostname : option string) (service : option string)
| ROther (raw : string).

Global Instance rule_eq_dec : EqDecision rule.
Proof. solve_decision. Defined.

(** The per-tunnel config file: keys [tunnel], [credentials-file], [ingress]. *)
Record config := Config {
  c_tunnel : option string;
  c_credentials_file : option string;
  c_ingress : option (list rule)
}.

Definition empty_config : config := Config None None None.

Record route := Route { route_domain : string; route_service : string }.

Global Instance route_eq_dec : EqDecision route.
Proof. solve_decision. Defined.

(** A tunnel record of the state document.  Keys that [_register_tunnel]
    does not write are optional. *)
Record tunnel_info := TunnelInfo {
  created_at : string;
  ti_config_file : string;
  routes : list route;
  auto_start : bool;
  status : string;
  temp_tunnel : option bool;
  temp_url : option string;
  temp_port : option Z;
  temp_process_id : option positive;
  last_accessed : option string
}.

(** The state document (ManagerState) as JSON holds it: object keys are
    strings. *)
Record manager_state := ManagerState {
  tunnels : gmap string tunnel_info;
  current_tunnel : pyname;
  last_updated : option string
}.

(** A Python dictionary whose keys are strings or [None]: the entries under
    string keys and the entry under [None], if any. *)
Record pydict (V : Type) := PyDict {
  str_items : gmap string V;
  none_item : option V
}.
Arguments PyDict {V} _ _.
Arguments str_items {V} _.
Arguments none_item {V} _.

Definition dict_get {V} (k : pyname) (d : pydict V) : option V :=
  match k with
  | Some s => str_items d !! s
  | None => none_item d
  end.

Definition dict_set {V} (k : pyname) (v : V) (d : pydict V) : pydict V :=
  match k with
  | Some s => PyDict (<[s := v]> (str_items d)) (none_item d)
  | None => PyDict (str_items d) (Some v)
  end.

Definition dict_del {V} (k : pyname) (d : pydict V) : pydict V :=
  match k with
  | Some s => PyDict (delete s (str_items d)) (none_item d)
  | None => PyDict (str_items d) None
  end.

(** [d.items()], up to the order of the entries. *)
Definition dict_items {V} (d : pydict V) : list (pyname * V) :=
  map (fun kv => (Some (fst kv), snd kv)) (map_to_list (str_items d))
  ++ match none_item d with
     | Some v => [(None, v)]
     | None => []
     end.

(** The state dictionary in memory, between [json.load] and [json.dump]. *)
Record state_dict := StateDict {
  d_tunnels : pydict tunnel_info;       (* state["tunnels"] *)
  d_current_tunnel : pyname;            (* state["current_tunnel"] *)
  d_last_updated : option string        (* state["last_updated"] *)
}.

(** What the state file can look like on disk. *)
Inductive disk_file :=
| Missing
| Unreadable
| Garbled (raw : string)
| Holds (st : manager_state).

Inductive exn :=
| FileNotFoundError
| PermissionError
| JSONDecodeError
| TypeError
| AttributeError
| IndexError
| CalledProcessError.

(** External actions, recorded newest first in the world's [log]. *)
Inductive event :=
| CmdTunnelList
| CmdTunnelListJson
| CmdTunnelCreate (name : string)
| CmdTunnelDelete (name : string)
| CmdTunnelCleanup (name : string)
| CmdRouteDns (name dom : string)
| CmdTunnelRun (cfg : option string) (name : string)
| CmdTempTunnel (port : Z) (subdomain : pyname)
| Pkill (pattern : string)
| Pkill9 (pattern : string)
| Pgrep (pattern : string)
| Sleep (ms : N)
| EnvProbe
| SystemdProbe
| SystemctlUser (verb unit : string)
| CrontabList
| LaunchctlList
| Launchctl (verb label : string)
| Schtasks (verb task : string)
| AutostartInstall (name : string)
| AutostartUninstall (name : string)
| Kill0 (pid : positive)
| ProcPoll (pid : positive)
| ProcReadline (pid : positive)
| ProcReadAll (pid : positive)
| ProcTerminate (pid : positive)
| WriteState
| WriteConfig (path : string)
| RemoveFile (path : string).

Global Instance event_eq_dec : EqDecision event.
Proof. solve_decision. Defined.

(** The manager object. *)
Record obj := Obj {
  self_tunnel_name : pyname;             (* self.tunnel_name *)
  self_config_file : option string;      (* self.config_file *)
  auto_start_on_create : bool            (* self.auto_start_on_create *)
}.

(** The world outside the manager object. *)
Record world := World {
  state_file : disk_file;               (* STATE_FILE *)
  yaml_files : gmap string config;      (* config files, by path *)
  dir_files : list string;              (* other file names in config_dir *)
  clock_ms : N;                         (* wall clock, milliseconds *)
  log : list event;                     (* external actions, newest first *)
  console : list string                 (* diagnostic messages, newest first *)
}.

Definition config_dir : string := "~/.cloudflared".

(** [os.path.join(self.config_dir, f"config-{tunnel_name}.yml")] *)
Definition config_path (n : pyname) : string :=
  config_dir +:+ "/config-" +:+ fmt n +:+ ".yml".

Inductive platform := Linux | Darwin | Win32 | OtherPlatform.

(** Result of [cloudflared tunnel list --output json]: a JSON list of
    mappings with optional [name] and [id], or text on which the
    [json.loads]/iteration block raises. *)
Inductive json_stdout :=
| JsonTunnels (ts : list (option string * option string))
| NotJson (text : string).

(** The oracle.  The [nat] argument is the moment of the call. *)
Record env := Env {
  sys_platform : platform;
  now : nat -> string;                              (* datetime.now().isoformat() *)
  tunnel_list_text : nat -> string;                 (* stdout of [tunnel list] *)
  tunnel_list_json : nat -> json_stdout;            (* stdout of [tunnel list --output json] *)
  tunnel_create_ok : nat -> bool;
  tunnel_delete : nat -> option string;             (* None: exit 0; Some stderr: non-zero exit *)
  tunnel_cleanup_ok : nat -> bool;
  route_dns_ok : nat -> bool;
  has_systemd_user : nat -> bool;                   (* _has_systemd_user_support *)
  systemctl_ok : nat -> string -> string -> bool;   (* verb, unit: exit 0 *)
  crontab_l : nat -> option string;                 (* Some stdout when exit 0 *)
  launchctl_list : nat -> option string;            (* None when the call raises *)
  schtasks_query : nat -> string -> bool;           (* task name: exit 0 *)
  autostart_install_ok : nat -> bool;               (* platform-specific registration *)
  autostart_uninstall_ok : nat -> bool;             (* platform-specific removal *)
  pgrep_found : nat -> option bool;                 (* None when the call raises *)
  process_alive : nat -> positive -> bool;          (* os.kill(pid, 0) succeeds *)
  popen_temp : nat -> option positive;              (* pid, None when Popen raises *)
  proc_exited : nat -> bool;                        (* process.poll() is not None *)
  proc_readline : nat -> option string;             (* None when readline raises *)
  proc_readline_ms : nat -> N;                      (* time spent blocked in readline *)
  proc_stderr_rest : nat -> string
}.

(** ** The state-and-exception monad *)

Inductive outcome (A : Type) :=
| Ret (a : A)
| Raise (e : exn).
Arguments Ret {A} a.
Arguments Raise {A} e.

Definition M (A : Type) : Type := obj -> world -> outcome A * obj * world.

Definition ret {A} (a : A) : M A := fun o w => (Ret a, o, w).

Definition bind {A B} (m : M A) (k : A -> M B) : M B :=
  fun o w =>
    match m o w with
    | (Ret a, o', w') => k a o' w'
    | (Raise e, o', w') => (Raise e, o', w')
    end.

Definition raise {A} (e : exn) : M A := fun o w => (Raise e, o, w).

(** [try: body except: handler] (a bare [except] catches everything). *)
Definition try_except {A} (body : M A) (handler : exn -> M A) : M A :=
  fun o w =>
    match body o w with
    | (Ret a, o', w') => (Ret a, o', w')
    | (Raise e, o', w') => handler e o' w'
    end.

Declare Scope py_scope.
Delimit Scope py_scope with py.
Notation "x <- m ;; k" := (bind m (fun x => k))
  (at level 100, m at next level, right associativity) : py_scope.
Notation "m ;;; k" := (bind m (fun _ => k))
  (at level 100, right associativity) : py_scope.
Local Open Scope py_scope.

Definition get_self : M obj := fun o w => (Ret o, o, w).
Definition get_world : M world := fun o w => (Ret w, o, w).
Definition put_world (w' : world) : M unit := fun o _ => (Ret tt, o, w').

Definition set_tunnel_name (n : pyname) : M unit :=
  fun o w => (Ret tt, Obj n (self_config_file o) (auto_start_on_create o), w).

Definition set_config_file (p : option string) : M unit :=
  fun o w => (Ret tt, Obj (self_tunnel_name o) p (auto_start_on_create o), w).

Definition with_log (ev : event) (w : world) : world :=
  World (state_file w) (yaml_files w) (dir_files w) (clock_ms w) (ev :: log w) (console w).

(** Perform an external action and read the oracle's answer for it. *)
Definition ask {A} (answer : nat -> A) (ev : event) : M A :=
  fun o w => (Ret (answer (length (log w))), o, with_log ev w).

Definition tell (ev : event) : M unit :=
  fun o w => (Ret tt, o, with_log ev w).

(** [print(msg)] *)
Definition print (msg : string) : M unit :=
  fun o w => (Ret tt, o,
    World (state_file w) (yaml_files w) (dir_files w) (clock_ms w) (log w) (msg :: console w)).

(** [time.sleep] advances the clock. *)
Definition sleep (ms : N) : M unit :=
  fun o w => (Ret tt, o,
    World (state_file w) (yaml_files w) (dir_files w) (clock_ms w + ms)%N (Sleep ms :: log w) (console w)).

Definition when (b : bool) (m : M unit) : M unit := if b then m else ret tt.

(** ** Updates of a tunnel record ([dict.update]) *)

Inductive field_update :=
| SetRoutes (rs : list route)
| SetAutoStart (b : bool)
| SetTempTunnel (b : bool)
| SetTempUrl (u : string)
| SetTempPort (p : Z)
| SetTempProcessId (p : option positive)
| SetLastAccessed (t : string).

Definition apply_update (i : tunnel_info) (u : field_update) : tunnel_info :=
  match i with
  | TunnelInfo ca cf rs au st tmp tu tp tpid la =>
      match u with
      | SetRoutes rs' => TunnelInfo ca cf rs' au st tmp tu tp tpid la
      | SetAutoStart b => TunnelInfo ca cf rs b st tmp tu tp tpid la
      | SetTempTunnel b => TunnelInfo ca cf rs au st (Some b) tu tp tpid la
      | SetTempUrl u' => TunnelInfo ca cf rs au st tmp (Some u') tp tpid la
      | SetTempPort p => TunnelInfo ca cf rs au st tmp tu (Some p) tpid la
      | SetTempProcessId p => TunnelInfo ca cf rs au st tmp tu tp p la
      | SetLastAccessed t => TunnelInfo ca cf rs au st tmp tu tp tpid (Some t)
      end
  end.

Definition dict_update (i : tunnel_info) (us : list field_update) : tunnel_info :=
  fold_left apply_update us i.

(** [json.load]: every key of the document is a string. *)
Definition json_loads (doc : manager_state) : state_dict :=
  StateDict (PyDict (tunnels doc) None) (current_tunnel doc) (last_updated doc).

(** [json.dump] writes the key [None] as the string ["null"]; string keys
    are kept.  The entry under [None] is always the most recent insertion
    into a loaded dictionary, so it is the one found under ["null"] when the
    document is read back. *)
Definition json_keys (d : pydict tunnel_info) : gmap string tunnel_info :=
  match none_item d with
  | Some v => <["null" := v]> (str_items d)
  | None => str_items d
  end.

Definition json_dumps (st : state_dict) : manager_state :=
  ManagerState (json_keys (d_tunnels st)) (d_current_tunnel st) (d_last_updated st).

Definition default_state : state_dict := StateDict (PyDict ∅ None) None None.

(** ** State Store *)

Section Manager.

Variable E : env.

Definition get_now : M string :=
  fun o w => (Ret (now E (length (log w))), o, w).

(** [open(self.STATE_FILE, 'r')] *)
Definition open_state_file : M disk_file :=
  fun o w =>
    match state_file w with
    | Missing => (Raise FileNotFoundError, o, w)
    | Unreadable => (Raise PermissionError, o, w)
    | f => (Ret f, o, w)
    end.

(** [json.load(f)] *)
Definition json_load (f : disk_file) : M state_dict :=
  match f with
  | Holds doc => ret (json_loads doc)
  | _ => raise JSONDecodeError
  end.

Definition _load_state : M state_dict :=
  try_except (f <- open_state_file ;; json_load f)
             (fun _ => ret default_state).

Definition _save_state (state : state_dict) : M unit :=
  t <- get_now ;;
  let doc := json_dumps (StateDict (d_tunnels state) (d_current_tunnel state) (Some t)) in
  fun o w =>
    (Ret tt, o,
     World (Holds doc) (yaml_files w) (dir_files w) (clock_ms w)
           (WriteState :: log w) (console w)).

Definition _register_tunnel (tunnel_name : pyname) : M unit :=
  state <- _load_state ;;
  t <- get_now ;;
  let tunnels' :=
    match dict_get tunnel_name (d_tunnels state) with
    | None =>
        dict_set tunnel_name
                 (TunnelInfo t (config_path tunnel_name) [] false "unknown"
                             None None None None None)
                 (d_tunnels state)
    | Some _ => d_tunnels state
    end in
  _save_state (StateDict tunnels' tunnel_name (d_last_updated state)).

Definition _update_tunnel_info (tunnel_name : pyname) (info : list field_update) : M unit :=
  state <- _load_state ;;
  match dict_get tunnel_name (d_tunnels state) with
  | Some i =>
      _save_state (StateDict (dict_set tunnel_name (dict_update i info) (d_tunnels state))
                             (d_current_tunnel state) (d_last_updated state))
  | None => ret tt
  end.

Definition _unregister_tunnel (tunnel_name : pyname) : M unit :=
  state <- _load_state ;;
  match dict_get tunnel_name (d_tunnels state) with
  | Some _ =>
      let cur := if decide (d_current_tunnel state = tunnel_name) then None
                 else d_current_tunnel state in
      _save_state (StateDict (dict_del tunnel_name (d_tunnels state)) cur
                             (d_last_updated state))
  | None => ret tt
  end.

Definition use_tunnel (tunnel_name : pyname) : M unit :=
  set_tunnel_name tunnel_name ;;;
  set_config_file (Some (config_path tunnel_name)) ;;;
  _register_tunnel tunnel_name ;;;
  state <- _load_state ;;
  _save_state (StateDict (d_tunnels state) tunnel_name (d_last_updated state)).

(** ** Environment probe and autostart registrar *)

Definition _detect_environment : M unit := tell EnvProbe.

Definition _has_systemd_user_support : M bool :=
  ask (has_systemd_user E) SystemdProbe.

(** [check_autostart_status(verbose=False)].  A query that raises is
    answered [False] by the surrounding [except], like a failing one. *)
Definition check_autostart_status : M bool :=
  o <- get_self ;;
  if negb (truthy (self_tunnel_name o)) then ret false
  else
    let n := fmt (self_tunnel_name o) in
    match sys_platform E with
    | Linux =>
        sd <- _has_systemd_user_support ;;
        if sd then
          ask (fun t => systemctl_ok E t "is-enabled" ("cloudflared-tunnel-" +:+ n))
              (SystemctlUser "is-enabled" ("cloudflared-tunnel-" +:+ n))
        else
          out <- ask (crontab_l E) CrontabList ;;
          match out with
          | Some stdout => ret (PyStr.contains ("start-tunnel-" +:+ n +:+ ".sh") stdout)
          | None => ret false
          end
    | Darwin =>
        out <- ask (launchctl_list E) LaunchctlList ;;
        match out with
        | Some stdout => ret (PyStr.contains ("com.user.cloudflare.tunnel." +:+ n) stdout)
        | None => ret false
        end
    | Win32 =>
        ask (fun t => schtasks_query E t ("CloudflaredTunnel-" +:+ n))
            (Schtasks "/query" ("CloudflaredTunnel-" +:+ n))
    | OtherPlatform => ret false
    end.

Definition add_dir_file (f : string) : M unit :=
  fun o w =>
    (Ret tt, o,
     World (state_file w) (yaml_files w)
           (if bool_decide (f ∈ dir_files w) then dir_files w else dir_files w ++ [f])
           (clock_ms w) (log w) (console w)).

(** [setup_autostart].  The four platform strategies are summarised by the
    oracle's [autostart_install_ok]; the unit file, script and agent they
    write live outside [config_dir], except the Windows batch file. *)
Definition setup_autostart : M bool :=
  o <- get_self ;;
  if negb (truthy (self_tunnel_name o)) then
    print "No tunnel selected. Use manager.use_tunnel('name') first" ;;; ret false
  else
    let n := fmt (self_tunnel_name o) in
    _detect_environment ;;;
    success <-
      match sys_platform E with
      | Linux =>
          _ <- _has_systemd_user_support ;;
          ask (autostart_install_ok E) (AutostartInstall n)
      | Darwin => ask (autostart_install_ok E) (AutostartInstall n)
      | Win32 =>
          add_dir_file ("tunnel-" +:+ n +:+ ".bat") ;;;
          ask (autostart_install_ok E) (AutostartInstall n)
      | OtherPlatform => ret false
      end ;;
    when success (_update_tunnel_info (self_tunnel_name o) [SetAutoStart true]) ;;;
    ret success.

(** [remove_autostart].  The artifacts it deletes (service unit, start
    script, agent descriptor, scheduled task) live outside [config_dir]. *)
Definition remove_autostart : M bool :=
  o <- get_self ;;
  if negb (truthy (self_tunnel_name o)) then
    print "No tunnel selected" ;;; ret false
  else
    let n := fmt (self_tunnel_name o) in
    success <-
      match sys_platform E with
      | Linux =>
          _ <- _has_systemd_user_support ;;
          ask (autostart_uninstall_ok E) (AutostartUninstall n)
      | Darwin | Win32 => ask (autostart_uninstall_ok E) (AutostartUninstall n)
      | OtherPlatform => ret false
      end ;;
    when success (_update_tunnel_info (self_tunnel_name o) [SetAutoStart false]) ;;;
    ret success.

(** ** Config Generator *)

Definition path_truthy (p : option string) : bool := truthy p.

Definition _load_config : M config :=
  o <- get_self ;;
  w <- get_world ;;
  match self_config_file o with
  | Some p =>
      if negb (path_truthy (Some p)) then ret empty_config
      else match yaml_files w !! p with
           | Some c => ret c
           | None => ret empty_config
           end
  | None => ret empty_config
  end.

Definition _save_config (c : config) : M unit :=
  o <- get_self ;;
  match self_config_file o with
  | Some p =>
      if negb (path_truthy (Some p)) then ret tt
      else fun o' w =>
             (Ret tt, o',
              World (state_file w) (<[p := c]> (yaml_files w)) (dir_files w)
                    (clock_ms w) (WriteConfig p :: log w) (console w))
  | None => ret tt
  end.

(** [isinstance(r, dict) and r.get("hostname") == domain] *)
Definition is_rule_for (domain : string) (r : rule) : bool :=
  match r with
  | RDict (Some h) _ => String.eqb h domain
  | _ => false
  end.

(** [isinstance(r, dict) and "hostname" in r] *)
Definition has_hostname (r : rule) : bool :=
  match r with
  | RDict (Some _) _ => true
  | _ => false
  end.

Definition is_dict (r : rule) : bool :=
  match r with
  | RDict _ _ => true
  | ROther _ => false
  end.

(** [r.get("service") != "http_status:404"], for a mapping [r] *)
Definition not_catch_all_service (r : rule) : bool :=
  match r with
  | RDict _ (Some s) => negb (String.eqb s "http_status:404")
  | _ => true
  end.

Definition catch_all : rule := RDict None (Some "http_status:404").

(** [f"http://{end_user_url}:{localhost_port}"] *)
Definition service_url (end_user_url : string) (localhost_port : Z) : string :=
  "http://" +:+ end_user_url +:+ ":" +:+ pretty localhost_port.

(** ** Tunnel Lifecycle Controller *)

Definition _get_tunnel_id (tunnel_name : pyname) : M (option string) :=
  o <- get_self ;;
  let tunnel_name := resolve_tunnel_name tunnel_name (self_tunnel_name o) in
  match tunnel_name with
  | Some name =>
      if negb (truthy tunnel_name) then ret None
      else
        out <- ask (tunnel_list_json E) CmdTunnelListJson ;;
        match out with
        | JsonTunnels ts =>
            match List.find (fun t => bool_decide (fst t = Some name)) ts with
            | Some t => ret (snd t)
            | None => ret None
            end
        | NotJson text =>
            match List.find (PyStr.contains name) (PyStr.split_lines (PyStr.strip text)) with
            | Some line =>
                match PyStr.first_token line with
                | Some tok => ret (Some tok)
                | None => raise IndexError
                end
            | None => ret None
            end
        end
  | None => ret None
  end.

(** The opening guard of [create_tunnel]: the name to go on with, or
    [None] when the guard returns [False] ("Tunnel name required"). *)
Definition create_tunnel_guard (tunnel_name current : pyname) : option pyname :=
  if negb (truthy tunnel_name) then
    if truthy current then
      let tunnel_name := current in
      if negb (truthy tunnel_name) then None else Some tunnel_name
    else Some tunnel_name
  else Some tunnel_name.

Definition create_tunnel (tunnel_name : pyname) (setup_auto_start : option bool) : M bool :=
  o <- get_self ;;
  match create_tunnel_guard tunnel_name (self_tunnel_name o) with
  | None => print "Tunnel name required" ;;; ret false
  | Some tunnel_name =>
      use_tunnel tunnel_name ;;;
      stdout <- ask (tunnel_list_text E) CmdTunnelList ;;
      match tunnel_name with
      | None => raise TypeError          (* [None in result.stdout] *)
      | Some name =>
          if PyStr.contains name stdout then ret true
          else
            ok <- ask (tunnel_create_ok E) (CmdTunnelCreate name) ;;
            if ok then
              _register_tunnel tunnel_name ;;;
              o' <- get_self ;;
              let setup := match setup_auto_start with
                           | Some b => b
                           | None => auto_start_on_create o'
                           end in
              (if setup then _ <- setup_autostart ;; ret tt else ret tt) ;;;
              ret true
            else
              print "Failed to create tunnel" ;;; ret false
      end
  end.

Definition _restart_tunnel : M unit :=
  o <- get_self ;;
  if negb (truthy (self_tunnel_name o)) then ret tt
  else
    let n := fmt (self_tunnel_name o) in
    let manual :=
      tell (Pkill ("cloudflared.*tunnel.*" +:+ n)) ;;;
      sleep 2000%N ;;;
      tell (CmdTunnelRun (self_config_file o) n) in
    st <- check_autostart_status ;;
    if st then
      _detect_environment ;;;
      sd <- _has_systemd_user_support ;;
      if sd then
        ok <- ask (fun t => systemctl_ok E t "restart" ("cloudflared-tunnel-" +:+ n))
                  (SystemctlUser "restart" ("cloudflared-tunnel-" +:+ n)) ;;
        if ok then ret tt else manual
      else manual
    else manual.

(** The first credentials file of the tunnel in [os.listdir(config_dir)]. *)
Definition is_credential_of (tunnel_id file : string) : bool :=
  PyStr.startswith tunnel_id file && PyStr.endswith ".json" file.

Definition restore (old_tunnel : pyname) (old_config : option string) : M unit :=
  set_tunnel_name old_tunnel ;;; set_config_file old_config.

(** The default of [add_route]'s [tunnel_name] parameter. *)
Definition universal_tunnel : pyname := Some "Universal-Tunnel".

(** [add_route(domain, localhost_port, end_user_url="localhost",
    tunnel_name='Universal-Tunnel')]; an omitted argument is [None]. *)
Definition add_route (domain : string) (localhost_port : Z)
           (end_user_url : option string) (tunnel_name : option pyname) : M bool :=
  let end_user_url := default "localhost" end_user_url in
  let tunnel_name := default universal_tunnel tunnel_name in
  o <- get_self ;;
  let tunnel_name := resolve_tunnel_name tunnel_name (self_tunnel_name o) in
  if negb (truthy tunnel_name) then
    print "No tunnel specified. Use manager.use_tunnel('name') first" ;;; ret false
  else
    when (negb (bool_decide (tunnel_name = self_tunnel_name o))) (use_tunnel tunnel_name) ;;;
    created <- create_tunnel tunnel_name None ;;
    if negb created then ret false
    else
      tunnel_id <- _get_tunnel_id tunnel_name ;;
      if negb (truthy tunnel_id) then print "Could not find tunnel ID" ;;; ret false
      else
        config <- _load_config ;;
        o1 <- get_self ;;
        let is_first_route :=
          match c_ingress config with
          | None => true
          | Some l => Nat.eqb (length (List.filter has_hostname l)) 0
          end in
        (if is_first_route && auto_start_on_create o1
         then _ <- check_autostart_status ;; ret tt else ret tt) ;;;
        w <- get_world ;;
        let creds_file :=
          match List.find (is_credential_of (fmt tunnel_id)) (dir_files w) with
          | Some file => Some (config_dir +:+ "/" +:+ file)
          | None => c_credentials_file config
          end in
        let ingress := default [] (c_ingress config) in
        let ingress := List.filter (fun r => negb (is_rule_for domain r)) ingress in
        if negb (forallb is_dict ingress) then raise AttributeError
        else
          let ingress := List.filter not_catch_all_service ingress in
          let ingress :=
            ingress ++ [RDict (Some domain) (Some (service_url end_user_url localhost_port));
                        catch_all] in
          _save_config (Config tunnel_id creds_file (Some ingress)) ;;;
          state <- _load_state ;;
          match dict_get tunnel_name (d_tunnels state) with
          | Some info =>
              let rs := List.filter (fun r => negb (String.eqb (route_domain r) domain))
                                    (routes info) in
              _update_tunnel_info tunnel_name
                [SetRoutes (rs ++ [Route domain (service_url end_user_url localhost_port)])]
          | None => ret tt
          end ;;;
          _ <- ask (route_dns_ok E) (CmdRouteDns (fmt tunnel_name) domain) ;;
          _restart_tunnel ;;;
          ret true.

(** [remove_route(domain, tunnel_name=None)] *)
Definition remove_route (domain : string) (tunnel_name : pyname) : M bool :=
  o <- get_self ;;
  let tunnel_name := resolve_tunnel_name tunnel_name (self_tunnel_name o) in
  if negb (truthy tunnel_name) then print "No tunnel specified" ;;; ret false
  else
    let old_tunnel := self_tunnel_name o in
    let old_config := self_config_file o in
    set_tunnel_name tunnel_name ;;;
    set_config_file (Some (config_path tunnel_name)) ;;;
    config <- _load_config ;;
    match c_ingress config with
    | None =>
        print "No routes configured" ;;;
        restore old_tunnel old_config ;;; ret false
    | Some ingress =>
        let original_len := length ingress in
        let ingress := List.filter (fun r => negb (is_rule_for domain r)) ingress in
        if Nat.eqb (length ingress) original_len then
          print ("Route for " +:+ domain +:+ " not found") ;;;
          restore old_tunnel old_config ;;; ret false
        else
          _save_config (Config (c_tunnel config) (c_credentials_file config) (Some ingress)) ;;;
          state <- _load_state ;;
          match dict_get tunnel_name (d_tunnels state) with
          | Some info =>
              _update_tunnel_info tunnel_name
                [SetRoutes (List.filter (fun r => negb (String.eqb (route_domain r) domain))
                                        (routes info))]
          | None => ret tt
          end ;;;
          _restart_tunnel ;;;
          restore old_tunnel old_config ;;;
          ret true
    end.

(** *** Deleting a tunnel *)

Definition max_retries : nat := 3.

(** How the retry loop of [delete_tunnel] is left. *)
Inductive loop_exit :=
| LoopDone                 (* [break], or the loop condition became false *)
| LoopReturn (b : bool)    (* [return b] from inside the loop *)
| LoopFuel.                (* the iteration budget of the model ran out *)

Fixpoint delete_loop (fuel : nat) (name : string) (old_tunnel : pyname)
         (retry_count : nat) : M loop_exit :=
  match fuel with
  | O => ret LoopFuel
  | S fuel' =>
      if retry_count <? max_retries then
        r <- ask (tunnel_delete E) (CmdTunnelDelete name) ;;
        match r with
        | None => ret LoopDone
        | Some stderr =>
            if PyStr.contains "active connections" stderr then
              let retry_count := retry_count + 1 in
              if retry_count <? max_retries then
                sleep 5000%N ;;;
                tell (Pkill9 "cloudflared") ;;;
                _ <- ask (tunnel_cleanup_ok E) (CmdTunnelCleanup name) ;;
                delete_loop fuel' name old_tunnel retry_count
              else
                print "Failed to delete tunnel: Active connections persist" ;;;
                set_tunnel_name old_tunnel ;;;
                ret (LoopReturn false)
            else
              print ("Failed to delete tunnel: " +:+ stderr) ;;;
              set_tunnel_name old_tunnel ;;;
              ret (LoopReturn false)
        end
      else ret LoopDone
  end.

Definition remove_path (p : string) : M unit :=
  fun o w =>
    (Ret tt, o,
     World (state_file w) (delete p (yaml_files w)) (dir_files w)
           (clock_ms w) (RemoveFile p :: log w) (console w)).

Definition remove_dir_files (doomed : string -> bool) : M unit :=
  fun o w =>
    (Ret tt, o,
     World (state_file w) (yaml_files w)
           (List.filter (fun f => negb (doomed f)) (dir_files w))
           (clock_ms w)
           (rev (map (fun f => RemoveFile (config_dir +:+ "/" +:+ f))
                     (List.filter doomed (dir_files w))) ++ log w)
           (console w)).

(** [delete_tunnel(tunnel_name=None, force=False)] *)
Definition delete_tunnel (tunnel_name : pyname) (force : bool) : M bool :=
  o <- get_self ;;
  let tunnel_name := resolve_tunnel_name tunnel_name (self_tunnel_name o) in
  if negb (truthy tunnel_name) then print "No tunnel specified" ;;; ret false
  else
    let name := fmt tunnel_name in
    let old_tunnel := self_tunnel_name o in
    use_tunnel tunnel_name ;;;
    has_autostart <- check_autostart_status ;;
    tell (Pkill ("cloudflared.*tunnel.*" +:+ name)) ;;;
    (if has_autostart then
       match sys_platform E with
       | Linux =>
           sd <- _has_systemd_user_support ;;
           when sd (tell (SystemctlUser "stop" ("cloudflared-tunnel-" +:+ name)))
       | Darwin => tell (Launchctl "stop" ("com.user.cloudflare.tunnel." +:+ name))
       | Win32 => tell (Schtasks "/end" ("CloudflaredTunnel-" +:+ name))
       | OtherPlatform => ret tt
       end
     else ret tt) ;;;
    sleep 3000%N ;;;
    _ <- ask (tunnel_cleanup_ok E) (CmdTunnelCleanup name) ;;
    (if has_autostart then _ <- remove_autostart ;; ret tt else ret tt) ;;;
    exit <- delete_loop max_retries name old_tunnel 0 ;;
    match exit with
    | LoopReturn b => ret b
    | LoopFuel => ret false
    | LoopDone =>
        o1 <- get_self ;;
        w <- get_world ;;
        match self_config_file o1 with
        | Some p => when (bool_decide (is_Some (yaml_files w !! p))) (remove_path p)
        | None => ret tt
        end ;;;
        tunnel_id <- _get_tunnel_id tunnel_name ;;
        when (truthy tunnel_id) (remove_dir_files (is_credential_of (fmt tunnel_id))) ;;;
        _unregister_tunnel tunnel_name ;;;
        (if bool_decide (old_tunnel = tunnel_name) then
           set_tunnel_name None ;;; set_config_file None
         else
           set_tunnel_name old_tunnel ;;;
           set_config_file (Some (config_path old_tunnel))) ;;;
        ret true
    end.

(** ** Temporary Tunnel Supervisor *)

Definition timeout_ms : N := 30000.

Inductive wait_result :=
| UrlFound (url : string)
| TimedOut
| ProcessDied
| WaitFuel.

(** [process.stderr.readline()]: blocks for a while, then yields a line or
    raises. *)
Definition readline (pid : positive) : M (option string) :=
  fun o w =>
    let t := length (log w) in
    (Ret (proc_readline E t), o,
     World (state_file w) (yaml_files w) (dir_files w)
           (clock_ms w + proc_readline_ms E t)%N (ProcReadline pid :: log w) (console w)).

(** The line test of the polling loop. *)
Definition url_of_line (line : string) : option string :=
  if negb (String.eqb line "") &&
     (PyStr.contains "https://" line || PyStr.contains "trycloudflare.com" line)
  then PyStr.search_url line
  else None.

Fixpoint wait_for_url (fuel : nat) (pid : positive) (start_time : N) : M wait_result :=
  match fuel with
  | O => ret WaitFuel
  | S fuel' =>
      w <- get_world ;;
      if (clock_ms w - start_time <? timeout_ms)%N then
        exited <- ask (proc_exited E) (ProcPoll pid) ;;
        if exited then
          _ <- ask (proc_stderr_rest E) (ProcReadAll pid) ;;
          print "Tunnel process failed" ;;;
          ret ProcessDied
        else
          line <- readline pid ;;
          match line ≫= url_of_line with
          | Some url => ret (UrlFound url)
          | None => sleep 500%N ;;; wait_for_url fuel' pid start_time
          end
      else ret TimedOut
  end.

(** Enough iterations for the 30 second budget: every iteration that
    continues sleeps half a second. *)
Definition wait_budget : nat := 61.

(** [create_temp_tunnel(port, subdomain=None)] *)
Definition create_temp_tunnel (port : Z) (subdomain : pyname) : M (option string) :=
  try_except
    (w0 <- get_world ;;
     let temp_name := Some ("temp-" +:+ pretty (clock_ms w0 / 1000)%N) in
     started <- ask (popen_temp E)
                    (CmdTempTunnel port (if truthy subdomain then subdomain else None)) ;;
     match started with
     | None => raise FileNotFoundError
     | Some pid =>
         w1 <- get_world ;;
         found <- wait_for_url wait_budget pid (clock_ms w1) ;;
         match found with
         | UrlFound url =>
             _register_tunnel temp_name ;;;
             _update_tunnel_info temp_name
               [SetTempTunnel true; SetTempUrl url; SetTempPort port;
                SetTempProcessId (Some pid); SetAutoStart false] ;;;
             ret (Some url)
         | TimedOut =>
             print "Failed to get tunnel URL within timeout" ;;;
             tell (ProcTerminate pid) ;;;
             ret None
         | ProcessDied => ret None
         | WaitFuel => ret None
         end
     end)
    (fun _ => print "Failed to create temporary tunnel" ;;; ret None).

(** [list_temp_tunnels]: the result is the list [temp_tunnels] whose rows
    the function prints.  The records are visited in the order of
    [dict_items]. *)
Fixpoint list_temp_loop (items : list (pyname * tunnel_info))
         (temp_tunnels : list tunnel_info) : M (list tunnel_info) :=
  match items with
  | [] => ret temp_tunnels
  | (tunnel_name, info) :: items' =>
      if default false (temp_tunnel info) then
        match temp_process_id info with
        | Some pid =>
            alive <- ask (fun t => process_alive E t pid) (Kill0 pid) ;;
            if alive then list_temp_loop items' (temp_tunnels ++ [info])
            else _unregister_tunnel tunnel_name ;;; list_temp_loop items' temp_tunnels
        | None => list_temp_loop items' temp_tunnels
        end
      else list_temp_loop items' temp_tunnels
  end.

Definition list_temp_tunnels : M (list tunnel_info) :=
  state <- _load_state ;;
  list_temp_loop (dict_items (d_tunnels state)) [].

Definition _check_tunnel_status (tunnel_name : pyname) : M string :=
  state <- _load_state ;;
  let tunnel_info := dict_get tunnel_name (d_tunnels state) in
  let name := fmt tunnel_name in
  let manual_and_temp :=
    found <- ask (pgrep_found E) (Pgrep ("cloudflared.*tunnel.*" +:+ name)) ;;
    if default false found then ret "running (manual)"
    else
      match tunnel_info ≫= temp_process_id with
      | Some pid =>
          alive <- ask (fun t => process_alive E t pid) (Kill0 pid) ;;
          if alive then ret "running (temp)"
          else
            _update_tunnel_info tunnel_name [SetTempProcessId None] ;;;
            ret "stopped"
      | None => ret "stopped"
      end in
  if default false (auto_start <$> tunnel_info) then
    sd <- _has_systemd_user_support ;;
    if sd then
      active <- ask (fun t => systemctl_ok E t "is-active" ("cloudflared-tunnel-" +:+ name))
                    (SystemctlUser "is-active" ("cloudflared-tunnel-" +:+ name)) ;;
      if active then ret "running (service)" else manual_and_temp
    else manual_and_temp
  else manual_and_temp.

End Manager.

(** ** Sessions, adoption and listings *)

(** [rule["service"]] on a mapping without that key: the [KeyError] is
    carried in the result. *)
Inductive lookup_failure :=
| KeyError (key : string).

(** The loop that turns the hostname rules of an ingress list into route
    entries, in the order of the file. *)
Fixpoint hostname_routes (rules : list rule) (routes : list route)
  : lookup_failure + list route :=
  match rules with
  | [] => inr routes
  | RDict (Some h) (Some s) :: rules' => hostname_routes rules' (routes ++ [Route h s])
  | RDict (Some _) None :: _ => inl (KeyError "service")
  | _ :: rules' => hostname_routes rules' routes
  end.

(** The candidates of [adopt_tunnel], in the order they are tried. *)
Definition possible_configs (tunnel_name : pyname) : list string :=
  [ config_dir +:+ "/config.yml";
    config_path tunnel_name;
    config_dir +:+ "/" +:+ fmt tunnel_name +:+ ".yml" ].

(** [shutil.copy2(src, dst)] between config files *)
Definition copy_config (src dst : string) : M unit :=
  fun o w =>
    match yaml_files w !! src with
    | Some c =>
        (Ret tt, o,
         World (state_file w) (<[dst := c]> (yaml_files w)) (dir_files w)
               (clock_ms w) (WriteConfig dst :: log w) (console w))
    | None => (Raise FileNotFoundError, o, w)
    end.

(** The search loop of [adopt_tunnel]; the result is [config_found]. *)
Fixpoint find_config (candidates : list string) : M bool :=
  match candidates with
  | [] => ret false
  | path :: candidates' =>
      w <- get_world ;;
      if bool_decide (is_Some (yaml_files w !! path)) then
        o <- get_self ;;
        (if negb (bool_decide (Some path = self_config_file o)) then
           match self_config_file o with
           | Some dst => copy_config path dst
           | None => raise TypeError
           end
         else ret tt) ;;;
        ret true
      else find_config candidates'
  end.

Section Sessions.

Variable E : env.

(** [_init_state] *)
Definition _init_state : M unit :=
  w <- get_world ;;
  match state_file w with
  | Missing =>
      t <- get_now E ;;
      _save_state E (StateDict (PyDict ∅ None) None (Some t))
  | _ => ret tt
  end.

(** [UniversalTunnelManager(tunnel_name, auto_start_on_create)]: the
    constructor starts from a new object, whatever object ran before.
    Creating the config directory and registering the exit hook are left
    out. *)
Definition __init__ (tunnel_name : pyname) (auto_start_on_create : bool) : M unit :=
  fun _ w =>
    (_init_state ;;;
     if truthy tunnel_name then
       set_config_file (Some (config_path tunnel_name)) ;;;
       _register_tunnel E tunnel_name
     else set_config_file None)
      (Obj tunnel_name None auto_start_on_create) w.

Definition get_current_tunnel : M pyname :=
  o <- get_self ;;
  if truthy (self_tunnel_name o) then ret (self_tunnel_name o)
  else
    state <- _load_state ;;
    ret (d_current_tunnel state).

(** [adopt_tunnel(tunnel_name)].  The body runs under a bare [except]. *)
Definition adopt_tunnel (tunnel_name : pyname) : M bool :=
  out <- ask (tunnel_list_json E) CmdTunnelListJson ;;
  let failed := print "Failed to check tunnel existence" ;;; ret false in
  try_except
    (match out with
     | NotJson _ => raise JSONDecodeError
     | JsonTunnels tunnels =>
         if negb (existsb (fun t => bool_decide (fst t = tunnel_name)) tunnels) then
           print ("Tunnel '" +:+ fmt tunnel_name +:+ "' not found") ;;; ret false
         else
           _register_tunnel E tunnel_name ;;;
           use_tunnel E tunnel_name ;;;
           config_found <- find_config (possible_configs tunnel_name) ;;
           if config_found then
             config <- _load_config ;;
             match hostname_routes (default [] (c_ingress config)) [] with
             | inr routes =>
                 _update_tunnel_info E tunnel_name [SetRoutes routes] ;;;
                 ret true
             | inl _ => failed
             end
           else ret true
     end)
    (fun _ => failed).

(** [list_routes(tunnel_name=None)].  A hostname rule without a service
    makes the config fallback raise [KeyError]: the result is [inl], and
    the manager object is not switched back. *)
Definition list_routes (tunnel_name : pyname) : M (lookup_failure + list route) :=
  o <- get_self ;;
  let tunnel_name := resolve_tunnel_name tunnel_name (self_tunnel_name o) in
  if negb (truthy tunnel_name) then print "No tunnel specified" ;;; ret (inr [])
  else
    state <- _load_state ;;
    match dict_get tunnel_name (d_tunnels state) with
    | Some info => ret (inr (routes info))
    | None =>
        let old_tunnel := self_tunnel_name o in
        let old_config := self_config_file o in
        set_tunnel_name tunnel_name ;;;
        set_config_file (Some (config_path tunnel_name)) ;;;
        config <- _load_config ;;
        match hostname_routes (default [] (c_ingress config)) [] with
        | inl e => ret (inl e)
        | inr routes => restore old_tunnel old_config ;;; ret (inr routes)
        end
    end.

(** [start_tunnel(tunnel_name=None)] *)
Definition start_tunnel (tunnel_name : pyname) : M unit :=
  o <- get_self ;;
  let tunnel_name := resolve_tunnel_name tunnel_name (self_tunnel_name o) in
  if negb (truthy tunnel_name) then print "No tunnel specified"
  else
    let config_file := config_path tunnel_name in
    w <- get_world ;;
    if negb (bool_decide (is_Some (yaml_files w !! config_file))) then
      print ("No configuration found for tunnel '" +:+ fmt tunnel_name
             +:+ "'. Add a route first.")
    else tell (CmdTunnelRun (Some config_file) (fmt tunnel_name)).

(** [stop_temp_tunnel(url=None)].  [os.kill(pid, signal.SIGTERM)] is the
    signal of [ProcTerminate]; it raises exactly when the probe
    [os.kill(pid, 0)] would. *)
Fixpoint stop_temp_loop (items : list (pyname * tunnel_info)) (url : pyname)
         (stopped_any : bool) : M bool :=
  match items with
  | [] => ret stopped_any
  | (tunnel_name, info) :: items' =>
      if default false (temp_tunnel info) then
        if truthy url && negb (bool_decide (temp_url info = url)) then
          stop_temp_loop items' url stopped_any
        else
          stopped_any <-
            match temp_process_id info with
            | Some pid =>
                killed <- ask (fun t => process_alive E t pid) (ProcTerminate pid) ;;
                if killed then ret true
                else
                  print ("Process " +:+ pretty (Z.pos pid)
                         +:+ " not found (may have already stopped)") ;;;
                  ret stopped_any
            | None => ret stopped_any
            end ;;
          _unregister_tunnel E tunnel_name ;;;
          stop_temp_loop items' url stopped_any
      else stop_temp_loop items' url stopped_any
  end.

Definition stop_temp_tunnel (url : pyname) : M unit :=
  state <- _load_state ;;
  stopped_any <- stop_temp_loop (dict_items (d_tunnels state)) url false ;;
  if stopped_any then ret tt
  else if truthy url then
    print ("Temporary tunnel with URL " +:+ fmt url +:+ " not found")
  else print "No temporary tunnels running".

(** ** Callers: the convenience functions and the HTTP endpoints

    Each of them works on a manager object of its own. *)

(** [quick_tunnel_setup(tunnel_name, domain, port)] of [test/test.py] *)
Definition quick_tunnel_setup (tunnel_name : pyname) (domain : string) (port : Z) : M bool :=
  __init__ tunnel_name true ;;;
  created <- create_tunnel E tunnel_name None ;;
  if negb created then ret false
  else add_route E domain port None None.

(** [cleanup_all_temp()] of [test/test.py] *)
Definition cleanup_all_temp : M unit :=
  __init__ None true ;;;
  stop_temp_tunnel None.

(** The manager calls of the endpoint [GET /tunnel/routes] of
    [api/routes.py], once the caller is authenticated *)
Definition api_list_routes (tunnel_name : string) : M (lookup_failure + list route) :=
  __init__ (Some tunnel_name) true ;;;
  list_routes (Some tunnel_name).

End Sessions.

(** * Vocabulary of the statements

    The predicates of the program logic, the views of the world that the
    theorems speak about, and the sample inputs. *)

(** [preserves P m]: running [m] keeps [P], whether it returns or raises. *)
Definition preserves {A} (P : obj -> world -> Prop) (m : M A) : Prop :=
  forall o w, P o w -> P (m o w).1.2 (m o w).2.

(** [ensures m o w Q]: after running [m] from [o] and [w], [Q] holds of the
    manager and the world, whether [m] returned or raised. *)
Definition ensures {A} (m : M A) (o : obj) (w : world) (Q : obj -> world -> Prop) : Prop :=
  Q (m o w).1.2 (m o w).2.

(** [returns m]: [m] never raises. *)
Definition returns {A} (m : M A) : Prop :=
  forall o w, exists a, (m o w).1.1 = Ret a.

Module Sample.

(** A Linux host without a user service manager.  The provider registry
    holds the tunnels [my-app] and [demo]; every delete attempt reports
    active connections; a temporary tunnel never prints a URL. *)
Definition host : env :=
  Env Linux
      (fun _ => "2024-05-01T10:00:00")
      (fun _ => "ID                                   NAME   CREATED
6ff42ae2-765d-4adf-8112-31c55c1551ef my-app 2024-04-30T09:00:00Z
2a18c0de-1f0b-4c55-9a3e-0d6f5b7e9c11 demo   2024-04-30T09:30:00Z")
      (fun _ => JsonTunnels [(Some "my-app", Some "6ff42ae2-765d-4adf-8112-31c55c1551ef");
                             (Some "demo", Some "2a18c0de-1f0b-4c55-9a3e-0d6f5b7e9c11")])
      (fun _ => true)
      (fun _ => Some "failed to delete tunnel: tunnel has active connections")
      (fun _ => true)
      (fun _ => true)
      (fun _ => false)
      (fun _ _ _ => false)
      (fun _ => None)
      (fun _ => None)
      (fun _ _ => false)
      (fun _ => true)
      (fun _ => true)
      (fun _ => Some false)
      (fun _ _ => false)
      (fun _ => Some 4242%positive)
      (fun _ => false)
      (fun _ => Some "INF Requesting new quick Tunnel")
      (fun _ => 100%N)
      (fun _ => "").

Definition fresh_world : world := World Missing ∅ [] 0 [] [].

Definition fresh_manager : obj := Obj None None true.

(** The same host after tunnel [demo] got one route. *)
Definition demo_rules : list rule :=
  [RDict (Some "app.example.com") (Some "http://svc:3000"); catch_all].

Definition routed_world : world :=
  World Missing
        {[ config_path (Some "demo") := Config (Some "2a18") None (Some demo_rules) ]}
        [] 0 [] [].

End Sample.

(** The document a later [_load_state] reads. *)
Definition loaded (w : world) : state_dict :=
  match state_file w with
  | Holds doc => json_loads doc
  | _ => default_state
  end.

(** The world after [_save_state]. *)
Definition saved (E : env) (st : state_dict) (w : world) : world :=
  World (Holds (json_dumps (StateDict (d_tunnels st) (d_current_tunnel st)
                                      (Some (now E (length (log w)))))))
        (yaml_files w) (dir_files w) (clock_ms w) (WriteState :: log w) (console w).

(** The key under which [json.dump] files a record. *)
Definition json_key (n : pyname) : string := default "null" n.

(** A record for [n] is on disk. *)
Definition registered (n : pyname) (w : world) : Prop :=
  is_Some (str_items (d_tunnels (loaded w)) !! json_key n).

Definition disk_tunnels (w : world) : gmap string tunnel_info :=
  str_items (d_tunnels (loaded w)).

Definition disk_current (w : world) : pyname := d_current_tunnel (loaded w).

(** The ingress list in the config file of a tunnel, if the file has one. *)
Definition ingress_of (tunnel_name : pyname) (w : world) : option (list rule) :=
  yaml_files w !! config_path tunnel_name ≫= c_ingress.

(** Does the config of the tunnel hold a hostname rule for the domain? *)
Definition has_rule_for (domain : string) (tunnel_name : pyname) (w : world) : bool :=
  existsb (is_rule_for domain) (default [] (ingress_of tunnel_name w)).

(** The manager works on tunnel [n]: the object points at it, its record is
    on disk and it is the current tunnel. *)
Definition selected (n : pyname) (o : obj) (w : world) : Prop :=
  self_tunnel_name o = n
  /\ self_config_file o = Some (config_path n)
  /\ registered n w
  /\ disk_current w = n.

Definition is_catch_all (r : rule) : bool := bool_decide (r = catch_all).

(** Hostname rules with at most one rule per domain, then the catch-all. *)
Definition well_formed_ingress (l : list rule) : Prop :=
  exists hs,
    l = hs ++ [catch_all]
    /\ Forall (fun r => has_hostname r = true) hs
    /\ forall d, length (List.filter (is_rule_for d) hs) <= 1.

(** A call of the route interface: the oracle of that call, the manager
    object it is made on, and the operation with its arguments. *)
Inductive route_op :=
| AddRoute (domain : string) (localhost_port : Z) (end_user_url : option string)
           (tunnel_name : option pyname)
| RemoveRoute (domain : string) (tunnel_name : pyname).

Record route_call := RouteCall {
  rc_env : env;
  rc_self : obj;
  rc_op : route_op
}.

(** The tunnel a call works on. *)
Definition call_tunnel (c : route_call) : pyname :=
  match rc_op c with
  | AddRoute _ _ _ tunnel_name =>
      resolve_tunnel_name (default universal_tunnel tunnel_name) (self_tunnel_name (rc_self c))
  | RemoveRoute _ tunnel_name =>
      resolve_tunnel_name tunnel_name (self_tunnel_name (rc_self c))
  end.

Definition run_call (c : route_call) (w : world) : outcome bool * obj * world :=
  match rc_op c with
  | AddRoute domain port host tunnel_name =>
      add_route (rc_env c) domain port host tunnel_name (rc_self c) w
  | RemoveRoute domain tunnel_name =>
      remove_route (rc_env c) domain tunnel_name (rc_self c) w
  end.

(** Run the calls in order; every call must work on tunnel [tn] and return
    [True]. *)
Fixpoint run_calls (tn : pyname) (calls : list route_call) (w : world) : option world :=
  match calls with
  | [] => Some w
  | c :: cs =>
      if bool_decide (call_tunnel c = tn) then
        match run_call c w with
        | (Ret true, _, w') => run_calls tn cs w'
        | _ => None
        end
      else None
  end.

Module RouteSample.

Definition call (op : route_op) : route_call :=
  RouteCall Sample.host Sample.fresh_manager op.

Definition calls : list route_call :=
  [ call (AddRoute "app.example.com" 3000 (Some "svc") (Some (Some "demo")));
    call (AddRoute "api.example.com" 5000 None (Some (Some "demo")));
    call (AddRoute "app.example.com" 8080 None (Some (Some "demo")));
    call (RemoveRoute "api.example.com" (Some "demo")) ].

Definition final_world : world :=
  default Sample.fresh_world (run_calls (Some "demo") calls Sample.fresh_world).

End RouteSample.

(** The provider delete attempts in a log. *)
Definition is_delete (ev : event) : bool :=
  match ev with
  | CmdTunnelDelete _ => true
  | _ => false
  end.

Definition delete_attempts (l : list event) : nat := length (List.filter is_delete l).

(** What a failed delete must leave alone: the config files, the other
    files of the config directory, and the tunnel's record. *)
Definition artifacts_kept (Y : gmap string config) (D : list string) (n : pyname)
           (c : nat) : obj -> world -> Prop :=
  fun o w =>
    (yaml_files w = Y /\ dir_files w = D)
    /\ (registered n w /\ delete_attempts (log w) = c).

(** The provider answers a delete attempt with "active connections". *)
Definition reports_active (answer : option string) : bool :=
  match answer with
  | Some stderr => PyStr.contains "active connections" stderr
  | None => false
  end.

(** Two retries, each after a delay, a forced kill and a cleanup. *)
Definition retry_trace (name : string) : list event :=
  [CmdTunnelDelete name;
   CmdTunnelCleanup name; Pkill9 "cloudflared"; Sleep 5000; CmdTunnelDelete name;
   CmdTunnelCleanup name; Pkill9 "cloudflared"; Sleep 5000; CmdTunnelDelete name].

(** The record of a temporary tunnel. *)
Definition transient_record (info : tunnel_info) (url : string) (port : Z)
           (pid : positive) : Prop :=
  temp_tunnel info = Some true
  /\ temp_url info = Some url
  /\ temp_port info = Some port
  /\ temp_process_id info = Some pid
  /\ auto_start info = false.

(** The quick tunnel prints its URL on the third line. *)
Definition quick_tunnel_lines (t : nat) : option string :=
  if 6 <=? t then Some "INF |  https://calm-river.trycloudflare.com  |"
  else Some "INF Requesting new quick Tunnel on trycloudflare.com...".

Definition quick_tunnel_host : env :=
  match Sample.host with
  | Env a b c d e f g h i j k l m n o p q r s _ u v =>
      Env a b c d e f g h i j k l m n o p q r s quick_tunnel_lines u v
  end.

Module ReapSample.

Definition record : tunnel_info :=
  TunnelInfo "2024-05-01T09:00:00" (config_path (Some "temp-1714554000")) [] false
             "unknown" (Some true) (Some "https://calm-river.trycloudflare.com")
             (Some 8080%Z) (Some 4242%positive) None.

(** A state document with one transient record; [Sample.host] reports the
    process 4242 as gone and finds no matching manual process. *)
Definition world_with_dead_temp : world :=
  World (Holds (ManagerState {[ "temp-1714554000" := record ]} None None))
        ∅ [] 0 [] [].

End ReapSample.

(** ** Vocabulary of the further properties *)

(** The route entry that the listing loops make of an ingress rule. *)
Definition route_of_rule (r : rule) : option route :=
  match r with
  | RDict (Some h) (Some s) => Some (Route h s)
  | _ => None
  end.

(** The record filed under [k] has the route list [rs]. *)
Definition routes_kept (k : string) (rs : list route) : obj -> world -> Prop :=
  fun _ w => routes <$> disk_tunnels w !! k = Some rs.

(** The provider answers a delete attempt with a failure that does not
    mention active connections. *)
Definition reports_other_failure (answer : option string) : bool :=
  match answer with
  | Some stderr => negb (PyStr.contains "active connections" stderr)
  | None => false
  end.

(** The id that a JSON listing gives for a name: the one of the first
    entry with that name. *)
Definition listed_id (ts : list (option string * option string)) (name : string)
  : option string :=
  List.find (fun t => bool_decide (fst t = Some name)) ts ≫= snd.

(** What is left of the config directory after the credential files of a
    tunnel id are removed. *)
Definition without_credentials (tunnel_id : option string) (files : list string)
  : list string :=
  if truthy tunnel_id
  then List.filter (fun f => negb (is_credential_of (fmt tunnel_id) f)) files
  else files.

(** The records that [stop_temp_tunnel(url)] works on: the temporary ones,
    all of them or those with the given URL. *)
Definition stops (url : pyname) (info : tunnel_info) : bool :=
  default false (temp_tunnel info)
  && negb (truthy url && negb (bool_decide (temp_url info = url))).

(** A record that [list_temp_tunnels] has no reason to remove: it is not
    temporary, or it tracks no process, or its process answers every
    liveness probe. *)
Definition survives_listing (E : env) (info : tunnel_info) : Prop :=
  default false (temp_tunnel info) = false
  \/ temp_process_id info = None
  \/ exists pid, temp_process_id info = Some pid /\ forall t, process_alive E t pid = true.

(** The four answers of [_check_tunnel_status]. *)
Definition status_words : list string :=
  ["running (service)"; "running (manual)"; "running (temp)"; "stopped"].

(** A host on which every tracked process is alive. *)
Definition lively_host : env :=
  match Sample.host with
  | Env a b c d e f g h i j k l m n o p _ r s t u v =>
      Env a b c d e f g h i j k l m n o p (fun _ _ => true) r s t u v
  end.

(** What a status check that answered [st] may have done to the world [w]:
    nothing that the records show, or the [temp_process_id] of the checked
    record cleared. *)
Definition status_checked (tunnel_name : pyname) (w : world) (st : string) (w' : world)
  : Prop :=
  In st status_words
  /\ yaml_files w' = yaml_files w
  /\ disk_current w' = disk_current w
  /\ (disk_tunnels w' = disk_tunnels w
      \/ (st = "stopped"
          /\ exists info pid,
               disk_tunnels w !! json_key tunnel_name = Some info
               /\ temp_process_id info = Some pid
               /\ disk_tunnels w'
                  = <[json_key tunnel_name := apply_update info (SetTempProcessId None)]>
                      (disk_tunnels w))).

(** What the steps of [delete_tunnel] before the retry loop keep: the
    artifacts, the selection of the tunnel, and the registration of every
    record. *)
Definition delete_frame (w0 : world) (tn : pyname) : obj -> world -> Prop :=
  fun o w =>
    artifacts_kept (yaml_files w0) (dir_files w0) tn (delete_attempts (log w0)) o w
    /\ selected tn o w
    /\ forall k, registered k w0 -> registered k w.

(** The config that [adopt_tunnel] finds for a name: the content of the
    first candidate file that exists. *)
Definition adopt_source (tunnel_name : pyname) (w : world) : option config :=
  head (omap (fun p => yaml_files w !! p) (possible_configs tunnel_name)).

(** No character of the string is white space. *)
Fixpoint all_nonspace (s : string) : bool :=
  match s with
  | EmptyString => true
  | String c s' => negb (PyStr.is_space c) && all_nonspace s'
  end.

(** A host whose provider registry also lists the default tunnel of
    [add_route]. *)
Definition default_tunnel_host : env :=
  match Sample.host with
  | Env a b c _ e f g h i j k l m n o p q r s t u v =>
      Env a b c
          (fun _ => JsonTunnels [(Some "Universal-Tunnel",
                                  Some "0d3f1c2a-9b7e-4c7e-8a43-5f2b6f0e7d21")])
          e f g h i j k l m n o p q r s t u v
  end.

(** * A small program logic for [M] *)

Lemma preserves_ret {A} P (a : A) : preserves P (ret a).
Proof. intros o w H. exact H. Qed.

Lemma preserves_raise {A} P e : preserves P (@raise A e).
Proof. intros o w H. exact H. Qed.

Lemma preserves_bind {A B} P (m : M A) (k : A -> M B) :
  preserves P m -> (forall a, preserves P (k a)) -> preserves P (bind m k).
Proof.
  intros Hm Hk o w H. unfold bind.
  specialize (Hm o w H). destruct (m o w) as [[[a|e] o1] w1]; simpl in *.
  - apply Hk. exact Hm.
  - exact Hm.
Qed.

Lemma preserves_try_except {A} P (body : M A) handler :
  preserves P body -> (forall e, preserves P (handler e)) ->
  preserves P (try_except body handler).
Proof.
  intros Hm Hk o w H. unfold try_except.
  specialize (Hm o w H). destruct (body o w) as [[[a|e] o1] w1]; simpl in *.
  - exact Hm.
  - apply Hk. exact Hm.
Qed.

Lemma preserves_run {A} P (m : M A) o w r o' w' :
  preserves P m -> P o w -> m o w = (r, o', w') -> P o' w'.
Proof. intros Hm H Heq. specialize (Hm o w H). rewrite Heq in Hm. exact Hm. Qed.

Lemma preserves_and {A} (P Q : obj -> world -> Prop) (m : M A) :
  preserves P m -> preserves Q m -> preserves (fun o w => P o w /\ Q o w) m.
Proof. intros HP HQ o w [H1 H2]. split; [apply HP | apply HQ]; assumption. Qed.

(** Inversion of a [bind] that returned. *)
Lemma bind_ret_inv {A B} (m : M A) (k : A -> M B) o w b o' w' :
  bind m k o w = (Ret b, o', w') ->
  exists a o1 w1, m o w = (Ret a, o1, w1) /\ k a o1 w1 = (Ret b, o', w').
Proof.
  unfold bind. destruct (m o w) as [[[a|e] o1] w1]; intros H.
  - exists a, o1, w1. split; [reflexivity | exact H].
  - discriminate.
Qed.

Create HintDb pres discriminated.

Ltac head_of t :=
  lazymatch t with
  | ?f _ => head_of f
  | _ => t
  end.

(** Primitive actions: unfold to the underlying function and compare the
    parts of the world that the predicate looks at. *)
Ltac pres_leaf :=
  let o := fresh "o" in
  let w := fresh "w" in
  let H := fresh "H" in
  intros o w H; cbn in *; repeat case_match; cbn in *;
  first [ exact H | assumption | solve [intuition eauto] ].

Ltac pres :=
  cbv zeta;
  lazymatch goal with
  | |- preserves _ (bind _ _) => apply preserves_bind; [pres | intros ?; pres]
  | |- preserves _ (try_except _ _) => apply preserves_try_except; [pres | intros ?; pres]
  | |- preserves _ (ret _) => apply preserves_ret
  | |- preserves _ (raise _) => apply preserves_raise
  | |- preserves _ (when ?b _) => destruct b; unfold when; pres
  | |- preserves _ (match ?x with _ => _ end) => destruct x; pres
  | |- preserves _ ?m =>
      first
        [ solve [eauto with pres]
        | let h := head_of m in progress (unfold h); cbv beta; pres
        | pres_leaf ]
  end.

(** * State Store: loading fails soft *)

Lemma _load_state_returns o w :
  exists st, _load_state o w = (Ret st, o, w).
Proof.
  unfold _load_state, try_except, bind, open_state_file, json_load.
  destruct (state_file w); cbn; eauto.
Qed.

(** C8. Whatever is wrong with the state file (missing, unreadable, or
    not valid JSON), [_load_state] returns the empty default state (no
    tunnels, no current tunnel), leaves the manager and the world as they
    are, and does not raise. *)
Theorem load_state_fails_soft (o : obj) (w : world)
        (Hbad : forall doc, state_file w <> Holds doc) :
  _load_state o w = (Ret default_state, o, w)
  /\ dict_items (d_tunnels default_state) = []
  /\ d_current_tunnel default_state = None.
Proof.
  split; [|split; reflexivity].
  unfold _load_state, try_except, bind, open_state_file, json_load.
  destruct (state_file w) as [| |raw|doc] eqn:Hf; cbn; try reflexivity.
  exfalso. exact (Hbad doc eq_refl).
Qed.

Lemma load_state_fails_soft_witness :
  _load_state Sample.fresh_manager (World (Garbled "{tunnels: ") ∅ [] 0 [] [])
  = (Ret default_state, Sample.fresh_manager, World (Garbled "{tunnels: ") ∅ [] 0 [] [])
  /\ dict_items (d_tunnels default_state) = []
  /\ d_current_tunnel default_state = None.
Proof.
  apply (load_state_fails_soft Sample.fresh_manager
           (World (Garbled "{tunnels: ") ∅ [] 0 [] [])).
  intros doc. simpl. discriminate.
Defined.

(** * State Store: what is on disk after each operation *)

Lemma _load_state_eq o w : _load_state o w = (Ret (loaded w), o, w).
Proof.
  unfold _load_state, try_except, bind, open_state_file, json_load, loaded.
  destruct (state_file w); reflexivity.
Qed.

Lemma _save_state_eq E st o w : _save_state E st o w = (Ret tt, o, saved E st w).
Proof. reflexivity. Qed.

Lemma loaded_saved E st w :
  loaded (saved E st w)
  = StateDict (PyDict (json_keys (d_tunnels st)) None) (d_current_tunnel st)
              (Some (now E (length (log w)))).
Proof. reflexivity. Qed.

Lemma json_keys_set n v d :
  none_item d = None -> json_keys (dict_set n v d) = <[json_key n := v]> (str_items d).
Proof. intros H. destruct n; unfold json_keys; cbn; rewrite ?H; reflexivity. Qed.

Lemma json_keys_loaded d : none_item d = None -> json_keys d = str_items d.
Proof. intros H. unfold json_keys. rewrite H. reflexivity. Qed.

Lemma loaded_none_item w : none_item (d_tunnels (loaded w)) = None.
Proof. unfold loaded. destruct (state_file w); reflexivity. Qed.

(** * Creating a tunnel *)

Lemma create_tunnel_guard_some tunnel_name current :
  create_tunnel_guard tunnel_name current
  = Some (if truthy tunnel_name then tunnel_name
          else if truthy current then current else tunnel_name).
Proof.
  unfold create_tunnel_guard.
  destruct (truthy tunnel_name); cbn; [reflexivity|].
  destruct (truthy current); reflexivity.
Qed.

Lemma print_keeps_silence msg msg' :
  msg' <> msg -> preserves (fun _ w => ~ In msg (console w)) (print msg').
Proof. intros Hne o w H [Heq|Hin]; [exact (Hne Heq) | exact (H Hin)]. Qed.

#[export] Hint Extern 1 (preserves (fun _ w => ~ In _ (console w)) (print _)) =>
  (apply print_keeps_silence; discriminate) : pres.

(** C10. [create_tunnel] never takes its "Tunnel name required" exit: the
    guard always yields a name, and the message is never printed.  Called
    without a name while no tunnel is selected, it goes on with the name
    [None]: the manager's config path becomes [config-None.yml], a record
    with that config path is registered under the key [None] (written to
    the state document as ["null"]) and made current, and the call then
    raises at the membership test on the provider listing. *)
Theorem create_tunnel_never_requires_name (E : env) (tunnel_name : pyname)
        (setup : option bool) (o : obj) (w : world) :
  create_tunnel_guard tunnel_name (self_tunnel_name o) <> None
  /\ (~ In "Tunnel name required" (console w) ->
      ~ In "Tunnel name required" (console (create_tunnel E tunnel_name setup o w).2))
  /\ (truthy (self_tunnel_name o) = false ->
      let res := create_tunnel E None setup o w in
      res.1.1 = Raise TypeError
      /\ self_tunnel_name res.1.2 = None
      /\ self_config_file res.1.2 = Some "~/.cloudflared/config-None.yml"
      /\ console res.2 = console w
      /\ disk_current res.2 = None
      /\ exists info, disk_tunnels res.2 !! "null" = Some info
                      /\ ti_config_file info = "~/.cloudflared/config-None.yml").
Proof.
  split; [|split].
  - rewrite create_tunnel_guard_some. discriminate.
  - assert (Hp : preserves (fun _ w => ~ In "Tunnel name required" (console w))
                           (create_tunnel E tunnel_name setup)).
    { unfold create_tunnel. apply preserves_bind; [pres|]. intros o1.
      rewrite create_tunnel_guard_some. pres. }
    apply Hp.
  - intros Hsel res. subst res.
    unfold create_tunnel, bind, get_self. rewrite create_tunnel_guard_some.
    cbn. rewrite Hsel.
    unfold use_tunnel, _register_tunnel, bind, set_tunnel_name, set_config_file.
    cbn. rewrite !_load_state_eq. cbn. 
    rewrite !loaded_none_item. cbn.
    repeat split.
    unfold disk_tunnels. cbn.
    eexists. split; [apply lookup_insert_eq | reflexivity].
Qed.

(** C3. The existence test of [create_tunnel] is a substring test on the
    text of the provider listing.  Here the registry holds [my-app] and
    [demo]; [create_tunnel "app"] reports success and never runs the
    provider's create command, although no tunnel named [app] exists. *)
Theorem create_tunnel_substring_false_positive :
  let res := create_tunnel Sample.host (Some "app") None
                           Sample.fresh_manager Sample.fresh_world in
  tunnel_list_json Sample.host 0
  = JsonTunnels [(Some "my-app", Some "6ff42ae2-765d-4adf-8112-31c55c1551ef");
                 (Some "demo", Some "2a18c0de-1f0b-4c55-9a3e-0d6f5b7e9c11")]
  /\ PyStr.contains "app" (tunnel_list_text Sample.host 0) = true
  /\ res.1.1 = Ret true
  /\ ~ In (CmdTunnelCreate "app") (log res.2).
Proof.
  vm_compute. repeat split; try reflexivity.
  intros H. repeat (destruct H as [H|H]; [discriminate|]). exact H.
Qed.

(** * Routes *)

Lemma config_path_truthy n : path_truthy (Some (config_path n)) = true.
Proof. reflexivity. Qed.

Lemma config_path_nonempty n : String.eqb (config_path n) "" = false.
Proof. reflexivity. Qed.

Lemma filter_negb_all {A} (p : A -> bool) (l : list A) :
  existsb p l = false -> List.filter (fun r => negb (p r)) l = l.
Proof.
  induction l as [|x l IH]; cbn; [reflexivity|].
  intros H. apply orb_false_iff in H as [Hx Hl].
  rewrite Hx. cbn. f_equal. apply IH, Hl.
Qed.

Lemma obj_eta o : Obj (self_tunnel_name o) (self_config_file o) (auto_start_on_create o) = o.
Proof. destruct o; reflexivity. Qed.

(** C5. Removing a route for a domain that has no hostname rule in the
    tunnel's config (the config may lack an ingress section altogether)
    returns [False]; no file is written, no command is run and the state
    document is untouched: the world differs only by the printed message. *)
Theorem remove_route_absent (E : env) (domain : string) (tunnel_name : pyname)
        (o : obj) (w : world)
        (Habsent : has_rule_for domain (resolve_tunnel_name tunnel_name (self_tunnel_name o)) w
                   = false) :
  exists msg,
    remove_route E domain tunnel_name o w
    = (Ret false, o,
       World (state_file w) (yaml_files w) (dir_files w) (clock_ms w) (log w)
             (msg :: console w)).
Proof.
  unfold remove_route, bind, get_self.
  set (tn := resolve_tunnel_name tunnel_name (self_tunnel_name o)) in *.
  destruct (truthy tn) eqn:Htn; cbn.
  - unfold _load_config, bind, get_self, get_world, set_tunnel_name, set_config_file. cbn.
    unfold has_rule_for, ingress_of in Habsent.
    rewrite config_path_nonempty. cbn.
    destruct (yaml_files w !! config_path tn) as [c|] eqn:Hc; cbn in *.
    + destruct (c_ingress c) as [l|] eqn:Hl; cbn in *.
      * rewrite (filter_negb_all _ _ Habsent), Nat.eqb_refl. cbn.
        rewrite obj_eta. eauto.
      * rewrite obj_eta. eauto.
    + rewrite obj_eta. eauto.
  - destruct w; eauto.
Qed.

Lemma remove_route_absent_witness :
  exists msg,
    remove_route Sample.host "other.example.com" (Some "demo")
                 Sample.fresh_manager Sample.routed_world
    = (Ret false, Sample.fresh_manager,
       World (state_file Sample.routed_world) (yaml_files Sample.routed_world)
             (dir_files Sample.routed_world) (clock_ms Sample.routed_world)
             (log Sample.routed_world) (msg :: console Sample.routed_world)).
Proof.
  apply (remove_route_absent Sample.host "other.example.com" (Some "demo")
                             Sample.fresh_manager Sample.routed_world).
  vm_compute. reflexivity.
Defined.

Lemma create_tunnel_never_requires_name_witness :
  let res := create_tunnel Sample.host None None Sample.fresh_manager Sample.fresh_world in
  res.1.1 = Raise TypeError
  /\ self_tunnel_name res.1.2 = None
  /\ self_config_file res.1.2 = Some "~/.cloudflared/config-None.yml"
  /\ console res.2 = console Sample.fresh_world
  /\ disk_current res.2 = None
  /\ exists info, disk_tunnels res.2 !! "null" = Some info
                  /\ ti_config_file info = "~/.cloudflared/config-None.yml".
Proof.
  apply (proj2 (proj2 (create_tunnel_never_requires_name
                         Sample.host None None Sample.fresh_manager Sample.fresh_world))).
  reflexivity.
Defined.

(** ** What the state store operations leave on disk *)

Create HintDb pres_defs discriminated.
#[export] Hint Unfold selected registered disk_current disk_tunnels : pres_defs.

Ltac pres_leaf ::=
  let o := fresh "o" in
  let w := fresh "w" in
  let H := fresh "H" in
  intros o w H; autounfold with pres_defs in *; cbn in *; repeat case_match; cbn in *;
  first [ exact H | assumption | solve [intuition eauto] ].

Section StateFacts.

Variable E : env.

Lemma _register_tunnel_returns n o w : (_register_tunnel E n o w).1 = (Ret tt, o).
Proof. unfold _register_tunnel, bind. rewrite _load_state_eq. reflexivity. Qed.

Lemma _register_tunnel_disk n o w :
  disk_tunnels (_register_tunnel E n o w).2
  = match dict_get n (d_tunnels (loaded w)) with
    | None =>
        <[json_key n := TunnelInfo (now E (length (log w))) (config_path n) [] false
                                   "unknown" None None None None None]> (disk_tunnels w)
    | Some _ => disk_tunnels w
    end
  /\ disk_current (_register_tunnel E n o w).2 = n.
Proof.
  unfold _register_tunnel, bind. rewrite _load_state_eq. cbn.
  unfold disk_tunnels, disk_current. cbn. split; [|reflexivity].
  destruct (dict_get n (d_tunnels (loaded w))) eqn:Hg.
  - apply json_keys_loaded, loaded_none_item.
  - apply json_keys_set, loaded_none_item.
Qed.

Lemma _register_tunnel_registers n o w :
  registered n (_register_tunnel E n o w).2.
Proof.
  unfold registered. fold (disk_tunnels (_register_tunnel E n o w).2).
  rewrite (proj1 (_register_tunnel_disk n o w)).
  destruct (dict_get n (d_tunnels (loaded w))) as [i|] eqn:Hg.
  - destruct n as [s|]; cbn in Hg.
    + exists i. exact Hg.
    + rewrite loaded_none_item in Hg. discriminate.
  - rewrite lookup_insert_eq. eauto.
Qed.

Lemma _register_tunnel_keeps_registered n k :
  preserves (fun _ w => registered k w) (_register_tunnel E n).
Proof.
  intros o w H. unfold registered in *.
  fold (disk_tunnels (_register_tunnel E n o w).2). fold (disk_tunnels w) in H.
  rewrite (proj1 (_register_tunnel_disk n o w)).
  destruct (dict_get n (d_tunnels (loaded w))); [exact H|].
  rewrite lookup_insert_is_Some. destruct (decide (json_key n = json_key k)); auto.
Qed.

Lemma _update_tunnel_info_returns n info o w :
  (_update_tunnel_info E n info o w).1 = (Ret tt, o).
Proof.
  unfold _update_tunnel_info, bind. rewrite _load_state_eq.
  destruct (dict_get n (d_tunnels (loaded w))); reflexivity.
Qed.

Lemma _update_tunnel_info_disk n info o w :
  disk_tunnels (_update_tunnel_info E n info o w).2
  = match dict_get n (d_tunnels (loaded w)) with
    | Some i => <[json_key n := dict_update i info]> (disk_tunnels w)
    | None => disk_tunnels w
    end
  /\ disk_current (_update_tunnel_info E n info o w).2 = disk_current w.
Proof.
  unfold _update_tunnel_info, bind. rewrite _load_state_eq.
  destruct (dict_get n (d_tunnels (loaded w))) eqn:Hg; [|split; reflexivity].
  cbn. unfold disk_tunnels, disk_current. cbn. split; [|reflexivity].
  apply json_keys_set, loaded_none_item.
Qed.

Lemma _update_tunnel_info_keeps_registered n info k :
  preserves (fun _ w => registered k w) (_update_tunnel_info E n info).
Proof.
  intros o w H. unfold registered in *.
  fold (disk_tunnels (_update_tunnel_info E n info o w).2). fold (disk_tunnels w) in H.
  rewrite (proj1 (_update_tunnel_info_disk n info o w)).
  destruct (dict_get n (d_tunnels (loaded w))); [|exact H].
  rewrite lookup_insert_is_Some. destruct (decide (json_key n = json_key k)); auto.
Qed.

Lemma _update_tunnel_info_selected n info k :
  preserves (selected k) (_update_tunnel_info E n info).
Proof.
  intros o w (H1 & H2 & H3 & H4).
  rewrite (surjective_pairing (_update_tunnel_info E n info o w)).
  rewrite _update_tunnel_info_returns. cbn. repeat split; try assumption.
  - apply (_update_tunnel_info_keeps_registered n info k o w H3).
  - rewrite (proj2 (_update_tunnel_info_disk n info o w)). exact H4.
Qed.

Lemma _register_tunnel_selected n :
  preserves (selected n) (_register_tunnel E n).
Proof.
  intros o w (H1 & H2 & H3 & H4).
  rewrite (surjective_pairing (_register_tunnel E n o w)).
  rewrite _register_tunnel_returns. cbn. repeat split; try assumption.
  - apply _register_tunnel_registers.
  - apply (proj2 (_register_tunnel_disk n o w)).
Qed.

Lemma use_tunnel_selects n o w :
  (use_tunnel E n o w).1.1 = Ret tt /\ selected n (use_tunnel E n o w).1.2 (use_tunnel E n o w).2.
Proof.
  unfold use_tunnel, bind, set_tunnel_name, set_config_file. cbn.
  set (o1 := Obj n (Some (config_path n)) (auto_start_on_create o)).
  pose proof (_register_tunnel_returns n o1 w) as Hr.
  pose proof (_register_tunnel_registers n o1 w) as Hreg.
  destruct (_register_tunnel E n o1 w) as [[r o2] w2]. cbn in Hr, Hreg.
  injection Hr as -> ->. cbn. rewrite _load_state_eq. cbn.
  split; [reflexivity|]. repeat split.
  unfold registered in *. cbn. rewrite json_keys_loaded by apply loaded_none_item.
  exact Hreg.
Qed.

Lemma use_tunnel_selected n : preserves (selected n) (use_tunnel E n).
Proof. intros o w _. apply use_tunnel_selects. Qed.

End StateFacts.

#[export] Hint Resolve _update_tunnel_info_selected _register_tunnel_selected
  use_tunnel_selected : pres.

(** Stepping through a run that returned. *)
Tactic Notation "step" hyp(H) "as" ident(a) ident(o1) ident(w1) ident(H1) :=
  apply bind_ret_inv in H as (a & o1 & w1 & H1 & H); cbv beta in H.

Ltac absurd_run H :=
  first [ discriminate H | cbv [bind print ret raise] in H; discriminate H ].

Section RouteFacts.

Variable E : env.

Lemma setup_autostart_selected n : preserves (selected n) (setup_autostart E).
Proof. pres. Qed.

Lemma ensures_bind {A B} (Q : obj -> world -> Prop) (m : M A) (k : A -> M B) o w :
  ensures m o w Q -> (forall a, preserves Q (k a)) -> ensures (bind m k) o w Q.
Proof.
  unfold ensures, bind. destruct (m o w) as [[[a|e] o1] w1]; cbn; intros H Hk.
  - apply Hk, H.
  - exact H.
Qed.

Lemma ensures_get_self {B} (Q : obj -> world -> Prop) (k : obj -> M B) o w :
  ensures (k o) o w Q -> ensures (bind get_self k) o w Q.
Proof. intros H. exact H. Qed.

Lemma ensures_preserves {A} (Q : obj -> world -> Prop) (m : M A) o w :
  preserves Q m -> Q o w -> ensures m o w Q.
Proof. intros Hp H. apply Hp, H. Qed.

Lemma create_tunnel_selects n s o w :
  truthy n = true -> ensures (create_tunnel E n s) o w (selected n).
Proof.
  intros Hn. unfold create_tunnel. apply ensures_get_self.
  rewrite create_tunnel_guard_some, Hn.
  apply ensures_bind; [apply use_tunnel_selects|].
  intros _. pres.
Qed.

(** Frame facts: which parts of the world an operation leaves alone. *)

Lemma use_tunnel_yaml Y n : preserves (fun _ w => yaml_files w = Y) (use_tunnel E n).
Proof. pres. Qed.

Lemma _update_tunnel_info_yaml Y n info :
  preserves (fun _ w => yaml_files w = Y) (_update_tunnel_info E n info).
Proof. pres. Qed.

Lemma _register_tunnel_yaml Y n :
  preserves (fun _ w => yaml_files w = Y) (_register_tunnel E n).
Proof. pres. Qed.

Lemma check_autostart_status_yaml Y :
  preserves (fun _ w => yaml_files w = Y) (check_autostart_status E).
Proof. pres. Qed.

Lemma check_autostart_status_state S :
  preserves (fun _ w => state_file w = S) (check_autostart_status E).
Proof. pres. Qed.

Lemma check_autostart_status_selected n :
  preserves (selected n) (check_autostart_status E).
Proof. pres. Qed.

#[local] Hint Resolve use_tunnel_yaml _update_tunnel_info_yaml _register_tunnel_yaml
  check_autostart_status_yaml check_autostart_status_state
  check_autostart_status_selected : pres.

Lemma setup_autostart_yaml Y : preserves (fun _ w => yaml_files w = Y) (setup_autostart E).
Proof. pres. Qed.

#[local] Hint Resolve setup_autostart_yaml setup_autostart_selected : pres.

Lemma create_tunnel_yaml Y n s :
  preserves (fun _ w => yaml_files w = Y) (create_tunnel E n s).
Proof. pres. Qed.

Lemma _get_tunnel_id_yaml Y n :
  preserves (fun _ w => yaml_files w = Y) (_get_tunnel_id E n).
Proof. pres. Qed.

Lemma _get_tunnel_id_selected k n : preserves (selected k) (_get_tunnel_id E n).
Proof. pres. Qed.

Lemma _restart_tunnel_yaml Y : preserves (fun _ w => yaml_files w = Y) (_restart_tunnel E).
Proof. pres. Qed.

Lemma _restart_tunnel_state S : preserves (fun _ w => state_file w = S) (_restart_tunnel E).
Proof. pres. Qed.

Lemma ask_yaml {A} Y (f : nat -> A) ev : preserves (fun _ w => yaml_files w = Y) (ask f ev).
Proof. pres. Qed.

Lemma ask_state {A} S (f : nat -> A) ev : preserves (fun _ w => state_file w = S) (ask f ev).
Proof. pres. Qed.

(** The ingress list and the route list that a successful [add_route]
    leaves behind. *)
Lemma add_route_success domain port host tn_arg o w o' w' :
  add_route E domain port host tn_arg o w = (Ret true, o', w') ->
  let tn := resolve_tunnel_name (default universal_tunnel tn_arg) (self_tunnel_name o) in
  let svc := service_url (default "localhost" host) port in
  let kept := List.filter (fun r => negb (is_rule_for domain r))
                          (default [] (ingress_of tn w)) in
  truthy tn = true
  /\ forallb is_dict kept = true
  /\ (exists c,
        yaml_files w' = <[config_path tn := c]> (yaml_files w)
        /\ c_ingress c
           = Some (List.filter not_catch_all_service kept
                   ++ [RDict (Some domain) (Some svc); catch_all]))
  /\ (exists info rs,
        disk_tunnels w' !! json_key tn = Some info
        /\ routes info
           = List.filter (fun r => negb (String.eqb (route_domain r) domain)) rs
             ++ [Route domain svc]).
Proof.
  intros H. cbv zeta. unfold add_route in H. cbv zeta in H.
  step H as o0 oa wa Ha. injection Ha as <- <- <-.
  remember (resolve_tunnel_name (default universal_tunnel tn_arg) (self_tunnel_name o))
    as tn eqn:Etn in *.
  remember (service_url (default "localhost" host) port) as svc eqn:Esvc in *.
  destruct (truthy tn) eqn:Htn; cbn [negb] in H; [|absurd_run H].
  split; [reflexivity|].
  (* switch the current tunnel, make sure the tunnel exists *)
  step H as u1 o1 w1 H1.
  assert (Hy1 : yaml_files w1 = yaml_files w).
  { eapply (preserves_run (fun _ x => yaml_files x = yaml_files w)); [|reflexivity|exact H1].
    pres. }
  step H as created o2 w2 H2.
  assert (Hy2 : yaml_files w2 = yaml_files w).
  { eapply (preserves_run (fun _ x => yaml_files x = yaml_files w)); [|exact Hy1|exact H2].
    apply create_tunnel_yaml. }
  assert (Hs2 : selected tn o2 w2).
  { pose proof (create_tunnel_selects tn None o1 w1 Htn) as Hs.
    unfold ensures in Hs. rewrite H2 in Hs. exact Hs. }
  destruct created; cbn [negb] in H; [|absurd_run H].
  (* resolve the provider id *)
  step H as tunnel_id o3 w3 H3.
  assert (Hy3 : yaml_files w3 = yaml_files w).
  { eapply (preserves_run (fun _ x => yaml_files x = yaml_files w)); [|exact Hy2|exact H3].
    apply _get_tunnel_id_yaml. }
  assert (Hs3 : selected tn o3 w3).
  { eapply (preserves_run (selected tn)); [|exact Hs2|exact H3].
    apply _get_tunnel_id_selected. }
  destruct (truthy tunnel_id) eqn:Hid; cbn [negb] in H; [|absurd_run H].
  (* load the config *)
  step H as cfg o4 w4 H4.
  assert (Hcfg : cfg = default empty_config (yaml_files w !! config_path tn)
                 /\ o4 = o3 /\ w4 = w3).
  { destruct Hs3 as (_ & Hcf & _). revert H4.
    unfold _load_config, bind, get_self, get_world. cbn. rewrite Hcf. cbn.
    rewrite config_path_nonempty. cbn. rewrite Hy3.
    destruct (yaml_files w !! config_path tn); cbn; intros [= <- <- <-]; auto. }
  destruct Hcfg as (-> & -> & ->).
  step H as o3' o5 w5 H5. injection H5 as <- <- <-.
  step H as u2 o6 w6 H6.
  assert (Hy6 : yaml_files w6 = yaml_files w).
  { eapply (preserves_run (fun _ x => yaml_files x = yaml_files w)); [|exact Hy3|exact H6].
    pres. }
  assert (Hs6 : selected tn o6 w6).
  { eapply (preserves_run (selected tn)); [|exact Hs3|exact H6]. pres. }
  step H as w6' o7 w7 H7. injection H7 as <- <- <-.
  assert (Hold : default [] (c_ingress (default empty_config (yaml_files w !! config_path tn)))
                 = default [] (ingress_of tn w)).
  { unfold ingress_of. destruct (yaml_files w !! config_path tn); reflexivity. }
  rewrite Hold in H.
  remember (List.filter (fun r => negb (is_rule_for domain r))
                        (default [] (ingress_of tn w))) as kept eqn:Ekept in *.
  destruct (forallb is_dict kept) eqn:Hdict; cbn [negb] in H; [|absurd_run H].
  split; [reflexivity|].
  (* write the config *)
  step H as u3 o8 w8 H8.
  match type of H8 with _save_config ?c0 _ _ = _ => remember c0 as c eqn:Ec in * end.
  assert (Hsave : o8 = o6 /\ yaml_files w8 = <[config_path tn := c]> (yaml_files w)
                  /\ state_file w8 = state_file w6).
  { destruct Hs6 as (_ & Hcf & _). revert H8.
    unfold _save_config, bind, get_self. cbn. rewrite Hcf. cbn.
    rewrite config_path_nonempty. cbn.
    intros [= <- <- <-]. cbn. rewrite Hy6. auto. }
  destruct Hsave as (-> & Hy8 & Hst8).
  assert (Hs8 : selected tn o6 w8).
  { destruct Hs6 as (? & ? & Hreg & Hcur). repeat split; try assumption.
    - unfold registered, loaded in *. rewrite Hst8. exact Hreg.
    - unfold disk_current, loaded in *. rewrite Hst8. exact Hcur. }
  (* mirror the route into the state document *)
  step H as state o9 w9 H9. rewrite _load_state_eq in H9. injection H9 as <- <- <-.
  step H as u4 o10 w10 H10.
  assert (Hreg8 : exists info, dict_get tn (d_tunnels (loaded w8)) = Some info).
  { destruct Hs8 as (_ & _ & [i Hi] & _). exists i.
    destruct tn as [name|]; [exact Hi | discriminate Htn]. }
  destruct Hreg8 as [info Hinfo]. rewrite Hinfo in H10.
  assert (Hy10 : yaml_files w10 = yaml_files w8).
  { eapply (preserves_run (fun _ x => yaml_files x = yaml_files w8)); [|reflexivity|exact H10].
    apply _update_tunnel_info_yaml. }
  match type of H10 with _update_tunnel_info _ _ ?u0 _ _ = _ =>
    remember u0 as upd eqn:Eupd in * end.
  assert (Hd10 : disk_tunnels w10 !! json_key tn = Some (dict_update info upd)).
  { pose proof (_update_tunnel_info_disk E tn upd o6 w8) as [Hd _].
    rewrite H10 in Hd. cbn in Hd. rewrite Hd, Hinfo. apply lookup_insert_eq. }
  (* DNS record and restart *)
  step H as u5 o11 w11 H11. step H as u6 o12 w12 H12. injection H as <- <-.
  assert (Hy11 : yaml_files w11 = yaml_files w10).
  { eapply (preserves_run (fun _ x => yaml_files x = yaml_files w10));
      [|reflexivity|exact H11]. apply ask_yaml. }
  assert (Hst11 : state_file w11 = state_file w10).
  { eapply (preserves_run (fun _ x => state_file x = state_file w10));
      [|reflexivity|exact H11]. apply ask_state. }
  assert (Hy12 : yaml_files w12 = yaml_files w10).
  { eapply (preserves_run (fun _ x => yaml_files x = yaml_files w10));
      [|exact Hy11|exact H12]. apply _restart_tunnel_yaml. }
  assert (Hst12 : state_file w12 = state_file w10).
  { eapply (preserves_run (fun _ x => state_file x = state_file w10));
      [|exact Hst11|exact H12]. apply _restart_tunnel_state. }
  split.
  - exists c. split; [congruence | subst c; reflexivity].
  - exists (dict_update info upd), (routes info). split.
    + unfold disk_tunnels, loaded in *. rewrite Hst12. exact Hd10.
    + subst upd. destruct info; reflexivity.
Qed.

End RouteFacts.

#[export] Hint Resolve use_tunnel_yaml _update_tunnel_info_yaml _register_tunnel_yaml
  check_autostart_status_yaml check_autostart_status_state
  check_autostart_status_selected setup_autostart_yaml setup_autostart_selected
  create_tunnel_yaml _get_tunnel_id_yaml _get_tunnel_id_selected
  _restart_tunnel_yaml _restart_tunnel_state : pres.

Section RemoveFacts.

Variable E : env.

(** The ingress list that a successful [remove_route] leaves behind. *)
Lemma remove_route_success domain tn_arg o w o' w' :
  remove_route E domain tn_arg o w = (Ret true, o', w') ->
  let tn := resolve_tunnel_name tn_arg (self_tunnel_name o) in
  exists l c,
    ingress_of tn w = Some l
    /\ length (List.filter (fun r => negb (is_rule_for domain r)) l) <> length l
    /\ yaml_files w' = <[config_path tn := c]> (yaml_files w)
    /\ c_ingress c = Some (List.filter (fun r => negb (is_rule_for domain r)) l).
Proof.
  intros H. cbv zeta. unfold remove_route in H. cbv zeta in H.
  step H as o0 oa wa Ha. injection Ha as <- <- <-.
  remember (resolve_tunnel_name tn_arg (self_tunnel_name o)) as tn eqn:Etn in *.
  destruct (truthy tn) eqn:Htn; cbn [negb] in H; [|absurd_run H].
  step H as u1 o1 w1 H1. injection H1 as <- <- <-.
  step H as u2 o2 w2 H2. injection H2 as <- <- <-.
  step H as cfg o3 w3 H3.
  assert (Hcfg : cfg = default empty_config (yaml_files w !! config_path tn) /\ w3 = w
                 /\ self_config_file o3 = Some (config_path tn)).
  { revert H3. unfold _load_config, bind, get_self, get_world. cbn.
    rewrite config_path_nonempty. cbn.
    destruct (yaml_files w !! config_path tn); cbn; intros [= <- <- <-]; auto. }
  destruct Hcfg as (-> & -> & Hcf).
  assert (Hing : c_ingress (default empty_config (yaml_files w !! config_path tn))
                 = ingress_of tn w).
  { unfold ingress_of. destruct (yaml_files w !! config_path tn); reflexivity. }
  rewrite Hing in H.
  destruct (ingress_of tn w) as [l|] eqn:Hl; [|absurd_run H].
  destruct (Nat.eqb (length (List.filter (fun r => negb (is_rule_for domain r)) l)) (length l))
    eqn:Hlen; [absurd_run H|].
  apply Nat.eqb_neq in Hlen.
  step H as u3 o4 w4 H4.
  match type of H4 with _save_config ?c0 _ _ = _ => remember c0 as c eqn:Ec in * end.
  assert (Hsave : yaml_files w4 = <[config_path tn := c]> (yaml_files w)).
  { revert H4. unfold _save_config, bind, get_self. cbn. rewrite Hcf. cbn.
    rewrite config_path_nonempty. cbn. intros [= <- <- <-]. reflexivity. }
  step H as state o5 w5 H5. rewrite _load_state_eq in H5. injection H5 as <- <- <-.
  step H as u4 o6 w6 H6.
  assert (Hy6 : yaml_files w6 = yaml_files w4).
  { eapply (preserves_run (fun _ x => yaml_files x = yaml_files w4)); [|reflexivity|exact H6].
    pres. }
  step H as u5 o7 w7 H7.
  assert (Hy7 : yaml_files w7 = yaml_files w4).
  { eapply (preserves_run (fun _ x => yaml_files x = yaml_files w4)); [|exact Hy6|exact H7].
    apply _restart_tunnel_yaml. }
  step H as u6 o8 w8 H8. injection H8 as <- <- <-. injection H as <- <-.
  exists l, c. repeat split; try assumption.
  - rewrite Hy7. exact Hsave.
  - subst c. reflexivity.
Qed.

End RemoveFacts.

(** ** The shape of the ingress list *)

Lemma filter_filter_length {A} (p q : A -> bool) l :
  length (List.filter p (List.filter q l)) <= length (List.filter p l).
Proof.
  induction l as [|x l IH]; cbn; [lia|].
  destruct (p x) eqn:Hp, (q x); cbn; rewrite ?Hp; cbn; lia.
Qed.

Lemma filter_negb_none {A} (p : A -> bool) l :
  List.filter p (List.filter (fun r => negb (p r)) l) = [].
Proof.
  induction l as [|x l IH]; cbn; [reflexivity|].
  destruct (p x) eqn:Hp; cbn; [exact IH|]. rewrite Hp. exact IH.
Qed.

Lemma Forall_filter_keep {A} (P : A -> Prop) (q : A -> bool) l :
  Forall P l -> Forall P (List.filter q l).
Proof.
  induction 1 as [|x l Hx Hl IH]; cbn; [constructor|].
  destruct (q x); [constructor|]; assumption.
Qed.

Lemma is_rule_for_has_hostname d r : is_rule_for d r = true -> has_hostname r = true.
Proof. destruct r as [[h|] s|raw]; cbn; congruence. Qed.

Lemma has_hostname_not_catch_all r : has_hostname r = true -> is_catch_all r = false.
Proof.
  intros H. unfold is_catch_all. apply bool_decide_eq_false. intros ->. discriminate H.
Qed.

Lemma filter_hostnames_catch_all hs :
  Forall (fun r => has_hostname r = true) hs -> List.filter is_catch_all hs = [].
Proof.
  induction 1 as [|x l Hx Hl IH]; cbn; [reflexivity|].
  rewrite (has_hostname_not_catch_all _ Hx). exact IH.
Qed.

(** Adding a route keeps the shape. *)
Lemma well_formed_add domain svc old :
  old = [] \/ well_formed_ingress old ->
  well_formed_ingress
    (List.filter not_catch_all_service
                 (List.filter (fun r => negb (is_rule_for domain r)) old)
     ++ [RDict (Some domain) (Some svc); catch_all]).
Proof.
  intros Hold.
  assert (Hex : exists hs,
             List.filter not_catch_all_service
                         (List.filter (fun r => negb (is_rule_for domain r)) old)
             = List.filter not_catch_all_service
                           (List.filter (fun r => negb (is_rule_for domain r)) hs)
             /\ Forall (fun r => has_hostname r = true) hs
             /\ forall d, length (List.filter (is_rule_for d) hs) <= 1).
  { destruct Hold as [->|(hs & -> & Hh & Hc)].
    - exists []. split; [reflexivity|]. split; [constructor|]. intros d. cbn. lia.
    - exists hs. split; [|split; assumption].
      rewrite !List.filter_app. cbn. rewrite app_nil_r. reflexivity. }
  destruct Hex as (hs & -> & Hh & Hc).
  exists (List.filter not_catch_all_service
                      (List.filter (fun r => negb (is_rule_for domain r)) hs)
          ++ [RDict (Some domain) (Some svc)]).
  split; [rewrite <- app_assoc; reflexivity|]. split.
  - apply Forall_app. split.
    + apply Forall_filter_keep, Forall_filter_keep, Hh.
    + constructor; [reflexivity|constructor].
  - intros d. rewrite List.filter_app, length_app. cbn.
    destruct (String.eqb domain d) eqn:Hd; cbn.
    + apply String.eqb_eq in Hd. subst d.
      pose proof (filter_filter_length (is_rule_for domain) not_catch_all_service
                    (List.filter (fun r => negb (is_rule_for domain r)) hs)) as Hle.
      rewrite filter_negb_none in Hle. cbn in Hle. lia.
    + pose proof (filter_filter_length (is_rule_for d) not_catch_all_service
                    (List.filter (fun r => negb (is_rule_for domain r)) hs)) as H1.
      pose proof (filter_filter_length (is_rule_for d)
                    (fun r => negb (is_rule_for domain r)) hs) as H2.
      specialize (Hc d). lia.
Qed.

(** Removing a route keeps the shape. *)
Lemma well_formed_remove domain old :
  well_formed_ingress old ->
  well_formed_ingress (List.filter (fun r => negb (is_rule_for domain r)) old).
Proof.
  intros (hs & -> & Hh & Hc).
  exists (List.filter (fun r => negb (is_rule_for domain r)) hs).
  split; [rewrite List.filter_app; reflexivity|]. split.
  - apply Forall_filter_keep, Hh.
  - intros d.
    pose proof (filter_filter_length (is_rule_for d)
                  (fun r => negb (is_rule_for domain r)) hs).
    specialize (Hc d). lia.
Qed.

(** What the shape gives: at most one rule per domain, exactly one
    catch-all, the catch-all last and after every hostname rule. *)
Lemma well_formed_ingress_facts l :
  well_formed_ingress l ->
  (forall d, length (List.filter (is_rule_for d) l) <= 1)
  /\ length (List.filter is_catch_all l) = 1
  /\ List.last l (ROther "") = catch_all
  /\ (forall i j r, l !! i = Some catch_all -> l !! j = Some r ->
                    has_hostname r = true -> j < i).
Proof.
  intros (hs & -> & Hh & Hc). repeat split.
  - intros d. rewrite List.filter_app. cbn. rewrite app_nil_r. apply Hc.
  - rewrite List.filter_app, (filter_hostnames_catch_all _ Hh). reflexivity.
  - apply List.last_last.
  - intros i j r Hi Hj Hr.
    assert (Hi' : i = length hs).
    { destruct (decide (i < length hs)) as [Hlt|Hge].
      - rewrite lookup_app_l in Hi by exact Hlt.
        apply list_elem_of_lookup_2 in Hi.
        rewrite Forall_forall in Hh. apply Hh in Hi. discriminate Hi.
      - apply lookup_lt_Some in Hi. rewrite length_app in Hi. cbn in Hi. lia. }
    subst i.
    destruct (decide (j < length hs)) as [Hlt|Hge]; [exact Hlt|].
    assert (j = length hs).
    { apply lookup_lt_Some in Hj. rewrite length_app in Hj. cbn in Hj. lia. }
    subst j. rewrite lookup_app_r in Hj by lia. rewrite Nat.sub_diag in Hj.
    cbn in Hj. injection Hj as <-. discriminate Hr.
Qed.

(** ** Sequences of route operations on one tunnel *)

Lemma run_calls_app tn pre post w0 w :
  run_calls tn (pre ++ post) w0 = Some w ->
  exists wk, run_calls tn pre w0 = Some wk /\ run_calls tn post wk = Some w.
Proof.
  revert w0. induction pre as [|c pre IH]; intros w0 H; cbn in *.
  - exists w0. split; [reflexivity | exact H].
  - destruct (bool_decide (call_tunnel c = tn)); [|discriminate H].
    destruct (run_call c w0) as [[[[|]|e] o1] w1]; try discriminate H.
    apply IH, H.
Qed.

Lemma ingress_of_insert tn c Y w :
  yaml_files w = <[config_path tn := c]> Y -> ingress_of tn w = c_ingress c.
Proof. intros H. unfold ingress_of. rewrite H, lookup_insert_eq. reflexivity. Qed.

Lemma run_call_well_formed tn c w0 o1 w1 :
  call_tunnel c = tn ->
  default [] (ingress_of tn w0) = []
  \/ (exists l, ingress_of tn w0 = Some l /\ well_formed_ingress l) ->
  run_call c w0 = (Ret true, o1, w1) ->
  exists l, ingress_of tn w1 = Some l /\ well_formed_ingress l.
Proof.
  intros Htn Hinv Hrun. unfold run_call, call_tunnel in *.
  destruct (rc_op c) as [domain port host tn_arg | domain tn_arg].
  - apply add_route_success in Hrun. cbv zeta in Hrun. rewrite Htn in Hrun.
    destruct Hrun as (_ & _ & (cfg & Hy & Hc) & _).
    eexists. split.
    + rewrite (ingress_of_insert _ _ _ _ Hy). exact Hc.
    + apply well_formed_add.
      destruct Hinv as [->|(l & -> & Hwf)]; [left; reflexivity | right; exact Hwf].
  - apply remove_route_success in Hrun. cbv zeta in Hrun. rewrite Htn in Hrun.
    destruct Hrun as (l & cfg & Hl & Hlen & Hy & Hc).
    eexists. split.
    + rewrite (ingress_of_insert _ _ _ _ Hy). exact Hc.
    + apply well_formed_remove.
      destruct Hinv as [Hnil|(l' & Hl' & Hwf)].
      * rewrite Hl in Hnil. cbn in Hnil. subst l. cbn in Hlen. congruence.
      * congruence.
Qed.

Lemma run_calls_well_formed tn calls w0 w :
  default [] (ingress_of tn w0) = []
  \/ (exists l, ingress_of tn w0 = Some l /\ well_formed_ingress l) ->
  run_calls tn calls w0 = Some w ->
  calls <> [] ->
  exists l, ingress_of tn w = Some l /\ well_formed_ingress l.
Proof.
  revert w0. induction calls as [|c cs IH]; intros w0 Hinv Hrun Hne; [congruence|].
  cbn in Hrun. destruct (bool_decide (call_tunnel c = tn)) eqn:Htn; [|discriminate Hrun].
  apply bool_decide_eq_true in Htn.
  destruct (run_call c w0) as [[[[|]|e] o1] w1] eqn:Hc; try discriminate Hrun.
  pose proof (run_call_well_formed tn c w0 o1 w1 Htn Hinv Hc) as Hwf.
  destruct cs as [|c' cs'].
  - cbn in Hrun. injection Hrun as <-. exact Hwf.
  - apply (IH w1); [right; exact Hwf | exact Hrun | discriminate].
Qed.

(** C1. Start from a tunnel whose config is absent or has no ingress
    rules, and run any sequence of [add_route] and [remove_route] calls on
    that tunnel, each returning [True].  After every non-empty prefix of the
    sequence the config holds an ingress list with at most one hostname rule
    per domain and exactly one catch-all rule; the catch-all is the last
    element and no hostname rule comes after it. *)
Theorem ingress_well_formed_at_all_times (tn : pyname) (calls : list route_call)
        (w0 w : world)
        (Hstart : default [] (ingress_of tn w0) = [])
        (Hrun : run_calls tn calls w0 = Some w)
        (pre post : list route_call)
        (Hsplit : calls = pre ++ post)
        (Hne : pre <> []) :
  exists wk l,
    run_calls tn pre w0 = Some wk
    /\ ingress_of tn wk = Some l
    /\ (forall d, length (List.filter (is_rule_for d) l) <= 1)
    /\ length (List.filter is_catch_all l) = 1
    /\ List.last l (ROther "") = catch_all
    /\ (forall i j r, l !! i = Some catch_all -> l !! j = Some r ->
                      has_hostname r = true -> j < i).
Proof.
  subst calls. apply run_calls_app in Hrun as (wk & Hpre & _).
  destruct (run_calls_well_formed tn pre w0 wk (or_introl Hstart) Hpre Hne)
    as (l & Hl & Hwf).
  exists wk, l. split; [exact Hpre|]. split; [exact Hl|].
  apply well_formed_ingress_facts, Hwf.
Qed.

Lemma ingress_well_formed_at_all_times_witness :
  exists wk l,
    run_calls (Some "demo") RouteSample.calls Sample.fresh_world = Some wk
    /\ ingress_of (Some "demo") wk = Some l
    /\ (forall d, length (List.filter (is_rule_for d) l) <= 1)
    /\ length (List.filter is_catch_all l) = 1
    /\ List.last l (ROther "") = catch_all
    /\ (forall i j r, l !! i = Some catch_all -> l !! j = Some r ->
                      has_hostname r = true -> j < i).
Proof.
  apply (ingress_well_formed_at_all_times (Some "demo") RouteSample.calls
           Sample.fresh_world RouteSample.final_world)
    with (pre := RouteSample.calls) (post := []).
  - vm_compute. reflexivity.
  - vm_compute. reflexivity.
  - reflexivity.
  - discriminate.
Defined.

Example route_sample_ingress :
  ingress_of (Some "demo") RouteSample.final_world
  = Some [RDict (Some "app.example.com") (Some "http://localhost:8080"); catch_all].
Proof. vm_compute. reflexivity. Qed.

(** ** Replacing a route *)

Lemma filter_twice_none {A} (p q : A -> bool) l :
  List.filter p (List.filter q (List.filter (fun r => negb (p r)) l)) = [].
Proof.
  pose proof (filter_filter_length p q (List.filter (fun r => negb (p r)) l)) as H.
  rewrite filter_negb_none in H. cbn in H.
  destruct (List.filter p (List.filter q (List.filter (fun r => negb (p r)) l)));
    [reflexivity | cbn in H; lia].
Qed.

Lemma is_rule_for_refl d s : is_rule_for d (RDict (Some d) s) = true.
Proof. cbn. apply String.eqb_refl. Qed.

(** C4. Two successful [add_route] calls for the same domain on the same
    tunnel, the second with service [end_user_url2:port2]: afterwards the
    ingress list of the config file holds exactly one rule for the domain,
    and the route list of the state document holds exactly one route for
    it; both point at the second service. *)
Theorem add_route_twice_replaces (E1 E2 : env) (domain : string)
        (port1 port2 : Z) (host1 host2 : option string) (tn1 tn2 : option pyname)
        (o o' : obj) (w : world) :
  let r1 := add_route E1 domain port1 host1 tn1 o w in
  let r2 := add_route E2 domain port2 host2 tn2 o' r1.2 in
  let tn := resolve_tunnel_name (default universal_tunnel tn2) (self_tunnel_name o') in
  let svc2 := service_url (default "localhost" host2) port2 in
  r1.1.1 = Ret true ->
  r2.1.1 = Ret true ->
  resolve_tunnel_name (default universal_tunnel tn1) (self_tunnel_name o) = tn ->
  exists l info,
    ingress_of tn r2.2 = Some l
    /\ List.filter (is_rule_for domain) l = [RDict (Some domain) (Some svc2)]
    /\ disk_tunnels r2.2 !! json_key tn = Some info
    /\ List.filter (fun r => String.eqb (route_domain r) domain) (routes info)
       = [Route domain svc2].
Proof.
  intros r1 r2 tn svc2 _ H2 _.
  destruct r2 as [[res o2] w2] eqn:Hr2. cbn in H2. subst res.
  apply add_route_success in Hr2. cbv zeta in Hr2. fold tn svc2 in Hr2.
  destruct Hr2 as (_ & _ & (cfg & Hy & Hc) & (info & rs & Hinfo & Hroutes)).
  eexists _, info. cbn. split; [|split; [|split]].
  - rewrite (ingress_of_insert _ _ _ _ Hy). exact Hc.
  - rewrite !List.filter_app, filter_twice_none. cbn.
    rewrite String.eqb_refl. reflexivity.
  - exact Hinfo.
  - rewrite Hroutes, List.filter_app.
    rewrite (filter_negb_none (fun r => String.eqb (route_domain r) domain)). cbn.
    rewrite String.eqb_refl. reflexivity.
Qed.

Lemma add_route_twice_replaces_witness :
  let r1 := add_route Sample.host "app.example.com" 3000 (Some "svc") (Some (Some "demo"))
                      Sample.fresh_manager Sample.fresh_world in
  let r2 := add_route Sample.host "app.example.com" 8080 None (Some (Some "demo"))
                      Sample.fresh_manager r1.2 in
  exists l info,
    ingress_of (Some "demo") r2.2 = Some l
    /\ List.filter (is_rule_for "app.example.com") l
       = [RDict (Some "app.example.com") (Some (service_url "localhost" 8080))]
    /\ disk_tunnels r2.2 !! "demo" = Some info
    /\ List.filter (fun r => String.eqb (route_domain r) "app.example.com") (routes info)
       = [Route "app.example.com" (service_url "localhost" 8080)].
Proof.
  apply (add_route_twice_replaces Sample.host Sample.host "app.example.com" 3000 8080
           (Some "svc") None (Some (Some "demo")) (Some (Some "demo"))
           Sample.fresh_manager Sample.fresh_manager Sample.fresh_world).
  - vm_compute. reflexivity.
  - vm_compute. reflexivity.
  - reflexivity.
Defined.

(** ** The default tunnel of [add_route] *)

Lemma ensures_bind_ret {A B} (Q : obj -> world -> Prop) (m : M A) (k : A -> M B) o w :
  (exists a, (m o w).1.1 = Ret a) ->
  (forall a, ensures (k a) (m o w).1.2 (m o w).2 Q) ->
  ensures (bind m k) o w Q.
Proof.
  unfold ensures, bind. intros [a Ha] Hk.
  destruct (m o w) as [[[a'|e] o1] w1]; cbn in *; [apply Hk | discriminate Ha].
Qed.

Lemma when_use_tunnel_returns E b n o w :
  exists a, (when b (use_tunnel E n) o w).1.1 = Ret a.
Proof.
  destruct b; cbn.
  - exists tt. apply use_tunnel_selects.
  - exists tt. reflexivity.
Qed.

Section DefaultTunnel.

Variable E : env.

Lemma _restart_tunnel_selected n : preserves (selected n) (_restart_tunnel E).
Proof. pres. Qed.

#[local] Hint Resolve _restart_tunnel_selected : pres.

(** Everything [add_route] does after [create_tunnel] keeps the selection. *)
Lemma add_route_selects domain port host tn_arg o w :
  let tn := resolve_tunnel_name (default universal_tunnel tn_arg) (self_tunnel_name o) in
  truthy tn = true ->
  ensures (add_route E domain port host tn_arg) o w (selected tn).
Proof.
  intros tn Htn. unfold add_route. cbv zeta. apply ensures_get_self.
  fold tn. rewrite Htn. cbn [negb].
  apply ensures_bind_ret; [apply when_use_tunnel_returns|]. intros _.
  apply ensures_bind; [apply create_tunnel_selects, Htn|].
  intros created. pres.
Qed.

Lemma ensures_ask {A B} (Q : obj -> world -> Prop) (f : nat -> A) ev (k : A -> M B) o w :
  ensures (k (f (length (log w)))) o (with_log ev w) Q ->
  ensures (bind (ask f ev) k) o w Q.
Proof. intros H. exact H. Qed.

(** When the listing does not show the name, the provider's create command
    is run. *)
Lemma create_tunnel_creates name s o w :
  truthy (Some name) = true ->
  (forall t, PyStr.contains name (tunnel_list_text E t) = false) ->
  ensures (create_tunnel E (Some name) s) o w
          (fun _ w' => In (CmdTunnelCreate name) (log w')).
Proof.
  intros Htn Hnever. unfold create_tunnel. apply ensures_get_self.
  rewrite create_tunnel_guard_some, Htn.
  apply ensures_bind_ret; [exists tt; apply use_tunnel_selects|]. intros _.
  apply ensures_ask. rewrite Hnever.
  apply ensures_ask. apply ensures_preserves.
  - pres.
  - left. reflexivity.
Qed.

Lemma add_route_creates domain port host o w :
  (forall t, PyStr.contains "Universal-Tunnel" (tunnel_list_text E t) = false) ->
  ensures (add_route E domain port host None) o w
          (fun _ w' => In (CmdTunnelCreate "Universal-Tunnel") (log w')).
Proof.
  intros Hnever. unfold add_route. cbv zeta. apply ensures_get_self.
  change (resolve_tunnel_name (default universal_tunnel None) (self_tunnel_name o))
    with universal_tunnel.
  change (truthy universal_tunnel) with true. cbn [negb].
  apply ensures_bind_ret; [apply when_use_tunnel_returns|]. intros _.
  apply ensures_bind; [apply create_tunnel_creates; [reflexivity | exact Hnever]|].
  intros created. pres.
Qed.

End DefaultTunnel.

(** C9. [add_route] called without a tunnel name works on the tunnel
    [Universal-Tunnel], whichever tunnel the manager had selected: the name
    resolution never falls back to the selected tunnel, the call is the call
    with the name [Universal-Tunnel] spelled out, and afterwards the manager
    object points at that tunnel, its record is in the state document and
    it is the current tunnel.  When the provider listing does not show the
    name, the provider's create command is run for it. *)
Theorem add_route_default_tunnel (E : env) (domain : string) (port : Z)
        (host : option string) (o : obj) (w : world) :
  let r := add_route E domain port host None o w in
  resolve_tunnel_name (default universal_tunnel None) (self_tunnel_name o)
  = Some "Universal-Tunnel"
  /\ r = add_route E domain port host (Some (Some "Universal-Tunnel")) o w
  /\ self_tunnel_name r.1.2 = Some "Universal-Tunnel"
  /\ self_config_file r.1.2 = Some "~/.cloudflared/config-Universal-Tunnel.yml"
  /\ is_Some (disk_tunnels r.2 !! "Universal-Tunnel")
  /\ disk_current r.2 = Some "Universal-Tunnel"
  /\ ((forall t, PyStr.contains "Universal-Tunnel" (tunnel_list_text E t) = false) ->
      In (CmdTunnelCreate "Universal-Tunnel") (log r.2)).
Proof.
  intros r. split; [reflexivity|]. split; [reflexivity|].
  pose proof (add_route_selects E domain port host None o w eq_refl) as (H1 & H2 & H3 & H4).
  repeat split; try assumption.
  intros Hnever. apply (add_route_creates E domain port host o w Hnever).
Qed.

Lemma add_route_default_tunnel_witness :
  In (CmdTunnelCreate "Universal-Tunnel")
     (log (add_route Sample.host "app.example.com" 3000 None None
                     (Obj (Some "demo") (Some (config_path (Some "demo"))) true)
                     Sample.fresh_world).2).
Proof.
  apply (add_route_default_tunnel Sample.host "app.example.com" 3000 None
           (Obj (Some "demo") (Some (config_path (Some "demo"))) true) Sample.fresh_world).
  intros t. vm_compute. reflexivity.
Defined.

(** * Deleting a tunnel while the provider reports active connections *)

Lemma returns_ret {A} (a : A) : returns (ret a).
Proof. intros o w. exists a. reflexivity. Qed.

Lemma returns_bind {A B} (m : M A) (k : A -> M B) :
  returns m -> (forall a, returns (k a)) -> returns (bind m k).
Proof.
  intros Hm Hk o w. unfold bind. destruct (Hm o w) as [a Ha].
  destruct (m o w) as [[[a'|e] o1] w1]; cbn in *; [apply Hk | discriminate Ha].
Qed.

Lemma returns_try_except {A} (body : M A) handler :
  (forall e, returns (handler e)) -> returns (try_except body handler).
Proof.
  intros Hh o w. unfold try_except.
  destruct (body o w) as [[[a|e] o1] w1]; cbn; [eauto | apply Hh].
Qed.

Lemma returns_run {A} (m : M A) o w e o1 w1 :
  returns m -> m o w = (Raise e, o1, w1) -> False.
Proof. intros Hm H. destruct (Hm o w) as [a Ha]. rewrite H in Ha. discriminate Ha. Qed.

Create HintDb rets discriminated.

Ltac rets_leaf :=
  let o := fresh "o" in
  let w := fresh "w" in
  intros o w; cbn; repeat case_match; cbn; eauto.

Ltac rets :=
  cbv zeta;
  lazymatch goal with
  | |- returns (bind _ _) => apply returns_bind; [rets | intros ?; rets]
  | |- returns (try_except _ _) => apply returns_try_except; intros ?; rets
  | |- returns (ret _) => apply returns_ret
  | |- returns (when ?b _) => destruct b; unfold when; rets
  | |- returns (match ?x with _ => _ end) => destruct x; rets
  | |- returns ?m =>
      first
        [ solve [eauto with rets]
        | let h := head_of m in progress (unfold h); cbv beta; rets
        | rets_leaf ]
  end.

#[export] Hint Resolve _update_tunnel_info_keeps_registered _register_tunnel_keeps_registered
  : pres.

Ltac pres_kept := unfold artifacts_kept; repeat apply preserves_and; pres.

Section DeleteFacts.

Variable E : env.

Lemma use_tunnel_keeps_registered k n :
  preserves (fun _ w => registered k w) (use_tunnel E n).
Proof.
  intros o w H. unfold use_tunnel, bind, set_tunnel_name, set_config_file. cbn.
  set (o1 := Obj n (Some (config_path n)) (auto_start_on_create o)).
  pose proof (_register_tunnel_returns E n o1 w) as Hr.
  pose proof (_register_tunnel_keeps_registered E n k o1 w H) as Hreg.
  destruct (_register_tunnel E n o1 w) as [[r o2] w2]. cbn in Hr, Hreg.
  injection Hr as -> ->. cbn. rewrite _load_state_eq. cbn.
  unfold registered in *. cbn. rewrite json_keys_loaded by apply loaded_none_item.
  exact Hreg.
Qed.

#[local] Hint Resolve use_tunnel_keeps_registered : pres.

Lemma use_tunnel_kept Y D n c : preserves (artifacts_kept Y D n c) (use_tunnel E n).
Proof. pres_kept. Qed.

Lemma check_autostart_status_kept Y D n c :
  preserves (artifacts_kept Y D n c) (check_autostart_status E).
Proof. pres_kept. Qed.

Lemma remove_autostart_kept Y D n c :
  preserves (artifacts_kept Y D n c) (remove_autostart E).
Proof. pres_kept. Qed.

Lemma reports_active_inv answer :
  reports_active answer = true ->
  exists stderr, answer = Some stderr /\ PyStr.contains "active connections" stderr = true.
Proof. destruct answer as [stderr|]; cbn; [eauto | discriminate]. Qed.

Lemma delete_loop_gives_up name old o w :
  (forall t, reports_active (tunnel_delete E t) = true) ->
  exists msg,
    delete_loop E max_retries name old 0 o w
    = (Ret (LoopReturn false),
       Obj old (self_config_file o) (auto_start_on_create o),
       World (state_file w) (yaml_files w) (dir_files w)
             (clock_ms w + 5000 + 5000)%N (retry_trace name ++ log w) (msg :: console w)).
Proof.
  intros Hactive. unfold max_retries. cbn [delete_loop Nat.ltb Nat.leb Nat.add].
  unfold bind, ask, tell, sleep, print, set_tunnel_name, ret. cbn.
  destruct (reports_active_inv _ (Hactive (length (log w)))) as (s1 & -> & ->).
  cbn.
  destruct (reports_active_inv _ (Hactive (S (S (S (S (length (log w))))))))
    as (s2 & -> & ->).
  cbn.
  destruct (reports_active_inv _
              (Hactive (S (S (S (S (S (S (S (S (length (log w)))))))))))) as (s3 & -> & ->).
  cbn. eexists. reflexivity.
Qed.

Lemma bind_inv_returns {A B} (m : M A) (k : A -> M B) o w r o' w' :
  returns m -> bind m k o w = (r, o', w') ->
  exists a o1 w1, m o w = (Ret a, o1, w1) /\ k a o1 w1 = (r, o', w').
Proof.
  intros Hm. unfold bind. destruct (Hm o w) as [a Ha].
  destruct (m o w) as [[[a'|e] o1] w1]; cbn in Ha; [|discriminate Ha].
  intros H. exists a', o1, w1. split; [reflexivity | exact H].
Qed.

End DeleteFacts.

Tactic Notation "stepr" hyp(H) "as" ident(a) ident(o1) ident(w1) ident(H1) :=
  apply bind_inv_returns in H as (a & o1 & w1 & H1 & H); [cbv beta in H | rets].

(** C2. When every provider delete attempt fails with "active connections"
    in its stderr, [delete_tunnel] makes exactly three attempts (a five
    second delay, a forced kill and a cleanup between two attempts) and
    returns [False]; no config file is removed, the other files of the
    config directory (credentials among them) are all still there, and the
    tunnel's record is still in the state document. *)
Theorem delete_tunnel_active_connections (E : env) (tunnel_name : pyname) (force : bool)
        (o : obj) (w : world)
        (Hname : truthy (resolve_tunnel_name tunnel_name (self_tunnel_name o)) = true)
        (Hactive : forall t, reports_active (tunnel_delete E t) = true) :
  let tn := resolve_tunnel_name tunnel_name (self_tunnel_name o) in
  let r := delete_tunnel E tunnel_name force o w in
  r.1.1 = Ret false
  /\ yaml_files r.2 = yaml_files w
  /\ dir_files r.2 = dir_files w
  /\ registered tn r.2
  /\ delete_attempts (log r.2) = 3 + delete_attempts (log w)
  /\ exists before, log r.2 = retry_trace (fmt tn) ++ before.
Proof.
  intros tn r. subst r. fold tn in Hname.
  destruct (delete_tunnel E tunnel_name force o w) as [[res o'] w'] eqn:H.
  unfold delete_tunnel in H. cbv zeta in H.
  stepr H as o0 oa wa Ha. injection Ha as <- <- <-.
  fold tn in H. rewrite Hname in H. cbn [negb] in H.
  remember (artifacts_kept (yaml_files w) (dir_files w) tn (delete_attempts (log w))) as K
    eqn:EK.
  (* select the tunnel *)
  stepr H as u1 o1 w1 H1.
  assert (K1 : K o1 w1).
  { subst K.
    assert (Hk : artifacts_kept (yaml_files w) (dir_files w) tn (delete_attempts (log w))
                   (use_tunnel E tn o w).1.2 (use_tunnel E tn o w).2).
    { unfold artifacts_kept. split; [split|split].
      - apply (use_tunnel_yaml E (yaml_files w) tn o w eq_refl).
      - assert (Hd : preserves (fun _ x => dir_files x = dir_files w) (use_tunnel E tn)) by pres.
        apply (Hd o w eq_refl).
      - apply use_tunnel_selects.
      - assert (Hd : preserves (fun _ x => delete_attempts (log x) = delete_attempts (log w))
                               (use_tunnel E tn)) by pres.
        apply (Hd o w eq_refl). }
    rewrite H1 in Hk. exact Hk. }
  (* stop processes and services, clean up, drop the autostart *)
  stepr H as has_autostart o2 w2 H2.
  assert (K2 : K o2 w2).
  { subst K. eapply preserves_run; [|exact K1|exact H2]. apply check_autostart_status_kept. }
  stepr H as u3 o3 w3 H3.
  assert (K3 : K o3 w3).
  { subst K. eapply preserves_run; [|exact K2|exact H3]. pres_kept. }
  stepr H as u4 o4 w4 H4.
  assert (K4 : K o4 w4).
  { subst K. eapply preserves_run; [|exact K3|exact H4]. pres_kept. }
  stepr H as u5 o5 w5 H5.
  assert (K5 : K o5 w5).
  { subst K. eapply preserves_run; [|exact K4|exact H5]. pres_kept. }
  stepr H as u6 o6 w6 H6.
  assert (K6 : K o6 w6).
  { subst K. eapply preserves_run; [|exact K5|exact H6]. pres_kept. }
  stepr H as u7 o7 w7 H7.
  assert (K7 : K o7 w7).
  { subst K. eapply preserves_run; [|exact K6|exact H7].
    destruct has_autostart; [|pres_kept].
    apply preserves_bind; [apply remove_autostart_kept | intros ?; pres_kept]. }
  (* the retry loop *)
  unfold bind at 1 in H.
  destruct (delete_loop_gives_up E (fmt tn) (self_tunnel_name o) o7 w7 Hactive) as [msg Hloop].
  rewrite Hloop in H. cbv beta iota in H. injection H as <- <- <-.
  subst K. destruct K7 as ((Hy & Hd) & (Hreg & Hn)). cbn.
  repeat split; try assumption.
  - unfold delete_attempts in *. cbn. rewrite Hn. reflexivity.
  - eexists. reflexivity.
Qed.

Lemma delete_tunnel_active_connections_witness :
  let r := delete_tunnel Sample.host (Some "demo") false
                         Sample.fresh_manager Sample.routed_world in
  r.1.1 = Ret false
  /\ yaml_files r.2 = yaml_files Sample.routed_world
  /\ dir_files r.2 = dir_files Sample.routed_world
  /\ registered (Some "demo") r.2
  /\ delete_attempts (log r.2) = 3 + delete_attempts (log Sample.routed_world)
  /\ exists before, log r.2 = retry_trace "demo" ++ before.
Proof.
  apply (delete_tunnel_active_connections Sample.host (Some "demo") false
           Sample.fresh_manager Sample.routed_world).
  - reflexivity.
  - intros t. vm_compute. reflexivity.
Defined.

Lemma delete_loop_within_budget (E : env) name old fuel retry_count o w :
  1 <= fuel -> max_retries - retry_count <= fuel ->
  (delete_loop E fuel name old retry_count o w).1.1 <> Ret LoopFuel.
Proof.
  revert retry_count o w. induction fuel as [|fuel IH]; intros rc o w H1 H2; [lia|].
  cbn [delete_loop]. destruct (rc <? max_retries) eqn:Hrc; [|unfold ret; cbn; discriminate].
  unfold bind at 1, ask at 1. cbv beta iota.
  destruct (tunnel_delete E (length (log w))) as [stderr|]; [|unfold ret; cbn; discriminate].
  destruct (PyStr.contains "active connections" stderr);
    [|unfold bind, print, set_tunnel_name, ret; cbn; discriminate].
  destruct (rc + 1 <? max_retries) eqn:Hrc';
    [|unfold bind, print, set_tunnel_name, ret; cbn; discriminate].
  apply Nat.ltb_lt in Hrc'. unfold max_retries in *.
  unfold bind, sleep, tell, ask. cbn. apply IH; lia.
Qed.

(** * Temporary tunnels *)

Section TempFacts.

Variable E : env.

(** What the polling loop can end with. *)
Lemma wait_for_url_spec pid start fuel o w :
  (start <= clock_ms w)%N ->
  exists res w',
    wait_for_url E fuel pid start o w = (Ret res, o, w')
    /\ state_file w' = state_file w
    /\ yaml_files w' = yaml_files w
    /\ (forall url, res = UrlFound url ->
          exists t, proc_readline E t ≫= url_of_line = Some url)
    /\ (res = ProcessDied -> exists t, proc_exited E t = true)
    /\ (res = TimedOut -> (timeout_ms <= clock_ms w' - start)%N)
    /\ (res = WaitFuel ->
          fuel = 0 \/ (clock_ms w - start + 500 * N.of_nat (fuel - 1) < timeout_ms)%N).
Proof.
  revert o w. induction fuel as [|fuel IH]; intros o w Hstart.
  - exists WaitFuel, w. cbn. repeat split; try discriminate. intros _. left. reflexivity.
  - cbn [wait_for_url]. unfold bind at 1, get_world at 1. cbv beta iota.
    destruct (clock_ms w - start <? timeout_ms)%N eqn:Htime.
    + apply N.ltb_lt in Htime.
      unfold bind at 1, ask at 1. cbv beta iota.
      destruct (proc_exited E (length (log w))) eqn:Hexit.
      * eexists ProcessDied, _. unfold bind, ask, print, ret. cbn.
        repeat split; try discriminate. intros _. eauto.
      * unfold bind at 1, readline at 1. cbv beta iota.
        destruct (proc_readline E (length (log (with_log (ProcPoll pid) w)))
                    ≫= url_of_line) as [url|] eqn:Hline.
        -- eexists (UrlFound url), _. unfold ret. cbn.
           repeat split; try discriminate. intros url' [= <-]. eauto.
        -- unfold bind at 1, sleep at 1. cbv beta iota.
           match goal with
           | |- context [wait_for_url E fuel pid start o ?w2] =>
               destruct (IH o w2) as (res & w' & Hrun & Hst & Hy & Hurl & Hdied & Hout & Hfuel)
           end.
           { cbn. lia. }
           exists res, w'. split; [exact Hrun|].
           split; [exact Hst|]. split; [exact Hy|].
           split; [exact Hurl|]. split; [exact Hdied|]. split.
           ++ exact Hout.
           ++ intros Hr. right. destruct (Hfuel Hr) as [->|Hlt].
              ** cbn. lia.
              ** cbn in Hlt. destruct fuel as [|fuel']; [cbn in *; lia|].
                 cbn [Nat.sub] in *. rewrite Nat.sub_0_r in *. lia.
    + apply N.ltb_ge in Htime. exists TimedOut, w. unfold ret.
      split; [reflexivity|]. split; [reflexivity|]. split; [reflexivity|].
      split; [discriminate|]. split; [discriminate|].
      split; [intros _; exact Htime | discriminate].
Qed.

(** The four ways [create_temp_tunnel] can end. *)
Lemma create_temp_tunnel_cases port subdomain o w :
  exists res o' w',
    create_temp_tunnel E port subdomain o w = (Ret res, o', w')
    /\ ((popen_temp E (length (log w)) = None
         /\ res = None /\ state_file w' = state_file w)
        \/ (exists pid,
              popen_temp E (length (log w)) = Some pid
              /\ res = None /\ state_file w' = state_file w
              /\ exists t, proc_exited E t = true)
        \/ (exists pid rest,
              popen_temp E (length (log w)) = Some pid
              /\ res = None /\ state_file w' = state_file w
              /\ log w' = ProcTerminate pid :: rest)
        \/ (exists pid url name info,
              popen_temp E (length (log w)) = Some pid
              /\ res = Some url
              /\ (exists t, proc_readline E t ≫= url_of_line = Some url)
              /\ disk_tunnels w' !! name = Some info
              /\ transient_record info url port pid)).
Proof.
  unfold create_temp_tunnel, try_except.
  unfold bind at 1, get_world at 1. cbv beta iota.
  unfold bind at 1, ask at 1. cbv beta iota.
  destruct (popen_temp E (length (log w))) as [pid|] eqn:Hpopen.
  2:{ unfold raise, bind, print, ret. cbn. do 3 eexists. split; [reflexivity|].
      left. repeat split; reflexivity. }
  unfold bind at 1, get_world at 1. cbv beta iota.
  unfold bind at 1.
  match goal with
  | |- context [wait_for_url E wait_budget pid ?st o ?w1] =>
      destruct (wait_for_url_spec pid st wait_budget o w1 (N.le_refl _))
        as (res & w' & Hrun & Hst & _ & Hurl & Hdied & _ & Hfuel)
  end.
  rewrite Hrun. cbv beta iota. cbn in Hst.
  destruct res as [url| | |].
  - remember (Some ("temp-" +:+ pretty (clock_ms w / 1000)%N)) as tn eqn:Etn.
    unfold bind at 1.
    pose proof (_register_tunnel_returns E tn o w') as Hr1.
    pose proof (_register_tunnel_registers E tn o w') as Hreg.
    destruct (_register_tunnel E tn o w') as [[r1 o1] w1]. cbn in Hr1, Hreg.
    injection Hr1 as -> ->. cbv beta iota.
    unfold bind at 1.
    match goal with
    | |- context [_update_tunnel_info E tn ?upd o w1] =>
        pose proof (_update_tunnel_info_returns E tn upd o w1) as Hr2;
        pose proof (_update_tunnel_info_disk E tn upd o w1) as [Hd2 _];
        destruct (_update_tunnel_info E tn upd o w1) as [[r2 o2] w2]
    end.
    cbn in Hr2, Hd2. injection Hr2 as -> ->. cbv beta iota. unfold ret.
    destruct Hreg as [i Hi].
    assert (Hget : dict_get tn (d_tunnels (loaded w1)) = Some i).
    { subst tn. exact Hi. }
    rewrite Hget in Hd2.
    do 3 eexists. split; [reflexivity|]. right. right. right.
    exists pid, url, (json_key tn), (dict_update i
      [SetTempTunnel true; SetTempUrl url; SetTempPort port;
       SetTempProcessId (Some pid); SetAutoStart false]).
    split; [reflexivity|]. split; [reflexivity|].
    split; [apply Hurl; reflexivity|]. split.
    + rewrite Hd2. apply lookup_insert_eq.
    + destruct i. repeat split.
  - unfold bind, print, tell, ret. cbn. do 3 eexists. split; [reflexivity|].
    right. right. left. exists pid. eexists. repeat split. exact Hst.
  - unfold ret. do 3 eexists. split; [reflexivity|].
    right. left. exists pid. repeat split; [exact Hst | apply Hdied; reflexivity].
  - exfalso. destruct (Hfuel eq_refl) as [Hz|Hlt]; [discriminate Hz|].
    cbn in Hlt. unfold timeout_ms in Hlt. lia.
Qed.

End TempFacts.



Example create_temp_tunnel_finds_url :
  (create_temp_tunnel quick_tunnel_host 8080 None Sample.fresh_manager Sample.fresh_world).1.1
  = Ret (Some "https://calm-river.trycloudflare.com").
Proof. vm_compute. reflexivity. Qed.

(** * Reaping transient records *)

Section ReapFacts.

Variable E : env.

Lemma _unregister_tunnel_returns n o w : (_unregister_tunnel E n o w).1 = (Ret tt, o).
Proof.
  unfold _unregister_tunnel, bind. rewrite _load_state_eq.
  destruct (dict_get n (d_tunnels (loaded w))); reflexivity.
Qed.

Lemma _unregister_tunnel_disk n o w :
  disk_tunnels (_unregister_tunnel E n o w).2
  = match dict_get n (d_tunnels (loaded w)) with
    | Some _ => delete (json_key n) (disk_tunnels w)
    | None => disk_tunnels w
    end.
Proof.
  unfold _unregister_tunnel, bind. rewrite _load_state_eq.
  destruct (dict_get n (d_tunnels (loaded w))) eqn:Hg; [|reflexivity].
  destruct n as [s|]; cbn in Hg.
  - cbn. unfold disk_tunnels. cbn. unfold json_keys. cbn.
    rewrite loaded_none_item. reflexivity.
  - rewrite loaded_none_item in Hg. discriminate Hg.
Qed.

Lemma _unregister_tunnel_removes k o w :
  disk_tunnels (_unregister_tunnel E (Some k) o w).2 !! k = None.
Proof.
  rewrite _unregister_tunnel_disk. cbn.
  destruct (str_items (d_tunnels (loaded w)) !! k) eqn:Hk.
  - apply lookup_delete_eq.
  - exact Hk.
Qed.

Lemma _unregister_tunnel_adds_nothing n k o w :
  disk_tunnels w !! k = None -> disk_tunnels (_unregister_tunnel E n o w).2 !! k = None.
Proof.
  intros Hk. rewrite _unregister_tunnel_disk.
  destruct (dict_get n (d_tunnels (loaded w))); [|exact Hk].
  rewrite lookup_delete_None. right. exact Hk.
Qed.

(** The loop of [list_temp_tunnels]: every listed row has a process that
    answered the liveness probe, no record is added, and the records whose
    process is gone are removed. *)
Lemma list_temp_loop_spec items acc o w :
  exists rows w',
    list_temp_loop E items acc o w = (Ret rows, o, w')
    /\ (forall row, In row rows ->
          In row acc
          \/ exists pid t, temp_process_id row = Some pid /\ process_alive E t pid = true)
    /\ (forall k, disk_tunnels w !! k = None -> disk_tunnels w' !! k = None)
    /\ (forall k info pid,
          In (Some k, info) items ->
          temp_tunnel info = Some true ->
          temp_process_id info = Some pid ->
          (forall t, process_alive E t pid = false) ->
          disk_tunnels w' !! k = None).
Proof.
  revert acc o w. induction items as [|[tn info] items IH]; intros acc o w.
  - exists acc, w. cbn. split; [reflexivity|]. split; [auto|]. split; [auto|].
    intros k i p [].
  - cbn [list_temp_loop].
    destruct (default false (temp_tunnel info)) eqn:Htemp.
    + destruct (temp_process_id info) as [pid|] eqn:Hpid.
      * unfold bind at 1, ask at 1. cbv beta iota.
        destruct (process_alive E (length (log w)) pid) eqn:Halive.
        -- destruct (IH (acc ++ [info]) o (with_log (Kill0 pid) w))
             as (rows & w' & Hrun & Hrows & Hmono & Hreap).
           exists rows, w'. split; [exact Hrun|]. split; [|split].
           ++ intros row Hin. destruct (Hrows row Hin) as [Hacc|Hlive]; [|right; exact Hlive].
              apply in_app_or in Hacc as [Hacc|[<-|[]]]; [left; exact Hacc|].
              right. eauto.
           ++ exact Hmono.
           ++ intros k i p [[= -> ->]|Hin] Ht Hp Hdead.
              ** rewrite Hpid in Hp. injection Hp as ->.
                 rewrite Hdead in Halive. discriminate Halive.
              ** eapply Hreap; eassumption.
        -- unfold bind at 1.
           pose proof (_unregister_tunnel_returns tn o (with_log (Kill0 pid) w)) as Hr.
           pose proof (_unregister_tunnel_adds_nothing tn) as Hadd.
           pose proof (fun k => _unregister_tunnel_removes k o (with_log (Kill0 pid) w)) as Hrem.
           specialize (fun k => Hadd k o (with_log (Kill0 pid) w)).
           destruct (_unregister_tunnel E tn o (with_log (Kill0 pid) w)) as [[r1 o1] w1] eqn:Hun.
           cbn in Hr. injection Hr as -> ->. cbv beta iota.
           destruct (IH acc o w1) as (rows & w' & Hrun & Hrows & Hmono & Hreap).
           exists rows, w'. split; [exact Hrun|]. split; [exact Hrows|]. split.
           ++ intros k Hk. apply Hmono, Hadd. exact Hk.
           ++ intros k i p [[= -> ->]|Hin] Ht Hp Hdead.
              ** apply Hmono. specialize (Hrem k). rewrite Hun in Hrem. exact Hrem.
              ** eapply Hreap; eassumption.
      * destruct (IH acc o w) as (rows & w' & Hrun & Hrows & Hmono & Hreap).
        exists rows, w'. split; [exact Hrun|]. split; [exact Hrows|]. split; [exact Hmono|].
        intros k i p [[= -> ->]|Hin] Ht Hp Hdead; [congruence|].
        eapply Hreap; eassumption.
    + destruct (IH acc o w) as (rows & w' & Hrun & Hrows & Hmono & Hreap).
      exists rows, w'. split; [exact Hrun|]. split; [exact Hrows|]. split; [exact Hmono|].
      intros k i p [[= -> ->]|Hin] Ht Hp Hdead.
      * rewrite Ht in Htemp. discriminate Htemp.
      * eapply Hreap; eassumption.
Qed.

Lemma dict_items_loaded k info w :
  disk_tunnels w !! k = Some info -> In (Some k, info) (dict_items (d_tunnels (loaded w))).
Proof.
  intros H. unfold dict_items. rewrite loaded_none_item, app_nil_r.
  apply in_map_iff. exists (k, info). split; [reflexivity|].
  apply list_elem_of_In, elem_of_map_to_list. exact H.
Qed.

Lemma _check_tunnel_status_keeps_registered k n :
  preserves (fun _ w => registered k w) (_check_tunnel_status E n).
Proof. pres. Qed.

End ReapFacts.

(** C7 (amended). A record with [temp_tunnel = True] that still carries its
    process id, and whose process no longer exists, is reaped by
    [list_temp_tunnels]: it is not among the listed rows (every listed row
    has a live process) and its record is gone from the state document.
    [_check_tunnel_status] removes no record. *)
Theorem list_temp_tunnels_reaps (E : env) (o : obj) (w : world)
        (name : string) (info : tunnel_info) (pid : positive)
        (Hrec : disk_tunnels w !! name = Some info)
        (Htemp : temp_tunnel info = Some true)
        (Hpid : temp_process_id info = Some pid)
        (Hdead : forall t, process_alive E t pid = false) :
  (exists rows,
     (list_temp_tunnels E o w).1.1 = Ret rows
     /\ ~ In info rows
     /\ (forall row, In row rows -> temp_process_id row <> Some pid))
  /\ disk_tunnels (list_temp_tunnels E o w).2 !! name = None
  /\ is_Some (disk_tunnels (_check_tunnel_status E (Some name) o w).2 !! name).
Proof.
  split; [|split].
  - unfold list_temp_tunnels, bind. rewrite _load_state_eq.
    destruct (list_temp_loop_spec E (dict_items (d_tunnels (loaded w))) [] o w)
      as (rows & w' & Hrun & Hrows & _ & _).
    rewrite Hrun. exists rows. cbn. split; [reflexivity|].
    assert (Hno : forall row, In row rows -> temp_process_id row <> Some pid).
    { intros row Hin Hp. destruct (Hrows row Hin) as [[]|(p & t & Hp' & Halive)].
      rewrite Hp in Hp'. injection Hp' as <-. rewrite Hdead in Halive. discriminate Halive. }
    split; [|exact Hno].
    intros Hin. exact (Hno info Hin Hpid).
  - unfold list_temp_tunnels, bind. rewrite _load_state_eq.
    destruct (list_temp_loop_spec E (dict_items (d_tunnels (loaded w))) [] o w)
      as (rows & w' & Hrun & _ & _ & Hreap).
    rewrite Hrun. cbn.
    apply (Hreap name info pid); [apply dict_items_loaded, Hrec | assumption..].
  - apply (_check_tunnel_status_keeps_registered E (Some name) (Some name) o w).
    unfold registered. cbn. fold (disk_tunnels w). rewrite Hrec. eauto.
Qed.

Lemma list_temp_tunnels_reaps_witness :
  (exists rows,
     (list_temp_tunnels Sample.host Sample.fresh_manager
                        ReapSample.world_with_dead_temp).1.1 = Ret rows
     /\ ~ In ReapSample.record rows
     /\ (forall row, In row rows -> temp_process_id row <> Some 4242%positive))
  /\ disk_tunnels (list_temp_tunnels Sample.host Sample.fresh_manager
                                     ReapSample.world_with_dead_temp).2
     !! "temp-1714554000" = None
  /\ is_Some (disk_tunnels (_check_tunnel_status Sample.host (Some "temp-1714554000")
                              Sample.fresh_manager ReapSample.world_with_dead_temp).2
              !! "temp-1714554000").
Proof.
  apply (list_temp_tunnels_reaps Sample.host Sample.fresh_manager
           ReapSample.world_with_dead_temp "temp-1714554000" ReapSample.record 4242%positive).
  - vm_compute. reflexivity.
  - reflexivity.
  - reflexivity.
  - intros t. reflexivity.
Defined.

(** C7 as stated fails: a status check by [_check_tunnel_status] on a
    transient record whose process is gone answers "stopped" and only
    clears the process id; the record stays in the state document with
    [temp_tunnel = True], and a following [list_temp_tunnels] skips it
    without removing it. *)
Lemma status_check_does_not_reap :
  let checked := _check_tunnel_status Sample.host (Some "temp-1714554000")
                                      Sample.fresh_manager ReapSample.world_with_dead_temp in
  let listed := list_temp_tunnels Sample.host Sample.fresh_manager checked.2 in
  process_alive Sample.host 0 4242%positive = false
  /\ checked.1.1 = Ret "stopped"
  /\ temp_tunnel <$> disk_tunnels checked.2 !! "temp-1714554000" = Some (Some true)
  /\ temp_process_id <$> disk_tunnels checked.2 !! "temp-1714554000" = Some None
  /\ listed.1.1 = Ret []
  /\ temp_tunnel <$> disk_tunnels listed.2 !! "temp-1714554000" = Some (Some true).
Proof. vm_compute. repeat split; reflexivity. Qed.

(** * Further properties *)

(** * Further properties of the state store *)

(** X1. Registering a name twice is the same as registering it once: the
    second call leaves the records as the first one left them and the name
    is the current tunnel.  A record that was already there is kept as it
    was, and no other record is touched. *)
Theorem register_tunnel_idempotent (E1 E2 : env) (tunnel_name : string)
        (o1 o2 : obj) (w : world) :
  let w1 := (_register_tunnel E1 (Some tunnel_name) o1 w).2 in
  let w2 := (_register_tunnel E2 (Some tunnel_name) o2 w1).2 in
  disk_tunnels w2 = disk_tunnels w1
  /\ disk_current w2 = Some tunnel_name
  /\ is_Some (disk_tunnels w1 !! tunnel_name)
  /\ (forall i, disk_tunnels w !! tunnel_name = Some i ->
                disk_tunnels w1 !! tunnel_name = Some i)
  /\ (forall k, k <> tunnel_name -> disk_tunnels w1 !! k = disk_tunnels w !! k).
Proof.
  cbv zeta.
  pose proof (_register_tunnel_registers E1 (Some tunnel_name) o1 w) as Hreg.
  destruct (_register_tunnel_disk E1 (Some tunnel_name) o1 w) as [Hd1 _].
  set (w1 := (_register_tunnel E1 (Some tunnel_name) o1 w).2) in *.
  destruct (_register_tunnel_disk E2 (Some tunnel_name) o2 w1) as [Hd2 Hc2].
  unfold registered in Hreg. cbn in Hreg.
  split; [|split; [exact Hc2|split; [exact Hreg|split]]].
  - rewrite Hd2. cbn. destruct Hreg as [i Hi]. rewrite Hi. reflexivity.
  - intros i Hi. rewrite Hd1. cbn. unfold disk_tunnels in Hi. rewrite Hi. exact Hi.
  - intros k Hk. rewrite Hd1. cbn.
    destruct (str_items (d_tunnels (loaded w)) !! tunnel_name); [reflexivity|].
    cbn. apply lookup_insert_ne. congruence.
Qed.

(** X2. [_update_tunnel_info] never creates a record: for a name without a
    record it writes nothing and leaves the world as it is. *)
Theorem update_unknown_tunnel_is_noop (E : env) (tunnel_name : pyname)
        (info : list field_update) (o : obj) (w : world)
        (Hunknown : forall s, tunnel_name = Some s -> disk_tunnels w !! s = None) :
  _update_tunnel_info E tunnel_name info o w = (Ret tt, o, w).
Proof.
  unfold _update_tunnel_info, bind. rewrite _load_state_eq.
  destruct tunnel_name as [s|]; cbn.
  - unfold disk_tunnels in Hunknown. rewrite (Hunknown s eq_refl). reflexivity.
  - rewrite loaded_none_item. reflexivity.
Qed.

Lemma update_unknown_tunnel_is_noop_witness :
  _update_tunnel_info Sample.host (Some "ghost") [SetAutoStart true]
                      Sample.fresh_manager Sample.routed_world
  = (Ret tt, Sample.fresh_manager, Sample.routed_world).
Proof.
  apply update_unknown_tunnel_is_noop.
  intros s _. vm_compute. reflexivity.
Defined.

(** What [_unregister_tunnel] does to the records and the pointer. *)
Lemma _unregister_tunnel_effect (E : env) (tunnel_name : string) (o : obj) (w : world) :
  let w' := (_unregister_tunnel E (Some tunnel_name) o w).2 in
  disk_tunnels w' = delete tunnel_name (disk_tunnels w)
  /\ disk_current w'
     = if bool_decide (is_Some (disk_tunnels w !! tunnel_name)
                       /\ disk_current w = Some tunnel_name)
       then None else disk_current w.
Proof.
  cbv zeta. split.
  - rewrite _unregister_tunnel_disk. cbn.
    destruct (str_items (d_tunnels (loaded w)) !! tunnel_name) eqn:Hk; [reflexivity|].
    symmetry. apply delete_id. exact Hk.
  - unfold _unregister_tunnel, bind. rewrite _load_state_eq.
    unfold disk_tunnels, disk_current. cbn [dict_get].
    destruct (str_items (d_tunnels (loaded w)) !! tunnel_name) eqn:Hk.
    + rewrite _save_state_eq. cbn [snd]. unfold saved, loaded at 1. cbn [state_file json_loads json_dumps d_current_tunnel current_tunnel].
      destruct (decide (d_current_tunnel (loaded w) = Some tunnel_name)) as [Hc|Hc].
      * rewrite bool_decide_eq_true_2; [reflexivity|]. split; [eauto | exact Hc].
      * rewrite bool_decide_eq_false_2; [reflexivity|]. intros [_ ?]. contradiction.
    + cbn [snd ret]. rewrite bool_decide_eq_false_2; [reflexivity|].
      intros [[? ?] _]. discriminate.
Qed.

(** X3. [_unregister_tunnel] removes the record of the name and no other;
    the current-tunnel pointer is cleared when a record was removed and the
    pointer named it, and is left alone otherwise. *)
Theorem unregister_tunnel_effect (E : env) (tunnel_name : string) (o : obj) (w : world) :
  let w' := (_unregister_tunnel E (Some tunnel_name) o w).2 in
  disk_tunnels w' = delete tunnel_name (disk_tunnels w)
  /\ disk_current w'
     = if bool_decide (is_Some (disk_tunnels w !! tunnel_name)
                       /\ disk_current w = Some tunnel_name)
       then None else disk_current w.
Proof. exact (_unregister_tunnel_effect E tunnel_name o w). Qed.

(** * Sessions *)

Lemma registered_holds n w : registered n w -> exists doc, state_file w = Holds doc.
Proof.
  unfold registered, loaded. destruct (state_file w) as [| |raw|doc]; cbn;
    try (rewrite lookup_empty; intros [? ?]; discriminate).
  eauto.
Qed.

Lemma _init_state_holds E o w doc :
  state_file w = Holds doc -> _init_state E o w = (Ret tt, o, w).
Proof. intros H. unfold _init_state, bind, get_world. cbn. rewrite H. reflexivity. Qed.

(** X4. After [use_tunnel(name)] the name is what [get_current_tunnel]
    answers, on the same manager object and on a manager constructed
    later without a name: the selection is carried by the state file. *)
Theorem use_tunnel_sets_current (E E' : env) (tunnel_name : pyname) (auto : bool)
        (o o' : obj) (w : world) :
  let r := use_tunnel E tunnel_name o w in
  (get_current_tunnel r.1.2 r.2).1.1 = Ret tunnel_name
  /\ ((__init__ E' None auto ;;; get_current_tunnel) o' r.2).1.1 = Ret tunnel_name.
Proof.
  cbv zeta. destruct (use_tunnel_selects E tunnel_name o w) as [_ (Hn & _ & Hreg & Hcur)].
  destruct (use_tunnel E tunnel_name o w) as [[r o1] w1]. cbn in *.
  split.
  - unfold get_current_tunnel, bind, get_self. cbn. rewrite Hn.
    destruct (truthy tunnel_name); [reflexivity|].
    rewrite _load_state_eq. cbn. f_equal. exact Hcur.
  - destruct (registered_holds _ _ Hreg) as [doc Hdoc].
    unfold bind at 1, __init__. unfold bind at 1.
    rewrite (_init_state_holds E' _ _ doc Hdoc). cbn.
    unfold get_current_tunnel, bind, get_self. cbn.
    rewrite _load_state_eq. cbn. f_equal. exact Hcur.
Qed.

(** What the constructor leaves behind. *)
Lemma __init___effect (E : env) (tunnel_name : pyname) (auto : bool) (o : obj) (w : world) :
  let r := __init__ E tunnel_name auto o w in
  r.1.1 = Ret tt
  /\ state_file r.2 <> Missing
  /\ (truthy tunnel_name = true -> selected tunnel_name r.1.2 r.2)
  /\ (truthy tunnel_name = false ->
      r.1.2 = Obj tunnel_name None auto
      /\ disk_tunnels r.2 = disk_tunnels w
      /\ disk_current r.2 = disk_current w).
Proof.
  cbv zeta. set (o0 := Obj tunnel_name None auto).
  assert (Hinit : exists w1, _init_state E o0 w = (Ret tt, o0, w1)
                    /\ state_file w1 <> Missing
                    /\ disk_tunnels w1 = disk_tunnels w
                    /\ disk_current w1 = disk_current w).
  { unfold _init_state, bind, get_world. cbn.
    destruct (state_file w) as [| |raw|doc] eqn:Hf; cbn.
    - eexists. split; [reflexivity|]. cbn. split; [discriminate|].
      unfold disk_tunnels, disk_current, loaded. cbn. rewrite Hf. split; reflexivity.
    - exists w. rewrite Hf. repeat split; discriminate.
    - exists w. rewrite Hf. repeat split; discriminate.
    - exists w. rewrite Hf. repeat split; discriminate. }
  destruct Hinit as (w1 & Hinit & Hne & Ht & Hc).
  assert (Heq : __init__ E tunnel_name auto o w
                = (if truthy tunnel_name
                   then set_config_file (Some (config_path tunnel_name)) ;;;
                        _register_tunnel E tunnel_name
                   else set_config_file None) o0 w1).
  { unfold __init__. unfold bind at 1. fold o0. rewrite Hinit. reflexivity. }
  rewrite Heq. clear Heq Hinit.
  destruct (truthy tunnel_name) eqn:Htn.
  - unfold bind, set_config_file. cbn.
    set (o1 := Obj tunnel_name (Some (config_path tunnel_name)) auto).
    pose proof (_register_tunnel_returns E tunnel_name o1 w1) as Hr.
    pose proof (_register_tunnel_registers E tunnel_name o1 w1) as Hreg.
    pose proof (proj2 (_register_tunnel_disk E tunnel_name o1 w1)) as Hcur.
    destruct (_register_tunnel E tunnel_name o1 w1) as [[r o2] w2]. cbn in *.
    injection Hr as -> ->.
    split; [reflexivity|]. split.
    + destruct (registered_holds _ _ Hreg) as [doc ->]. discriminate.
    + split; [|discriminate]. intros _.
      split; [reflexivity|split; [reflexivity|split; assumption]].
  - cbn. split; [reflexivity|]. split; [exact Hne|]. split; [discriminate|].
    intros _. split; [reflexivity|]. split; [exact Ht | exact Hc].
Qed.



(** [list_routes] on a tunnel with a record answers from the record. *)
Lemma list_routes_registered (name : string) info o w :
  truthy (Some name) = true ->
  disk_tunnels w !! name = Some info ->
  list_routes (Some name) o w = (Ret (inr (routes info)), o, w).
Proof.
  intros Htn Hi. unfold list_routes, bind, get_self. cbv beta iota zeta.
  unfold resolve_tunnel_name. rewrite Htn. cbn [negb]. rewrite Htn. cbn [negb].
  rewrite _load_state_eq. cbv beta iota. cbn [dict_get].
  unfold disk_tunnels in Hi. rewrite Hi. reflexivity.
Qed.

(** X6. The endpoint [GET /tunnel/routes] always answers from the state
    document: the constructor has registered the name before [list_routes]
    looks it up, so the answer is the route list of the record that was on
    disk, or the empty list when there was none (or the name is empty).
    The config-file fallback of [list_routes] is never taken. *)
Theorem api_list_routes_reads_state (E : env) (tunnel_name : string) (o : obj) (w : world) :
  (api_list_routes E tunnel_name o w).1.1
  = Ret (inr (if truthy (Some tunnel_name)
              then default [] (routes <$> disk_tunnels w !! tunnel_name)
              else [])).
Proof.
  unfold api_list_routes. unfold bind at 1.
  pose proof (__init___effect E (Some tunnel_name) true o w) as Hinit. cbv zeta in Hinit.
  destruct Hinit as (Hret & _ & Hsel & Hno).
  destruct (truthy (Some tunnel_name)) eqn:Htn.
  - (* the record after construction *)
    assert (Hroutes : routes <$> disk_tunnels (__init__ E (Some tunnel_name) true o w).2
                                   !! tunnel_name
                      = Some (default [] (routes <$> disk_tunnels w !! tunnel_name))).
    { unfold __init__. unfold bind at 1.
      unfold _init_state, bind at 1, get_world. cbv beta iota.
      assert (Hgen : forall o1 w1,
                 disk_tunnels w1 = disk_tunnels w ->
                 routes <$> disk_tunnels
                   ((if truthy (Some tunnel_name)
                     then set_config_file (Some (config_path (Some tunnel_name))) ;;;
                          _register_tunnel E (Some tunnel_name)
                     else set_config_file None) o1 w1).2 !! tunnel_name
                 = Some (default [] (routes <$> disk_tunnels w !! tunnel_name))).
      { intros o1 w1 Hw1. rewrite Htn. unfold bind, set_config_file. cbv beta iota.
        rewrite (proj1 (_register_tunnel_disk E (Some tunnel_name) _ w1)).
        cbn [dict_get]. fold (disk_tunnels w1). rewrite Hw1.
        destruct (disk_tunnels w !! tunnel_name) as [i|] eqn:Hi.
        - rewrite Hi. reflexivity.
        - cbn. rewrite lookup_insert_eq. reflexivity. }
      destruct (state_file w) as [| |raw|doc] eqn:Hf.
      - unfold bind at 1. unfold get_now at 1. cbv beta iota.
        rewrite _save_state_eq. cbv beta iota. apply Hgen.
        unfold disk_tunnels, loaded. cbn. rewrite Hf. reflexivity.
      - cbn [ret]. apply Hgen. reflexivity.
      - cbn [ret]. apply Hgen. reflexivity.
      - cbn [ret]. apply Hgen. reflexivity. }
    destruct (disk_tunnels (__init__ E (Some tunnel_name) true o w).2 !! tunnel_name)
      as [i|] eqn:Hi; [|discriminate Hroutes].
    cbn in Hroutes. injection Hroutes as <-.
    destruct (__init__ E (Some tunnel_name) true o w) as [[r o1] w1].
    cbn [fst snd] in *. subst r. cbv beta iota.
    rewrite (list_routes_registered tunnel_name i o1 w1 Htn Hi). reflexivity.
  - destruct (Hno eq_refl) as (Ho & _ & _).
    destruct (__init__ E (Some tunnel_name) true o w) as [[r o1] w1].
    cbn [fst snd] in *. subst r o1. cbv beta iota.
    unfold list_routes, bind, get_self. cbv beta iota zeta.
    unfold resolve_tunnel_name. rewrite Htn. cbn [negb self_tunnel_name].
    rewrite Htn. reflexivity.
Qed.

(** * Listing routes after a change *)

Lemma truthy_some n : truthy n = true -> exists s, n = Some s.
Proof. destruct n as [s|]; [eauto | discriminate]. Qed.

(** X7. After a successful [add_route] for a domain, [list_routes] on the
    tunnel (from any manager object) answers from the state document, and
    its answer holds exactly one route for the domain: the new one. *)
Theorem list_routes_after_add_route (E : env) (domain : string) (port : Z)
        (host : option string) (tn_arg : option pyname) (o o' o2 : obj) (w w' : world)
        (Hadd : add_route E domain port host tn_arg o w = (Ret true, o', w')) :
  let tn := resolve_tunnel_name (default universal_tunnel tn_arg) (self_tunnel_name o) in
  exists rows,
    list_routes tn o2 w' = (Ret (inr rows), o2, w')
    /\ List.filter (fun r => String.eqb (route_domain r) domain) rows
       = [Route domain (service_url (default "localhost" host) port)].
Proof.
  cbv zeta. apply add_route_success in Hadd. cbv zeta in Hadd.
  destruct Hadd as (Htn & _ & _ & info & rs & Hinfo & Hroutes).
  destruct (truthy_some _ Htn) as [s Hs]. rewrite Hs in *. cbn [json_key default] in Hinfo.
  exists (routes info). split.
  - apply list_routes_registered; assumption.
  - rewrite Hroutes, List.filter_app.
    rewrite (filter_negb_none (fun r => String.eqb (route_domain r) domain)).
    cbn. rewrite String.eqb_refl. reflexivity.
Qed.

Lemma list_routes_after_add_route_witness :
  exists rows,
    list_routes (Some "demo") Sample.fresh_manager
                (add_route Sample.host "app.example.com" 3000 None (Some (Some "demo"))
                           Sample.fresh_manager Sample.fresh_world).2
    = (Ret (inr rows), Sample.fresh_manager,
       (add_route Sample.host "app.example.com" 3000 None (Some (Some "demo"))
                  Sample.fresh_manager Sample.fresh_world).2)
    /\ List.filter (fun r => String.eqb (route_domain r) "app.example.com") rows
       = [Route "app.example.com" (service_url "localhost" 3000)].
Proof.
  apply (list_routes_after_add_route Sample.host "app.example.com" 3000 None
           (Some (Some "demo")) Sample.fresh_manager
           (add_route Sample.host "app.example.com" 3000 None (Some (Some "demo"))
                      Sample.fresh_manager Sample.fresh_world).1.2
           Sample.fresh_manager Sample.fresh_world).
  vm_compute. reflexivity.
Defined.

(** * What [remove_route] leaves behind *)

Section RemoveMore.

Variable E : env.

Lemma _restart_tunnel_self o0 : preserves (fun o _ => o = o0) (_restart_tunnel E).
Proof. pres. Qed.

Lemma _restart_tunnel_dir D : preserves (fun _ w => dir_files w = D) (_restart_tunnel E).
Proof. pres. Qed.

Lemma _update_tunnel_info_dir D n info :
  preserves (fun _ w => dir_files w = D) (_update_tunnel_info E n info).
Proof. pres. Qed.

(** Every way [remove_route] can end. *)
Lemma remove_route_inv domain tn_arg o w r o' w' :
  remove_route E domain tn_arg o w = (r, o', w') ->
  let tn := resolve_tunnel_name tn_arg (self_tunnel_name o) in
  o' = o
  /\ disk_current w' = disk_current w
  /\ dir_files w' = dir_files w
  /\ ((r = Ret false /\ yaml_files w' = yaml_files w /\ state_file w' = state_file w)
      \/ (r = Ret true
          /\ disk_tunnels w'
             = match disk_tunnels w !! json_key tn with
               | Some info =>
                   <[json_key tn :=
                       dict_update info
                         [SetRoutes (List.filter
                                       (fun r => negb (String.eqb (route_domain r) domain))
                                       (routes info))]]> (disk_tunnels w)
               | None => disk_tunnels w
               end)).
Proof.
  intros H. cbv zeta. unfold remove_route in H. cbv zeta in H.
  stepr H as o0 oa wa Ha. injection Ha as <- <- <-.
  remember (resolve_tunnel_name tn_arg (self_tunnel_name o)) as tn eqn:Etn in *.
  destruct (truthy tn) eqn:Htn; cbn [negb] in H.
  2:{ cbv [bind print ret] in H. injection H as <- <- <-. cbn.
      split; [reflexivity|]. split; [reflexivity|]. split; [reflexivity|]. left. auto. }
  stepr H as u1 o1 w1 H1. injection H1 as <- <- <-.
  stepr H as u2 o2 w2 H2. injection H2 as <- <- <-.
  stepr H as cfg o3 w3 H3.
  assert (Hcfg : o3 = Obj tn (Some (config_path tn)) (auto_start_on_create o) /\ w3 = w).
  { revert H3. unfold _load_config, bind, get_self, get_world. cbn.
    rewrite config_path_nonempty. cbn.
    destruct (yaml_files w !! config_path tn); cbn; intros [= <- <- <-]; auto. }
  destruct Hcfg as (-> & ->). clear H3.
  destruct (c_ingress cfg) as [l|].
  2:{ cbv [bind print restore set_tunnel_name set_config_file ret] in H. cbn in H.
      injection H as <- <- <-. cbn. rewrite obj_eta.
      split; [reflexivity|]. split; [reflexivity|]. split; [reflexivity|]. left. auto. }
  destruct (Nat.eqb (length (List.filter (fun r => negb (is_rule_for domain r)) l)) (length l)).
  { cbv [bind print restore set_tunnel_name set_config_file ret] in H. cbn in H.
    injection H as <- <- <-. cbn. rewrite obj_eta.
    split; [reflexivity|]. split; [reflexivity|]. split; [reflexivity|]. left. auto. }
  stepr H as u3 o4 w4 H4.
  assert (Hsave : o4 = Obj tn (Some (config_path tn)) (auto_start_on_create o)
                  /\ state_file w4 = state_file w /\ dir_files w4 = dir_files w).
  { revert H4. unfold _save_config, bind, get_self. cbn.
    rewrite config_path_nonempty. cbn. intros [= <- <- <-]. auto. }
  destruct Hsave as (-> & Hst4 & Hd4). clear H4.
  stepr H as state o5 w5 H5. rewrite _load_state_eq in H5. injection H5 as <- <- <-.
  stepr H as u4 o6 w6 H6.
  assert (Hupd : o6 = Obj tn (Some (config_path tn)) (auto_start_on_create o)
                 /\ dir_files w6 = dir_files w
                 /\ disk_current w6 = disk_current w
                 /\ disk_tunnels w6
                    = match disk_tunnels w !! json_key tn with
                      | Some info =>
                          <[json_key tn :=
                              dict_update info
                                [SetRoutes (List.filter
                                   (fun r => negb (String.eqb (route_domain r) domain))
                                   (routes info))]]> (disk_tunnels w)
                      | None => disk_tunnels w
                      end).
  { assert (Hl : loaded w4 = loaded w) by (unfold loaded; rewrite Hst4; reflexivity).
    rewrite Hl in H6.
    destruct (truthy_some _ Htn) as [s ->]. change (json_key (Some s)) with s in *.
    cbn [dict_get] in *. fold (disk_tunnels w) in H6.
    destruct (disk_tunnels w !! s) as [info|] eqn:Hinfo.
    - match type of H6 with _update_tunnel_info _ _ ?u0 ?o0 _ = _ =>
        pose proof (_update_tunnel_info_returns E (Some s) u0 o0 w4) as Hr;
        pose proof (_update_tunnel_info_disk E (Some s) u0 o0 w4) as [Hdk Hcur];
        pose proof (_update_tunnel_info_dir (dir_files w) (Some s) u0 o0 w4 Hd4) as Hdir
      end.
      rewrite H6 in Hr, Hdk, Hcur, Hdir. cbn [fst snd] in *.
      injection Hr as _ ->. split; [reflexivity|]. split; [exact Hdir|].
      split.
      + rewrite Hcur. unfold disk_current. rewrite Hl. reflexivity.
      + rewrite Hdk, Hl. unfold disk_tunnels in Hinfo |- *. cbn [dict_get].
        rewrite Hinfo, Hl. reflexivity.
    - injection H6 as <- <- <-. split; [reflexivity|]. split; [exact Hd4|].
      unfold disk_current, disk_tunnels. rewrite Hl. split; reflexivity. }
  destruct Hupd as (-> & Hd6 & Hc6 & Ht6). clear H6.
  stepr H as u5 o7 w7 H7.
  assert (Ho7 : o7 = Obj tn (Some (config_path tn)) (auto_start_on_create o)).
  { eapply (preserves_run (fun x _ => x = _)); [|reflexivity|exact H7].
    apply _restart_tunnel_self. }
  assert (Hd7 : dir_files w7 = dir_files w).
  { eapply (preserves_run (fun _ x => dir_files x = dir_files w)); [|exact Hd6|exact H7].
    apply _restart_tunnel_dir. }
  assert (Hs7 : state_file w7 = state_file w6).
  { eapply (preserves_run (fun _ x => state_file x = state_file w6)); [|reflexivity|exact H7].
    apply _restart_tunnel_state. }
  subst o7. clear H7.
  cbv [bind restore set_tunnel_name set_config_file ret] in H. cbn in H.
  injection H as <- <- <-. rewrite obj_eta.
  split; [reflexivity|]. split; [|split; [exact Hd7|]].
  - unfold disk_current, loaded in *. rewrite Hs7. exact Hc6.
  - right. split; [reflexivity|]. unfold disk_tunnels, loaded in *. rewrite Hs7. exact Ht6.
Qed.

End RemoveMore.

Lemma hostname_routes_inr rules acc rows :
  hostname_routes rules acc = inr rows -> rows = acc ++ omap route_of_rule rules.
Proof.
  revert acc. induction rules as [|r rules IH]; intros acc H; cbn in *.
  - injection H as <-. rewrite app_nil_r. reflexivity.
  - destruct r as [[h|] [s|]|raw]; cbn; try discriminate H; try (apply IH; exact H).
    apply IH in H. rewrite H, <- app_assoc. reflexivity.
Qed.

Lemma route_of_rule_domain d r x :
  route_of_rule r = Some x -> is_rule_for d r = false -> route_domain x <> d.
Proof.
  destruct r as [[h|] [s|]|raw]; cbn; try discriminate.
  intros [= <-] Hne. cbn. apply String.eqb_neq. exact Hne.
Qed.

Lemma _load_config_at tn o w :
  self_config_file o = Some (config_path tn) ->
  _load_config o w = (Ret (default empty_config (yaml_files w !! config_path tn)), o, w).
Proof.
  intros Hcf. unfold _load_config, bind, get_self, get_world. cbn. rewrite Hcf. cbn.
  rewrite config_path_nonempty. cbn.
  destruct (yaml_files w !! config_path tn); reflexivity.
Qed.

(** X8. After a successful [remove_route] for a domain, [list_routes] on
    the tunnel never raises and its answer holds no route for the domain,
    whether it comes from the tunnel's record or, when the tunnel has no
    record, from the hostname rules of the config file.  The only other
    answer is the [KeyError] of the config fallback, for a tunnel without a
    record. *)
Theorem list_routes_after_remove_route (E : env) (domain : string) (tn_arg : pyname)
        (o o' o2 : obj) (w w' : world)
        (Hrem : remove_route E domain tn_arg o w = (Ret true, o', w')) :
  let tn := resolve_tunnel_name tn_arg (self_tunnel_name o) in
  exists res,
    (list_routes tn o2 w').1.1 = Ret res
    /\ match res with
       | inr rows => Forall (fun r => route_domain r <> domain) rows
       | inl _ => ~ registered tn w'
       end.
Proof.
  cbv zeta. pose proof (remove_route_inv E _ _ _ _ _ _ _ Hrem) as Hinv. cbv zeta in Hinv.
  destruct Hinv as (_ & _ & _ & [(Hr & _)|(_ & Hdisk)]); [discriminate Hr|].
  pose proof (remove_route_success E _ _ _ _ _ _ Hrem) as Hcfg. cbv zeta in Hcfg.
  destruct Hcfg as (l & c & Hl & _ & Hy & Hc).
  remember (resolve_tunnel_name tn_arg (self_tunnel_name o)) as tn eqn:Etn in *.
  assert (Htn : truthy tn = true).
  { unfold remove_route in Hrem. cbv zeta in Hrem.
    unfold bind at 1, get_self at 1 in Hrem. cbv beta iota in Hrem.
    rewrite <- Etn in Hrem.
    destruct (truthy tn); [reflexivity|]. cbv [negb bind print ret] in Hrem. discriminate Hrem. }
  destruct (truthy_some _ Htn) as [s ->]. change (json_key (Some s)) with s in *.
  destruct (disk_tunnels w !! s) as [info|] eqn:Hinfo.
  - exists (inr (routes (dict_update info
                   [SetRoutes (List.filter
                                 (fun r => negb (String.eqb (route_domain r) domain))
                                 (routes info))]))).
    split.
    + erewrite (list_routes_registered s _ o2 w' Htn); [reflexivity|].
      rewrite Hdisk. apply lookup_insert_eq.
    + destruct info; cbn. apply Forall_forall. intros x Hx.
      apply list_elem_of_In, filter_In in Hx as [_ Hx].
      apply negb_true_iff, String.eqb_neq in Hx. exact Hx.
  - assert (Hnone : dict_get (Some s) (d_tunnels (loaded w')) = None).
    { cbn. fold (disk_tunnels w'). rewrite Hdisk. exact Hinfo. }
    unfold list_routes, bind at 1, get_self at 1. cbv beta iota zeta.
    unfold resolve_tunnel_name. rewrite Htn. cbn [negb]. rewrite Htn. cbn [negb].
    unfold bind at 1. rewrite _load_state_eq. cbv beta iota. rewrite Hnone.
    unfold bind at 1, set_tunnel_name at 1. cbv beta iota.
    unfold bind at 1, set_config_file at 1. cbv beta iota.
    cbn [self_tunnel_name self_config_file auto_start_on_create].
    unfold bind at 1. rewrite (_load_config_at (Some s)) by reflexivity. cbv beta iota.
    rewrite Hy, lookup_insert_eq. cbn [default from_option id]. rewrite Hc.
    cbn [default from_option id].
    destruct (hostname_routes (List.filter (fun r => negb (is_rule_for domain r)) l) [])
      as [e|rows] eqn:Hrows.
    + exists (inl e). split; [reflexivity|].
      unfold registered. change (json_key (Some s)) with s. fold (disk_tunnels w').
      rewrite Hdisk, Hinfo. intros [? ?]. discriminate.
    + exists (inr rows). split; [reflexivity|].
      apply hostname_routes_inr in Hrows. cbn in Hrows. subst rows.
      apply Forall_forall. intros x Hx.
      apply list_elem_of_omap in Hx as (r & Hr & Hx).
      apply list_elem_of_In, filter_In in Hr as [_ Hr]. apply negb_true_iff in Hr.
      eapply route_of_rule_domain; eassumption.
Qed.

Lemma list_routes_after_remove_route_witness :
  exists res,
    (list_routes (Some "demo") Sample.fresh_manager
                 (remove_route Sample.host "app.example.com" (Some "demo")
                               Sample.fresh_manager Sample.routed_world).2).1.1 = Ret res
    /\ match res with
       | inr rows => Forall (fun r => route_domain r <> "app.example.com") rows
       | inl _ => ~ registered (Some "demo")
                     (remove_route Sample.host "app.example.com" (Some "demo")
                                   Sample.fresh_manager Sample.routed_world).2
       end.
Proof.
  apply (list_routes_after_remove_route Sample.host "app.example.com" (Some "demo")
           Sample.fresh_manager
           (remove_route Sample.host "app.example.com" (Some "demo")
                         Sample.fresh_manager Sample.routed_world).1.2
           Sample.fresh_manager Sample.routed_world).
  vm_compute. reflexivity.
Defined.


(** * A failed [add_route] *)

#[export] Hint Unfold routes_kept : pres_defs.

(** Inversion of a [bind], whether it returned or raised. *)
Lemma bind_inv {A B} (m : M A) (k : A -> M B) o w r o' w' :
  bind m k o w = (r, o', w') ->
  (exists e, m o w = (Raise e, o', w') /\ r = Raise e)
  \/ (exists a o1 w1, m o w = (Ret a, o1, w1) /\ k a o1 w1 = (r, o', w')).
Proof.
  unfold bind. destruct (m o w) as [[[a|e] o1] w1]; intros H.
  - right. exists a, o1, w1. split; [reflexivity | exact H].
  - left. injection H as <- <- <-. exists e. split; reflexivity.
Qed.

Tactic Notation "stepx" hyp(H) "as" ident(a) ident(o1) ident(w1) ident(H1) :=
  apply bind_inv in H as [(a & H1 & ->)|(a & o1 & w1 & H1 & H)]; [|cbv beta in H].

Section AddRouteFails.

Variable E : env.

Lemma _update_tunnel_info_routes n b k rs :
  preserves (routes_kept k rs) (_update_tunnel_info E n [SetAutoStart b]).
Proof.
  intros o w H. unfold routes_kept in *.
  rewrite (proj1 (_update_tunnel_info_disk E n [SetAutoStart b] o w)).
  destruct (dict_get n (d_tunnels (loaded w))) as [i|] eqn:Hi; [|exact H].
  destruct (decide (json_key n = k)) as [<-|Hne].
  - rewrite lookup_insert_eq. cbn.
    destruct n as [s|]; cbn in Hi; [|rewrite loaded_none_item in Hi; discriminate Hi].
    cbn in H. unfold disk_tunnels in H. rewrite Hi in H. cbn in H.
    destruct i; exact H.
  - rewrite lookup_insert_ne by exact Hne. exact H.
Qed.

Lemma _register_tunnel_routes s k rs :
  preserves (routes_kept k rs) (_register_tunnel E (Some s)).
Proof.
  intros o w H. unfold routes_kept in *.
  rewrite (proj1 (_register_tunnel_disk E (Some s) o w)). cbn [dict_get].
  fold (disk_tunnels w).
  destruct (disk_tunnels w !! s) as [i|] eqn:Hi; [exact H|].
  change (json_key (Some s)) with s.
  destruct (decide (s = k)) as [<-|Hne].
  - rewrite Hi in H. discriminate H.
  - rewrite lookup_insert_ne by exact Hne. exact H.
Qed.

Lemma use_tunnel_routes s k rs :
  preserves (routes_kept k rs) (use_tunnel E (Some s)).
Proof.
  intros o w H. unfold use_tunnel, bind, set_tunnel_name, set_config_file. cbn.
  set (o1 := Obj (Some s) (Some (config_path (Some s))) (auto_start_on_create o)).
  pose proof (_register_tunnel_returns E (Some s) o1 w) as Hr.
  pose proof (_register_tunnel_routes s k rs o1 w H) as Hreg.
  destruct (_register_tunnel E (Some s) o1 w) as [[r o2] w2]. cbn in Hr, Hreg.
  injection Hr as -> ->. cbn. rewrite _load_state_eq. cbn.
  unfold routes_kept, disk_tunnels in *. cbn.
  rewrite json_keys_loaded by apply loaded_none_item.
  exact Hreg.
Qed.

#[local] Hint Resolve _update_tunnel_info_routes _register_tunnel_routes use_tunnel_routes
  : pres.

Lemma check_autostart_status_routes k rs :
  preserves (routes_kept k rs) (check_autostart_status E).
Proof. pres. Qed.

#[local] Hint Resolve check_autostart_status_routes : pres.

Lemma setup_autostart_routes k rs : preserves (routes_kept k rs) (setup_autostart E).
Proof. pres. Qed.

#[local] Hint Resolve setup_autostart_routes : pres.

Lemma create_tunnel_routes s k rs au :
  preserves (routes_kept k rs) (create_tunnel E (Some s) au).
Proof.
  unfold create_tunnel. apply preserves_bind; [pres|]. intros o.
  destruct (create_tunnel_guard (Some s) (self_tunnel_name o)) as [[n|]|] eqn:Hg.
  - pres.
  - exfalso. unfold create_tunnel_guard in Hg.
    destruct (truthy (Some s)); cbn [negb] in Hg; [discriminate Hg|].
    destruct (self_tunnel_name o) as [c|]; cbn in Hg; [|discriminate Hg].
    destruct (negb (String.eqb c "")); cbn in Hg; discriminate Hg.
  - pres.
Qed.

Lemma _get_tunnel_id_routes n k rs : preserves (routes_kept k rs) (_get_tunnel_id E n).
Proof. pres. Qed.

End AddRouteFails.

#[export] Hint Resolve _update_tunnel_info_routes _register_tunnel_routes use_tunnel_routes
  check_autostart_status_routes setup_autostart_routes create_tunnel_routes
  _get_tunnel_id_routes : pres.



(** * Deleting a tunnel: the other two ways the retry loop ends *)

Lemma preserves_forall {A B} (P : B -> obj -> world -> Prop) (m : M A) :
  (forall b, preserves (P b) m) -> preserves (fun o w => forall b, P b o w) m.
Proof. intros H o w Hb b. apply H, Hb. Qed.

Lemma preserves_impl {A} (Q : Prop) (P : obj -> world -> Prop) (m : M A) :
  preserves P m -> preserves (fun o w => Q -> P o w) m.
Proof. intros H o w HP HQ. apply H, HP, HQ. Qed.

Ltac pres_frame :=
  unfold delete_frame;
  apply preserves_and; [pres_kept|];
  apply preserves_and; [pres|];
  apply preserves_forall; intros ?; apply preserves_impl; pres.

Section DeleteMore.

Variable E : env.

Lemma remove_autostart_selected n : preserves (selected n) (remove_autostart E).
Proof. pres. Qed.

Lemma remove_autostart_keeps_registered k :
  preserves (fun _ w => registered k w) (remove_autostart E).
Proof. pres. Qed.

Lemma check_autostart_status_keeps_registered k :
  preserves (fun _ w => registered k w) (check_autostart_status E).
Proof. pres. Qed.

#[local] Hint Resolve remove_autostart_selected remove_autostart_keeps_registered
  check_autostart_status_keeps_registered use_tunnel_keeps_registered
  check_autostart_status_selected : pres.

(** The steps of [delete_tunnel] before the retry loop. *)
Lemma delete_tunnel_prelude tunnel_name force o w res o' w' :
  let tn := resolve_tunnel_name tunnel_name (self_tunnel_name o) in
  truthy tn = true ->
  delete_tunnel E tunnel_name force o w = (res, o', w') ->
  exists o7 w7,
    delete_frame w tn o7 w7
    /\ (exit <- delete_loop E max_retries (fmt tn) (self_tunnel_name o) 0 ;;
        match exit with
        | LoopReturn b => ret b
        | LoopFuel => ret false
        | LoopDone =>
            o1 <- get_self ;;
            w <- get_world ;;
            match self_config_file o1 with
            | Some p => when (bool_decide (is_Some (yaml_files w !! p))) (remove_path p)
            | None => ret tt
            end ;;;
            tunnel_id <- _get_tunnel_id E tn ;;
            when (truthy tunnel_id) (remove_dir_files (is_credential_of (fmt tunnel_id))) ;;;
            _unregister_tunnel E tn ;;;
            (if bool_decide (self_tunnel_name o = tn) then
               set_tunnel_name None ;;; set_config_file None
             else
               set_tunnel_name (self_tunnel_name o) ;;;
               set_config_file (Some (config_path (self_tunnel_name o)))) ;;;
            ret true
        end) o7 w7 = (res, o', w').
Proof.
  intros tn Hname H. unfold delete_tunnel in H. cbv zeta in H.
  stepr H as o0 oa wa Ha. injection Ha as <- <- <-.
  fold tn in H. rewrite Hname in H. cbn [negb] in H.
  stepr H as u1 o1 w1 H1.
  assert (K1 : delete_frame w tn o1 w1).
  { assert (Hk : delete_frame w tn (use_tunnel E tn o w).1.2 (use_tunnel E tn o w).2).
    { unfold delete_frame, artifacts_kept. split; [split; [split|split]|split].
      - apply (use_tunnel_yaml E (yaml_files w) tn o w eq_refl).
      - assert (Hd : preserves (fun _ x => dir_files x = dir_files w) (use_tunnel E tn)) by pres.
        apply (Hd o w eq_refl).
      - apply use_tunnel_selects.
      - assert (Hd : preserves (fun _ x => delete_attempts (log x) = delete_attempts (log w))
                               (use_tunnel E tn)) by pres.
        apply (Hd o w eq_refl).
      - apply use_tunnel_selects.
      - intros k Hk. apply (use_tunnel_keeps_registered E k tn o w Hk). }
    rewrite H1 in Hk. exact Hk. }
  stepr H as has_autostart o2 w2 H2.
  assert (K2 : delete_frame w tn o2 w2).
  { eapply preserves_run; [|exact K1|exact H2]. pres_frame. }
  stepr H as u3 o3 w3 H3.
  assert (K3 : delete_frame w tn o3 w3).
  { eapply preserves_run; [|exact K2|exact H3]. pres_frame. }
  stepr H as u4 o4 w4 H4.
  assert (K4 : delete_frame w tn o4 w4).
  { eapply preserves_run; [|exact K3|exact H4]. pres_frame. }
  stepr H as u5 o5 w5 H5.
  assert (K5 : delete_frame w tn o5 w5).
  { eapply preserves_run; [|exact K4|exact H5]. pres_frame. }
  stepr H as u6 o6 w6 H6.
  assert (K6 : delete_frame w tn o6 w6).
  { eapply preserves_run; [|exact K5|exact H6]. pres_frame. }
  stepr H as u7 o7 w7 H7.
  assert (K7 : delete_frame w tn o7 w7).
  { eapply preserves_run; [|exact K6|exact H7].
    destruct has_autostart; [|pres_frame].
    apply preserves_bind; [|intros ?; pres_frame].
    unfold delete_frame.
    apply preserves_and; [apply remove_autostart_kept|].
    apply preserves_and; [apply remove_autostart_selected|].
    apply preserves_forall; intros ?; apply preserves_impl.
    apply remove_autostart_keeps_registered. }
  exists o7, w7. split; [exact K7 | exact H].
Qed.

Lemma delete_loop_other_failure name old o w :
  reports_other_failure (tunnel_delete E (length (log w))) = true ->
  exists msg,
    delete_loop E max_retries name old 0 o w
    = (Ret (LoopReturn false),
       Obj old (self_config_file o) (auto_start_on_create o),
       World (state_file w) (yaml_files w) (dir_files w) (clock_ms w)
             (CmdTunnelDelete name :: log w) (msg :: console w)).
Proof.
  intros Hother. unfold reports_other_failure in Hother.
  destruct (tunnel_delete E (length (log w))) as [stderr|] eqn:Hd; [|discriminate Hother].
  apply negb_true_iff in Hother.
  unfold max_retries. cbn [delete_loop Nat.ltb Nat.leb Nat.add].
  unfold bind, ask, tell, sleep, print, set_tunnel_name, ret. cbn.
  rewrite Hd. cbn. rewrite Hother. cbn. eexists. reflexivity.
Qed.

Lemma delete_loop_first_success name old o w :
  tunnel_delete E (length (log w)) = None ->
  delete_loop E max_retries name old 0 o w
  = (Ret LoopDone, o, with_log (CmdTunnelDelete name) w).
Proof.
  intros Hok. unfold max_retries. cbn [delete_loop Nat.ltb Nat.leb Nat.add].
  unfold bind, ask, tell, sleep, print, set_tunnel_name, ret. cbn.
  rewrite Hok. reflexivity.
Qed.

Lemma _get_tunnel_id_listed ts name o w :
  truthy (Some name) = true ->
  tunnel_list_json E (length (log w)) = JsonTunnels ts ->
  _get_tunnel_id E (Some name) o w
  = (Ret (listed_id ts name), o, with_log CmdTunnelListJson w).
Proof.
  intros Htn Hjson. unfold _get_tunnel_id, bind at 1, get_self at 1. cbv beta iota zeta.
  unfold resolve_tunnel_name. rewrite Htn. cbn [negb]. rewrite Htn. cbn [negb].
  unfold bind at 1, ask at 1. cbv beta iota. rewrite Hjson. unfold listed_id.
  destruct (List.find (fun t => bool_decide (t.1 = Some name)) ts); reflexivity.
Qed.

End DeleteMore.

(** X11. When the provider rejects the delete for a reason other than
    active connections, [delete_tunnel] makes one attempt and returns
    [False]: no retry, no config file or other file of the config directory
    removed, the record still in the state document.  The manager object
    gets its old tunnel name back, but its config path and the
    current-tunnel pointer of the state document stay on the tunnel that
    was to be deleted. *)
Theorem delete_tunnel_other_failure (E : env) (tunnel_name : pyname) (force : bool)
        (o : obj) (w : world)
        (Hname : truthy (resolve_tunnel_name tunnel_name (self_tunnel_name o)) = true)
        (Hother : forall t, reports_other_failure (tunnel_delete E t) = true) :
  let tn := resolve_tunnel_name tunnel_name (self_tunnel_name o) in
  let r := delete_tunnel E tunnel_name force o w in
  r.1.1 = Ret false
  /\ yaml_files r.2 = yaml_files w
  /\ dir_files r.2 = dir_files w
  /\ registered tn r.2
  /\ delete_attempts (log r.2) = 1 + delete_attempts (log w)
  /\ self_tunnel_name r.1.2 = self_tunnel_name o
  /\ self_config_file r.1.2 = Some (config_path tn)
  /\ disk_current r.2 = tn.
Proof.
  intros tn r. subst r. fold tn in Hname.
  destruct (delete_tunnel E tunnel_name force o w) as [[res o'] w'] eqn:H.
  apply delete_tunnel_prelude in H; [|exact Hname]. cbv zeta in H. fold tn in H.
  destruct H as (o7 & w7 & K7 & H).
  unfold bind at 1 in H.
  destruct (delete_loop_other_failure E (fmt tn) (self_tunnel_name o) o7 w7 (Hother _))
    as [msg Hloop].
  rewrite Hloop in H. cbv beta iota in H. injection H as <- <- <-.
  destruct K7 as (((Hy & Hd) & (Hreg & Hn)) & (_ & Hcf & _ & Hcur) & _). cbn.
  repeat split; try assumption.
  unfold delete_attempts in *. cbn. rewrite Hn. reflexivity.
Qed.

Lemma delete_tunnel_other_failure_witness :
  let E := match Sample.host with
           | Env a b c d e _ g h i j k l m n o p q r s t u v =>
               Env a b c d e (fun _ => Some "tunnel not found") g h i j k l m n o p q r s t u v
           end in
  let r := delete_tunnel E (Some "demo") false Sample.fresh_manager Sample.routed_world in
  r.1.1 = Ret false
  /\ yaml_files r.2 = yaml_files Sample.routed_world
  /\ dir_files r.2 = dir_files Sample.routed_world
  /\ registered (Some "demo") r.2
  /\ delete_attempts (log r.2) = 1 + delete_attempts (log Sample.routed_world)
  /\ self_tunnel_name r.1.2 = None
  /\ self_config_file r.1.2 = Some (config_path (Some "demo"))
  /\ disk_current r.2 = Some "demo".
Proof.
  intros E.
  apply (delete_tunnel_other_failure E (Some "demo") false
           Sample.fresh_manager Sample.routed_world).
  - reflexivity.
  - intros t. vm_compute. reflexivity.
Defined.

Lemma _unregister_tunnel_keeps_others E s k o w :
  k <> s -> registered (Some k) w ->
  registered (Some k) (_unregister_tunnel E (Some s) o w).2.
Proof.
  intros Hne Hk. unfold registered in *. change (json_key (Some k)) with k in *.
  fold (disk_tunnels w) in Hk. fold (disk_tunnels (_unregister_tunnel E (Some s) o w).2).
  rewrite (proj1 (_unregister_tunnel_effect E s o w)).
  rewrite lookup_delete_ne by congruence. exact Hk.
Qed.

(** X12. When the provider accepts the delete, [delete_tunnel] makes one
    attempt and returns [True]; the tunnel's config file and its record
    are gone and every other record is still registered.  Credential files
    are removed for the id that the provider's listing gives for the name
    after the delete: when the listing no longer shows the tunnel, every
    file of the config directory is kept.  The manager object goes back to
    the tunnel it had, or to none if that was the deleted one. *)
Theorem delete_tunnel_success (E : env) (tunnel_name : pyname) (force : bool)
        (ts : list (option string * option string)) (o : obj) (w : world)
        (Hname : truthy (resolve_tunnel_name tunnel_name (self_tunnel_name o)) = true)
        (Hdeleted : forall t, tunnel_delete E t = None)
        (Hjson : forall t, tunnel_list_json E t = JsonTunnels ts) :
  let tn := resolve_tunnel_name tunnel_name (self_tunnel_name o) in
  let r := delete_tunnel E tunnel_name force o w in
  r.1.1 = Ret true
  /\ yaml_files r.2 = delete (config_path tn) (yaml_files w)
  /\ dir_files r.2 = without_credentials (listed_id ts (fmt tn)) (dir_files w)
  /\ ~ registered tn r.2
  /\ (forall k, k <> fmt tn -> registered (Some k) w -> registered (Some k) r.2)
  /\ delete_attempts (log r.2) = 1 + delete_attempts (log w)
  /\ self_tunnel_name r.1.2
     = if bool_decide (self_tunnel_name o = tn) then None else self_tunnel_name o.
Proof.
  intros tn r. subst r. fold tn in Hname.
  destruct (delete_tunnel E tunnel_name force o w) as [[res o'] w'] eqn:H.
  apply delete_tunnel_prelude in H; [|exact Hname]. cbv zeta in H. fold tn in H.
  destruct H as (o7 & w7 & K7 & H).
  destruct (truthy_some _ Hname) as [s Hs]. rewrite Hs in *. cbn [fmt] in *.
  destruct K7 as (((Hy & Hd) & (Hreg & Hn)) & (_ & Hcf & _ & _) & Hothers).
  unfold bind at 1 in H. rewrite (delete_loop_first_success E s _ o7 w7 (Hdeleted _)) in H.
  cbv beta iota in H.
  unfold bind at 1, get_self at 1 in H. cbv beta iota in H.
  unfold bind at 1, get_world at 1 in H. cbv beta iota in H.
  rewrite Hcf in H.
  set (w8 := with_log (CmdTunnelDelete s) w7) in *.
  (* the config file *)
  unfold bind at 1 in H.
  assert (Hrm : exists w9,
             when (bool_decide (is_Some (yaml_files w8 !! config_path (Some s))))
                  (remove_path (config_path (Some s))) o7 w8 = (Ret tt, o7, w9)
             /\ yaml_files w9 = delete (config_path (Some s)) (yaml_files w)
             /\ dir_files w9 = dir_files w
             /\ state_file w9 = state_file w7
             /\ delete_attempts (log w9) = 1 + delete_attempts (log w)).
  { destruct (bool_decide (is_Some (yaml_files w8 !! config_path (Some s)))) eqn:Hex.
    - eexists. split; [reflexivity|]. cbn. rewrite Hy, Hd. repeat split.
      unfold delete_attempts in *. cbn. rewrite Hn. reflexivity.
    - exists w8. split; [reflexivity|]. cbn. rewrite Hy, Hd.
      apply bool_decide_eq_false in Hex. cbn in Hex. rewrite Hy in Hex.
      split; [|repeat split].
      + symmetry. apply delete_id. destruct (yaml_files w !! config_path (Some s)) eqn:Hl;
          [exfalso; apply Hex; eauto | reflexivity].
      + unfold delete_attempts in *. cbn. rewrite Hn. reflexivity. }
  destruct Hrm as (w9 & Hrm & Hy9 & Hd9 & Hs9 & Hn9). rewrite Hrm in H. cbv beta iota in H.
  (* the credential files *)
  unfold bind at 1 in H.
  rewrite (_get_tunnel_id_listed E ts s o7 w9 Hname (Hjson _)) in H. cbv beta iota in H.
  unfold bind at 1 in H.
  set (w10 := with_log CmdTunnelListJson w9) in *.
  assert (Hcr : exists w11,
             when (truthy (listed_id ts s))
                  (remove_dir_files (is_credential_of (fmt (listed_id ts s)))) o7 w10
             = (Ret tt, o7, w11)
             /\ yaml_files w11 = yaml_files w9
             /\ dir_files w11 = without_credentials (listed_id ts s) (dir_files w)
             /\ state_file w11 = state_file w7
             /\ delete_attempts (log w11) = 1 + delete_attempts (log w)).
  { unfold without_credentials. destruct (truthy (listed_id ts s)).
    - eexists. split; [reflexivity|]. cbn. rewrite Hd9. repeat split; [exact Hs9|].
      unfold delete_attempts in *. rewrite List.filter_app, length_app.
      assert (Hz : forall l, List.filter is_delete
                     (rev (map (fun f => RemoveFile (config_dir +:+ "/" +:+ f)) l)) = []).
      { clear. induction l as [|x l IH]; [reflexivity|].
        cbn [map rev]. rewrite List.filter_app, IH. reflexivity. }
      rewrite Hz. cbn [length Nat.add]. cbn. exact Hn9.
    - exists w10. split; [reflexivity|]. cbn. repeat split; assumption. }
  destruct Hcr as (w11 & Hcr & Hy11 & Hd11 & Hs11 & Hn11). rewrite Hcr in H.
  cbv beta iota in H.
  (* the record *)
  unfold bind at 1 in H.
  pose proof (_unregister_tunnel_returns E (Some s) o7 w11) as Hur.
  pose proof (_unregister_tunnel_removes E s o7 w11) as Hgone.
  pose proof (fun k Hk Hr => _unregister_tunnel_keeps_others E s k o7 w11 Hk Hr) as Hkeep.
  assert (Hfr : yaml_files (_unregister_tunnel E (Some s) o7 w11).2 = yaml_files w11
                /\ dir_files (_unregister_tunnel E (Some s) o7 w11).2 = dir_files w11
                /\ delete_attempts (log (_unregister_tunnel E (Some s) o7 w11).2)
                   = delete_attempts (log w11)).
  { assert (H1 : preserves (fun _ x => yaml_files x = yaml_files w11)
                           (_unregister_tunnel E (Some s))) by pres.
    assert (H2 : preserves (fun _ x => dir_files x = dir_files w11)
                           (_unregister_tunnel E (Some s))) by pres.
    assert (H3 : preserves (fun _ x => delete_attempts (log x) = delete_attempts (log w11))
                           (_unregister_tunnel E (Some s))) by pres.
    split; [apply (H1 o7 w11 eq_refl)|split; [apply (H2 o7 w11 eq_refl)|apply (H3 o7 w11 eq_refl)]]. }
  destruct (_unregister_tunnel E (Some s) o7 w11) as [[r12 o12] w12].
  cbn [fst snd] in *. injection Hur as -> ->. cbv beta iota in H.
  destruct Hfr as (Hy12 & Hd12 & Hn12).
  assert (Hfin : res = Ret true /\ w' = w12
                 /\ self_tunnel_name o'
                    = if bool_decide (self_tunnel_name o = Some s) then None
                      else self_tunnel_name o).
  { destruct (bool_decide (self_tunnel_name o = Some s));
      cbv [bind set_tunnel_name set_config_file ret] in H; cbn in H;
      injection H as <- <- <-; auto. }
  destruct Hfin as (-> & -> & Ho').
  split; [reflexivity|]. split; [congruence|]. split; [congruence|]. split.
  - unfold registered. change (json_key (Some s)) with s. fold (disk_tunnels w12).
    rewrite Hgone. intros [? ?]. discriminate.
  - split; [|split; [congruence | exact Ho']].
    intros k Hk Hr. apply Hkeep; [exact Hk|].
    assert (Hr7 : registered (Some k) w7) by (apply Hothers, Hr).
    unfold registered, loaded in *. rewrite Hs11. exact Hr7.
Qed.

Lemma delete_tunnel_success_witness :
  let E := match Sample.host with
           | Env a b c d e _ g h i j k l m n o p q r s t u v =>
               Env a b c d e (fun _ => None) g h i j k l m n o p q r s t u v
           end in
  let w := World Missing
                 {[ config_path (Some "demo") := Config (Some "2a18") None (Some Sample.demo_rules) ]}
                 ["2a18c0de-1f0b-4c55-9a3e-0d6f5b7e9c11.json"; "cert.pem"] 0 [] [] in
  let r := delete_tunnel E (Some "demo") false Sample.fresh_manager w in
  r.1.1 = Ret true
  /\ yaml_files r.2 = ∅
  /\ dir_files r.2 = ["cert.pem"]
  /\ ~ registered (Some "demo") r.2.
Proof.
  intros E w.
  pose proof (delete_tunnel_success E (Some "demo") false
                [(Some "my-app", Some "6ff42ae2-765d-4adf-8112-31c55c1551ef");
                 (Some "demo", Some "2a18c0de-1f0b-4c55-9a3e-0d6f5b7e9c11")]
                Sample.fresh_manager w) as H.
  cbv zeta in H.
  destruct H as (H1 & H2 & H3 & H4 & _).
  - reflexivity.
  - intros t. reflexivity.
  - intros t. reflexivity.
  - split; [exact H1|]. split; [rewrite H2; vm_compute; reflexivity|].
    split; [rewrite H3; vm_compute; reflexivity | exact H4].
Defined.

(** * Stopping temporary tunnels *)

Lemma dict_items_loaded_inv n info w :
  In (n, info) (dict_items (d_tunnels (loaded w))) ->
  exists k, n = Some k /\ disk_tunnels w !! k = Some info.
Proof.
  unfold dict_items. rewrite loaded_none_item, app_nil_r.
  intros H. apply in_map_iff in H as ([k i] & [= <- <-] & Hin).
  exists k. split; [reflexivity|].
  apply list_elem_of_In, elem_of_map_to_list in Hin. exact Hin.
Qed.

Lemma dict_items_loaded_NoDup w :
  NoDup (map fst (dict_items (d_tunnels (loaded w)))).
Proof.
  unfold dict_items. rewrite loaded_none_item, app_nil_r.
  pose proof (NoDup_fst_map_to_list (str_items (d_tunnels (loaded w)))) as H.
  assert (Hm : forall l : list (string * tunnel_info),
             map fst (map (fun kv => (Some kv.1, kv.2)) l) = map Some (map fst l)).
  { intros l. rewrite !map_map. reflexivity. }
  rewrite Hm.
  apply (NoDup_fmap_2 Some). exact H.
Qed.

Section StopTemp.

Variable E : env.

Lemma stop_temp_loop_spec url items : forall stopped_any o w,
  NoDup (map fst items) ->
  (forall n info, In (n, info) items ->
                  exists k, n = Some k /\ disk_tunnels w !! k = Some info) ->
  exists b w',
    stop_temp_loop E items url stopped_any o w = (Ret b, o, w')
    /\ yaml_files w' = yaml_files w
    /\ dir_files w' = dir_files w
    /\ (forall k info, In (Some k, info) items -> stops url info = true ->
                       disk_tunnels w' !! k = None)
    /\ (forall k, (forall info, In (Some k, info) items -> stops url info = false) ->
                  disk_tunnels w' !! k = disk_tunnels w !! k).
Proof.
  induction items as [|[tn info] items IH]; intros acc o w Hnd Hin.
  - exists acc, w. cbn. split; [reflexivity|]. split; [reflexivity|]. split; [reflexivity|].
    split; [intros k i []|reflexivity].
  - cbn [map fst] in Hnd. apply NoDup_cons in Hnd as [Hhd Hnd].
    rewrite list_elem_of_In in Hhd.
    destruct (Hin tn info (or_introl eq_refl)) as (k0 & -> & Hk0).
    assert (Hin' : forall n i, In (n, i) items ->
                               exists k, n = Some k /\ disk_tunnels w !! k = Some i).
    { intros n i Hi. apply Hin. right. exact Hi. }
    cbn [stop_temp_loop].
    destruct (stops url info) eqn:Hstops.
    + (* the record is stopped and unregistered *)
      unfold stops in Hstops. apply andb_true_iff in Hstops as [Htemp Hurl].
      rewrite Htemp. apply negb_true_iff in Hurl. rewrite Hurl.
      set (kill := match temp_process_id info with
                   | Some pid =>
                       killed <- ask (fun t => process_alive E t pid) (ProcTerminate pid) ;;
                       if killed then ret true
                       else
                         print ("Process " +:+ pretty (Z.pos pid)
                                +:+ " not found (may have already stopped)") ;;;
                         ret acc
                   | None => ret acc
                   end).
      assert (Hkill : exists b1 w1,
                 kill o w = (Ret b1, o, w1)
                 /\ state_file w1 = state_file w
                 /\ yaml_files w1 = yaml_files w /\ dir_files w1 = dir_files w).
      { subst kill. destruct (temp_process_id info) as [pid|].
        - unfold bind, ask. cbn.
          destruct (process_alive E (length (log w)) pid); cbn; eauto 10.
        - cbn. eauto 10. }
      destruct Hkill as (b1 & w1 & Hkill & Hs1 & Hy1 & Hd1).
      unfold bind at 1. rewrite Hkill. cbv beta iota.
      unfold bind at 1.
      pose proof (_unregister_tunnel_returns E (Some k0) o w1) as Hr.
      pose proof (_unregister_tunnel_effect E k0 o w1) as [Hdel _].
      assert (Hfr : yaml_files (_unregister_tunnel E (Some k0) o w1).2 = yaml_files w1
                    /\ dir_files (_unregister_tunnel E (Some k0) o w1).2 = dir_files w1).
      { assert (H1 : preserves (fun _ x => yaml_files x = yaml_files w1)
                               (_unregister_tunnel E (Some k0))) by pres.
        assert (H2 : preserves (fun _ x => dir_files x = dir_files w1)
                               (_unregister_tunnel E (Some k0))) by pres.
        split; [apply (H1 o w1 eq_refl) | apply (H2 o w1 eq_refl)]. }
      destruct (_unregister_tunnel E (Some k0) o w1) as [[r2 o2] w2].
      cbn [fst snd] in *. injection Hr as -> ->. cbv beta iota.
      destruct Hfr as [Hy2 Hd2].
      assert (Hdisk1 : disk_tunnels w1 = disk_tunnels w).
      { unfold disk_tunnels, loaded. rewrite Hs1. reflexivity. }
      rewrite Hdisk1 in Hdel.
      destruct (IH b1 o w2 Hnd) as (b & w' & Hrun & Hy & Hd & Hgone & Hkeep).
      { intros n i Hi. destruct (Hin' n i Hi) as (k & -> & Hk). exists k.
        split; [reflexivity|]. rewrite Hdel, lookup_delete_ne; [exact Hk|].
        intros ->. apply Hhd. apply in_map_iff. exists (Some k, i). auto. }
      exists b, w'. split; [exact Hrun|]. split; [congruence|]. split; [congruence|]. split.
      * intros k i [[= <- <-]|Hi] Hst.
        -- rewrite Hkeep.
           ++ rewrite Hdel. apply lookup_delete_eq.
           ++ intros i Hi. exfalso. apply Hhd. apply in_map_iff. exists (Some k0, i). auto.
        -- eapply Hgone; eassumption.
      * intros k Hk.
        assert (Hne : k0 <> k).
        { intros ->. specialize (Hk info (or_introl eq_refl)).
          unfold stops in Hk. rewrite Htemp, Hurl in Hk. discriminate Hk. }
        rewrite Hkeep by (intros i Hi; apply Hk; right; exact Hi).
        rewrite Hdel. apply lookup_delete_ne. exact Hne.
    + (* the record is skipped *)
      assert (Hskip : (if default false (temp_tunnel info)
                       then if truthy url && negb (bool_decide (temp_url info = url))
                            then stop_temp_loop E items url acc
                            else (stopped_any <-
                                    match temp_process_id info with
                                    | Some pid =>
                                        killed <- ask (fun t => process_alive E t pid)
                                                      (ProcTerminate pid) ;;
                                        if killed then ret true
                                        else
                                          print ("Process " +:+ pretty (Z.pos pid)
                                                 +:+ " not found (may have already stopped)") ;;;
                                          ret acc
                                    | None => ret acc
                                    end ;;
                                  _unregister_tunnel E (Some k0) ;;;
                                  stop_temp_loop E items url stopped_any)
                       else stop_temp_loop E items url acc)
                      = stop_temp_loop E items url acc).
      { unfold stops in Hstops. destruct (default false (temp_tunnel info)); [|reflexivity].
        cbn in Hstops. apply negb_false_iff in Hstops. rewrite Hstops. reflexivity. }
      rewrite Hskip.
      destruct (IH acc o w Hnd Hin') as (b & w' & Hrun & Hy & Hd & Hgone & Hkeep).
      exists b, w'. split; [exact Hrun|]. split; [exact Hy|]. split; [exact Hd|]. split.
      * intros k i [[= <- <-]|Hi] Hst; [congruence|]. eapply Hgone; eassumption.
      * intros k Hk. apply Hkeep. intros i Hi. apply Hk. right. exact Hi.
Qed.

End StopTemp.

Lemma stop_temp_tunnel_spec (E : env) (url : pyname) (o : obj) (w : world) :
  exists w',
    stop_temp_tunnel E url o w = (Ret tt, o, w')
    /\ yaml_files w' = yaml_files w
    /\ dir_files w' = dir_files w
    /\ forall k,
         disk_tunnels w' !! k
         = match disk_tunnels w !! k with
           | Some info => if stops url info then None else Some info
           | None => None
           end.
Proof.
  unfold stop_temp_tunnel. unfold bind at 1. rewrite _load_state_eq. cbv beta iota.
  destruct (stop_temp_loop_spec E url (dict_items (d_tunnels (loaded w))) false o w
              (dict_items_loaded_NoDup w) (fun n i => dict_items_loaded_inv n i w))
    as (b & w' & Hrun & Hy & Hd & Hgone & Hkeep).
  unfold bind. rewrite Hrun. cbv beta iota.
  assert (Hend : forall m : M unit,
             (m = ret tt \/ exists msg, m = print msg) ->
             exists w2, m o w' = (Ret tt, o, w2)
               /\ yaml_files w2 = yaml_files w
               /\ dir_files w2 = dir_files w
               /\ disk_tunnels w2 = disk_tunnels w').
  { intros m [->|[msg ->]]; eexists; (split; [reflexivity|]); cbn; auto. }
  destruct (Hend (if b then ret tt
                  else if truthy url
                       then print ("Temporary tunnel with URL " +:+ fmt url +:+ " not found")
                       else print "No temporary tunnels running"))
    as (w2 & H1 & H2 & H3 & H4).
  { destruct b; [left; reflexivity|]. destruct (truthy url); right; eauto. }
  exists w2. split; [exact H1|]. split; [exact H2|]. split; [exact H3|].
  intros k. rewrite H4.
  destruct (disk_tunnels w !! k) as [info|] eqn:Hk.
  - destruct (stops url info) eqn:Hst.
    + apply (Hgone k info); [apply dict_items_loaded, Hk | exact Hst].
    + rewrite Hkeep; [exact Hk|].
      intros i Hi. apply dict_items_loaded_inv in Hi as (k' & [= <-] & Hi).
      rewrite Hk in Hi. injection Hi as <-. exact Hst.
  - rewrite Hkeep; [exact Hk|].
    intros i Hi. apply dict_items_loaded_inv in Hi as (k' & [= <-] & Hi).
    rewrite Hk in Hi. discriminate Hi.
Qed.

(** X13. [stop_temp_tunnel(url)] never raises, whether or not the
    processes still exist.  Afterwards the state document holds exactly the
    records it held before minus the temporary ones (all of them, or those
    whose URL is [url] when one is given), each of the others unchanged; no
    config file and no other file of the config directory is touched. *)
Theorem stop_temp_tunnel_unregisters (E : env) (url : pyname) (o : obj) (w : world) :
  let r := stop_temp_tunnel E url o w in
  r.1 = (Ret tt, o)
  /\ yaml_files r.2 = yaml_files w
  /\ dir_files r.2 = dir_files w
  /\ forall k,
       disk_tunnels r.2 !! k
       = match disk_tunnels w !! k with
         | Some info => if stops url info then None else Some info
         | None => None
         end.
Proof.
  cbv zeta. destruct (stop_temp_tunnel_spec E url o w) as (w' & -> & H).
  split; [reflexivity | exact H].
Qed.

(** * Listing temporary tunnels: what stays *)

Section ListTempKeeps.

Variable E : env.

Lemma list_temp_loop_keeps items : forall acc o w,
  NoDup (map fst items) ->
  (forall n info, In (n, info) items ->
                  exists k, n = Some k /\ disk_tunnels w !! k = Some info) ->
  exists rows w',
    list_temp_loop E items acc o w = (Ret rows, o, w')
    /\ (forall x, In x acc -> In x rows)
    /\ (forall k, (forall info, In (Some k, info) items -> survives_listing E info) ->
                  disk_tunnels w' !! k = disk_tunnels w !! k)
    /\ (forall k info pid,
          In (Some k, info) items ->
          default false (temp_tunnel info) = true ->
          temp_process_id info = Some pid ->
          (forall t, process_alive E t pid = true) ->
          In info rows).
Proof.
  induction items as [|[tn info] items IH]; intros acc o w Hnd Hin.
  - exists acc, w. cbn. split; [reflexivity|]. split; [auto|]. split; [reflexivity|].
    intros k i p [].
  - cbn [map fst] in Hnd. apply NoDup_cons in Hnd as [Hhd Hnd].
    rewrite list_elem_of_In in Hhd.
    destruct (Hin tn info (or_introl eq_refl)) as (k0 & -> & Hk0).
    assert (Hin' : forall n i, In (n, i) items ->
                               exists k, n = Some k /\ disk_tunnels w !! k = Some i).
    { intros n i Hi. apply Hin. right. exact Hi. }
    cbn [list_temp_loop].
    destruct (default false (temp_tunnel info)) eqn:Htemp.
    + destruct (temp_process_id info) as [pid|] eqn:Hpid.
      * unfold bind at 1, ask at 1. cbv beta iota.
        destruct (process_alive E (length (log w)) pid) eqn:Halive.
        -- destruct (IH (acc ++ [info]) o (with_log (Kill0 pid) w) Hnd Hin')
             as (rows & w' & Hrun & Hacc & Hkeep & Hlist).
           exists rows, w'. split; [exact Hrun|]. split; [|split].
           ++ intros x Hx. apply Hacc, in_or_app. left. exact Hx.
           ++ intros k Hk. apply Hkeep. intros i Hi. apply Hk. right. exact Hi.
           ++ intros k i p [[= <- <-]|Hi] Ht Hp Hlive.
              ** apply Hacc, in_or_app. right. left. reflexivity.
              ** eapply Hlist; eassumption.
        -- unfold bind at 1.
           pose proof (_unregister_tunnel_returns E (Some k0) o (with_log (Kill0 pid) w)) as Hr.
           pose proof (_unregister_tunnel_effect E k0 o (with_log (Kill0 pid) w)) as [Hdel _].
           destruct (_unregister_tunnel E (Some k0) o (with_log (Kill0 pid) w))
             as [[r1 o1] w1].
           cbn [fst snd] in *. injection Hr as -> ->. cbv beta iota.
           change (disk_tunnels (with_log (Kill0 pid) w)) with (disk_tunnels w) in Hdel.
           destruct (IH acc o w1 Hnd) as (rows & w' & Hrun & Hacc & Hkeep & Hlist).
           { intros n i Hi. destruct (Hin' n i Hi) as (k & -> & Hk). exists k.
             split; [reflexivity|]. rewrite Hdel, lookup_delete_ne; [exact Hk|].
             intros ->. apply Hhd. apply in_map_iff. exists (Some k, i). auto. }
           exists rows, w'. split; [exact Hrun|]. split; [exact Hacc|]. split.
           ++ intros k Hk.
              assert (Hne : k0 <> k).
              { intros ->. destruct (Hk info (or_introl eq_refl)) as [Hs|[Hs|(p & Hp & Hlive)]].
                - rewrite Htemp in Hs. discriminate Hs.
                - rewrite Hpid in Hs. discriminate Hs.
                - rewrite Hpid in Hp. injection Hp as <-.
                  rewrite Hlive in Halive. discriminate Halive. }
              rewrite Hkeep by (intros i Hi; apply Hk; right; exact Hi).
              rewrite Hdel. apply lookup_delete_ne. exact Hne.
           ++ intros k i p [[= <- <-]|Hi] Ht Hp Hlive.
              ** rewrite Hpid in Hp. injection Hp as <-.
                 rewrite Hlive in Halive. discriminate Halive.
              ** eapply Hlist; eassumption.
      * destruct (IH acc o w Hnd Hin') as (rows & w' & Hrun & Hacc & Hkeep & Hlist).
        exists rows, w'. split; [exact Hrun|]. split; [exact Hacc|]. split.
        -- intros k Hk. apply Hkeep. intros i Hi. apply Hk. right. exact Hi.
        -- intros k i p [[= <- <-]|Hi] Ht Hp Hlive; [congruence|].
           eapply Hlist; eassumption.
    + destruct (IH acc o w Hnd Hin') as (rows & w' & Hrun & Hacc & Hkeep & Hlist).
      exists rows, w'. split; [exact Hrun|]. split; [exact Hacc|]. split.
      * intros k Hk. apply Hkeep. intros i Hi. apply Hk. right. exact Hi.
      * intros k i p [[= <- <-]|Hi] Ht Hp Hlive; [congruence|].
        eapply Hlist; eassumption.
Qed.

End ListTempKeeps.

(** X14. [list_temp_tunnels] leaves alone every record that is not
    temporary, tracks no process, or whose process answers the liveness
    probes: the record is still in the state document, unchanged.  If it is
    a temporary record with a live process, it is also among the listed
    rows. *)
Theorem list_temp_tunnels_keeps (E : env) (o : obj) (w : world)
        (k : string) (info : tunnel_info)
        (Hrec : disk_tunnels w !! k = Some info)
        (Hkeep : survives_listing E info) :
  let r := list_temp_tunnels E o w in
  disk_tunnels r.2 !! k = Some info
  /\ exists rows,
       r.1.1 = Ret rows
       /\ (default false (temp_tunnel info) = true ->
           is_Some (temp_process_id info) -> In info rows).
Proof.
  cbv zeta. unfold list_temp_tunnels. unfold bind at 1 2. rewrite _load_state_eq.
  cbv beta iota.
  destruct (list_temp_loop_keeps E (dict_items (d_tunnels (loaded w))) [] o w
              (dict_items_loaded_NoDup w) (fun n i => dict_items_loaded_inv n i w))
    as (rows & w' & Hrun & _ & Hsame & Hlist).
  rewrite Hrun. cbn [fst snd]. split.
  - rewrite Hsame; [exact Hrec|].
    intros i Hi. apply dict_items_loaded_inv in Hi as (k' & [= <-] & Hi).
    rewrite Hrec in Hi. injection Hi as <-. exact Hkeep.
  - exists rows. split; [reflexivity|]. intros Htemp [pid Hpid].
    destruct Hkeep as [Hs|[Hs|(p & Hp & Hlive)]]; [congruence|congruence|].
    eapply (Hlist k info p); try eassumption.
    apply dict_items_loaded, Hrec.
Qed.

Lemma list_temp_tunnels_keeps_witness :
  let r := list_temp_tunnels lively_host Sample.fresh_manager
                             ReapSample.world_with_dead_temp in
  disk_tunnels r.2 !! "temp-1714554000" = Some ReapSample.record
  /\ exists rows,
       r.1.1 = Ret rows
       /\ (default false (temp_tunnel ReapSample.record) = true ->
           is_Some (temp_process_id ReapSample.record) -> In ReapSample.record rows).
Proof.
  apply (list_temp_tunnels_keeps lively_host Sample.fresh_manager
           ReapSample.world_with_dead_temp "temp-1714554000" ReapSample.record).
  - vm_compute. reflexivity.
  - right. right. exists 4242%positive. split; [reflexivity|]. intros t. reflexivity.
Defined.

(** * The status check *)

Section StatusCheck.

Variable E : env.

Lemma checked_same tunnel_name w st w' :
  In st status_words -> state_file w' = state_file w -> yaml_files w' = yaml_files w ->
  status_checked tunnel_name w st w'.
Proof.
  intros Hin Hs Hy. split; [exact Hin|]. split; [exact Hy|].
  unfold disk_current, disk_tunnels, loaded. rewrite Hs. auto.
Qed.

(** The part of [_check_tunnel_status] after the service check: the manual
    process, then the tracked temporary process. *)
Lemma manual_and_temp_effect tunnel_name o w w1 :
  state_file w1 = state_file w -> yaml_files w1 = yaml_files w ->
  exists st w',
    (found <- ask (pgrep_found E) (Pgrep ("cloudflared.*tunnel.*" +:+ fmt tunnel_name)) ;;
     if default false found then ret "running (manual)"
     else
       match dict_get tunnel_name (d_tunnels (loaded w)) ≫= temp_process_id with
       | Some pid =>
           alive <- ask (fun t => process_alive E t pid) (Kill0 pid) ;;
           if alive then ret "running (temp)"
           else
             _update_tunnel_info E tunnel_name [SetTempProcessId None] ;;;
             ret "stopped"
       | None => ret "stopped"
       end) o w1 = (Ret st, o, w')
    /\ status_checked tunnel_name w st w'.
Proof.
  intros Hs Hy.
  unfold bind at 1, ask at 1. cbv beta iota.
  destruct (default false (pgrep_found E (length (log w1)))).
  { eexists _, _. split; [reflexivity|]. apply checked_same; [cbn; auto | exact Hs | exact Hy]. }
  destruct (dict_get tunnel_name (d_tunnels (loaded w))) as [info|] eqn:Hinfo;
    cbn [mbind option_bind].
  2:{ eexists _, _. split; [reflexivity|].
      apply checked_same; [cbn; auto | exact Hs | exact Hy]. }
  destruct (temp_process_id info) as [pid|] eqn:Hpid.
  2:{ eexists _, _. split; [reflexivity|].
      apply checked_same; [cbn; auto | exact Hs | exact Hy]. }
  unfold bind at 1, ask at 1. cbv beta iota.
  destruct (process_alive E _ pid).
  { eexists _, _. split; [reflexivity|]. apply checked_same; [cbn; auto | exact Hs | exact Hy]. }
  set (w2 := with_log (Kill0 pid)
               (with_log (Pgrep ("cloudflared.*tunnel.*" +:+ fmt tunnel_name)) w1)).
  assert (Hl2 : loaded w2 = loaded w).
  { unfold loaded. cbn. rewrite Hs. reflexivity. }
  pose proof (_update_tunnel_info_returns E tunnel_name [SetTempProcessId None] o w2) as Hr.
  pose proof (_update_tunnel_info_disk E tunnel_name [SetTempProcessId None] o w2) as [Hd Hc].
  pose proof (_update_tunnel_info_yaml E (yaml_files w) tunnel_name [SetTempProcessId None]
                o w2 Hy) as Hy'.
  unfold bind.
  destruct (_update_tunnel_info E tunnel_name [SetTempProcessId None] o w2) as [[r3 o3] w3].
  cbn [fst snd] in *. injection Hr as -> ->. cbv beta iota.
  exists "stopped", w3. split; [reflexivity|]. split; [cbn; auto|].
  split; [exact Hy'|]. split.
  - rewrite Hc. unfold disk_current. rewrite Hl2. reflexivity.
  - right. split; [reflexivity|]. exists info, pid.
    assert (Hk : disk_tunnels w !! json_key tunnel_name = Some info).
    { destruct tunnel_name as [s|]; cbn in Hinfo; [exact Hinfo|].
      rewrite loaded_none_item in Hinfo. discriminate Hinfo. }
    split; [exact Hk|]. split; [exact Hpid|].
    rewrite Hd, Hl2, Hinfo. unfold disk_tunnels. rewrite Hl2. reflexivity.
Qed.

Lemma _check_tunnel_status_cases tunnel_name o w :
  exists st w',
    _check_tunnel_status E tunnel_name o w = (Ret st, o, w')
    /\ status_checked tunnel_name w st w'.
Proof.
  unfold _check_tunnel_status. unfold bind at 1.
  rewrite _load_state_eq. cbv beta iota zeta.
  destruct (default false (auto_start <$> dict_get tunnel_name (d_tunnels (loaded w)))).
  - unfold bind at 1, _has_systemd_user_support at 1, ask at 1. cbv beta iota.
    destruct (has_systemd_user E (length (log w))).
    + unfold bind at 1, ask at 1. cbv beta iota.
      destruct (systemctl_ok E _ _ _).
      * eexists _, _. split; [reflexivity|].
        apply checked_same; [cbn; auto | reflexivity | reflexivity].
      * apply (manual_and_temp_effect tunnel_name o w); reflexivity.
    + apply (manual_and_temp_effect tunnel_name o w); reflexivity.
  - apply (manual_and_temp_effect tunnel_name o w); reflexivity.
Qed.

End StatusCheck.

(** X15. [_check_tunnel_status] never raises and answers one of four
    words.  It changes no config file and not the current-tunnel pointer;
    the only change it can make to the records is to clear the
    [temp_process_id] of the checked record, and it does so only when it
    answers "stopped" for a record that tracked a process. *)
Theorem check_tunnel_status_effect (E : env) (tunnel_name : pyname) (o : obj) (w : world) :
  let r := _check_tunnel_status E tunnel_name o w in
  exists st,
    r.1 = (Ret st, o)
    /\ In st status_words
    /\ yaml_files r.2 = yaml_files w
    /\ disk_current r.2 = disk_current w
    /\ (disk_tunnels r.2 = disk_tunnels w
        \/ (st = "stopped"
            /\ exists info pid,
                 disk_tunnels w !! json_key tunnel_name = Some info
                 /\ temp_process_id info = Some pid
                 /\ disk_tunnels r.2
                    = <[json_key tunnel_name := apply_update info (SetTempProcessId None)]>
                        (disk_tunnels w))).
Proof.
  cbv zeta. destruct (_check_tunnel_status_cases E tunnel_name o w) as (st & w' & -> & H).
  exists st. split; [reflexivity|]. exact H.
Qed.

(** * Adopting a tunnel *)

Lemma try_except_ret_inv {A} (body : M A) handler o w a o' w' :
  try_except body handler o w = (Ret a, o', w') ->
  body o w = (Ret a, o', w')
  \/ exists e o1 w1, body o w = (Raise e, o1, w1) /\ handler e o1 w1 = (Ret a, o', w').
Proof.
  unfold try_except. destruct (body o w) as [[[b|e] o1] w1]; intros H.
  - left. exact H.
  - right. exists e, o1, w1. split; [reflexivity | exact H].
Qed.

Lemma find_config_spec candidates dst o w :
  self_config_file o = Some dst ->
  exists w',
    find_config candidates o w
    = (Ret (bool_decide (is_Some (head (omap (fun p => yaml_files w !! p) candidates)))),
       o, w')
    /\ state_file w' = state_file w
    /\ yaml_files w'
       = match head (omap (fun p => yaml_files w !! p) candidates) with
         | Some c => <[dst := c]> (yaml_files w)
         | None => yaml_files w
         end.
Proof.
  intros Hdst. induction candidates as [|p candidates IH].
  - exists w. cbn. auto.
  - cbn [find_config omap list_omap]. unfold bind at 1, get_world at 1. cbv beta iota.
    destruct (yaml_files w !! p) as [c|] eqn:Hp.
    + rewrite bool_decide_eq_true_2 by eauto. cbn [head].
      unfold bind at 1, get_self at 1. cbv beta iota. rewrite Hdst.
      destruct (decide (p = dst)) as [->|Hne].
      * rewrite bool_decide_eq_true_2 by reflexivity. cbn.
        exists w. split; [reflexivity|]. split; [reflexivity|].
        symmetry. apply insert_id. exact Hp.
      * rewrite bool_decide_eq_false_2 by congruence. cbn [negb].
        unfold bind, copy_config. rewrite Hp. cbn.
        eexists. split; [reflexivity|]. cbn. auto.
    + rewrite bool_decide_eq_false_2 by (intros [? ?]; discriminate). exact IH.
Qed.

(** X16. Adopting a name that the provider's listing does not show, or
    adopting while the listing cannot be read, returns [False] after the
    one listing command: nothing is registered and no file is written. *)
Theorem adopt_tunnel_unknown (E : env) (tunnel_name : pyname) (o : obj) (w : world)
        (Hunknown : match tunnel_list_json E (length (log w)) with
                    | JsonTunnels ts =>
                        existsb (fun t => bool_decide (fst t = tunnel_name)) ts = false
                    | NotJson _ => True
                    end) :
  let r := adopt_tunnel E tunnel_name o w in
  r.1 = (Ret false, o)
  /\ state_file r.2 = state_file w
  /\ yaml_files r.2 = yaml_files w
  /\ dir_files r.2 = dir_files w
  /\ log r.2 = CmdTunnelListJson :: log w.
Proof.
  cbv zeta.
  assert (Heq : exists msg,
             adopt_tunnel E tunnel_name o w
             = (Ret false, o,
                World (state_file w) (yaml_files w) (dir_files w) (clock_ms w)
                      (CmdTunnelListJson :: log w) (msg :: console w))).
  { unfold adopt_tunnel. unfold bind at 1, ask at 1. cbv beta iota zeta.
    destruct (tunnel_list_json E (length (log w))) as [ts|text].
    - rewrite Hunknown. cbn. eexists. reflexivity.
    - cbn. eexists. reflexivity. }
  destruct Heq as [msg ->]. cbn. auto.
Qed.

Lemma adopt_tunnel_unknown_witness :
  let r := adopt_tunnel Sample.host (Some "ghost") Sample.fresh_manager Sample.routed_world in
  r.1 = (Ret false, Sample.fresh_manager)
  /\ state_file r.2 = state_file Sample.routed_world
  /\ yaml_files r.2 = yaml_files Sample.routed_world
  /\ dir_files r.2 = dir_files Sample.routed_world
  /\ log r.2 = CmdTunnelListJson :: log Sample.routed_world.
Proof.
  apply (adopt_tunnel_unknown Sample.host (Some "ghost") Sample.fresh_manager
           Sample.routed_world).
  vm_compute. reflexivity.
Defined.

(** X17. A successful [adopt_tunnel] leaves the manager selected on the
    tunnel.  When one of the candidate config files exists, the first of
    them (the shared [config.yml] before the tunnel's own file) becomes the
    tunnel's config file, and the route list of the record is made of its
    hostname rules, in the order of the file; no other config file
    changes.  When none exists, no config file is written. *)
Theorem adopt_tunnel_backfills_routes (E : env) (tunnel_name : string)
        (o o' : obj) (w w' : world)
        (Hadopt : adopt_tunnel E (Some tunnel_name) o w = (Ret true, o', w')) :
  let tn := Some tunnel_name in
  selected tn o' w'
  /\ match adopt_source tn w with
     | Some c =>
         yaml_files w' = <[config_path tn := c]> (yaml_files w)
         /\ routes <$> disk_tunnels w' !! tunnel_name
            = Some (omap route_of_rule (default [] (c_ingress c)))
     | None => yaml_files w' = yaml_files w
     end.
Proof.
  cbv zeta. unfold adopt_tunnel in Hadopt. cbv zeta in Hadopt.
  step Hadopt as out o0 w0 H0. unfold ask in H0. injection H0 as <- <- <-.
  apply try_except_ret_inv in Hadopt as [H|(e & o1 & w1 & _ & H)].
  2:{ cbv beta in H. absurd_run H. }
  destruct (tunnel_list_json E (length (log w))) as [ts|text]; [|discriminate H].
  match type of H with
  | (if negb ?b then _ else _) _ _ = _ => destruct b; cbn [negb] in H
  end.
  2:{ cbv beta in H. absurd_run H. }
  set (w0 := with_log CmdTunnelListJson w) in *.
  step H as u1 o1 w1 H1.
  assert (Hy1 : yaml_files w1 = yaml_files w).
  { eapply (preserves_run (fun _ x => yaml_files x = yaml_files w)) with (w := w0);
      [apply _register_tunnel_yaml | reflexivity | exact H1]. }
  step H as u2 o2 w2 H2.
  assert (Hy2 : yaml_files w2 = yaml_files w).
  { eapply (preserves_run (fun _ x => yaml_files x = yaml_files w)); [|exact Hy1|exact H2].
    apply use_tunnel_yaml. }
  assert (Hs2 : selected (Some tunnel_name) o2 w2).
  { pose proof (use_tunnel_selects E (Some tunnel_name) o1 w1) as [_ Hs].
    rewrite H2 in Hs. exact Hs. }
  step H as config_found o3 w3 H3.
  destruct (find_config_spec (possible_configs (Some tunnel_name))
              (config_path (Some tunnel_name)) o2 w2 (proj1 (proj2 Hs2)))
    as (w3' & Hfind & Hst3 & Hy3).
  assert (Hsrc : head (omap (fun p => yaml_files w2 !! p) (possible_configs (Some tunnel_name)))
                 = adopt_source (Some tunnel_name) w).
  { unfold adopt_source. rewrite Hy2. reflexivity. }
  rewrite Hsrc in Hfind, Hy3. rewrite Hy2 in Hy3. clear Hsrc.
  rewrite Hfind in H3. injection H3 as <- <- <-.
  assert (Hs3 : selected (Some tunnel_name) o2 w3').
  { destruct Hs2 as (? & ? & Hreg & Hcur). split; [assumption|]. split; [assumption|].
    unfold registered, disk_current, loaded in *. rewrite Hst3. auto. }
  destruct (adopt_source (Some tunnel_name) w) as [c|] eqn:Hc.
  - rewrite bool_decide_eq_true_2 in H by eauto.
    step H as cfg o4 w4 H4.
    rewrite (_load_config_at (Some tunnel_name) o2 w3' (proj1 (proj2 Hs3))) in H4.
    injection H4 as <- <- <-.
    rewrite Hy3, lookup_insert_eq in H. cbn [default from_option id] in H.
    destruct (hostname_routes (default [] (c_ingress c)) []) as [err|rs] eqn:Hrs.
    { cbv beta in H. absurd_run H. }
    apply hostname_routes_inr in Hrs. cbn [app] in Hrs. subst rs.
    step H as u5 o5 w5 H5. injection H as <- <-.
    assert (Hs5 : selected (Some tunnel_name) o5 w5).
    { eapply (preserves_run (selected (Some tunnel_name))); [|exact Hs3|exact H5].
      apply _update_tunnel_info_selected. }
    assert (Hy5 : yaml_files w5 = yaml_files w3').
    { eapply (preserves_run (fun _ x => yaml_files x = yaml_files w3'));
        [|reflexivity|exact H5]. apply _update_tunnel_info_yaml. }
    split; [exact Hs5|]. split; [congruence|].
    pose proof (_update_tunnel_info_disk E (Some tunnel_name)
                  [SetRoutes (omap route_of_rule (default [] (c_ingress c)))] o2 w3')
      as [Hd _].
    rewrite H5 in Hd. cbn [snd] in Hd. rewrite Hd.
    destruct Hs3 as (_ & _ & [i Hi] & _). change (json_key (Some tunnel_name)) with tunnel_name in *.
    cbn [dict_get]. rewrite Hi. rewrite lookup_insert_eq. destruct i; reflexivity.
  - rewrite bool_decide_eq_false_2 in H by (intros [? ?]; discriminate).
    injection H as <- <-. split; [exact Hs3 | exact Hy3].
Qed.

Lemma adopt_tunnel_backfills_routes_witness :
  let r := adopt_tunnel Sample.host (Some "demo") Sample.fresh_manager Sample.routed_world in
  selected (Some "demo") r.1.2 r.2
  /\ routes <$> disk_tunnels r.2 !! "demo" = Some [Route "app.example.com" "http://svc:3000"].
Proof.
  pose proof (adopt_tunnel_backfills_routes Sample.host "demo" Sample.fresh_manager
                (adopt_tunnel Sample.host (Some "demo") Sample.fresh_manager
                              Sample.routed_world).1.2
                Sample.routed_world
                (adopt_tunnel Sample.host (Some "demo") Sample.fresh_manager
                              Sample.routed_world).2) as H.
  cbv zeta in H. destruct H as [H1 H2].
  - vm_compute. reflexivity.
  - split; [exact H1|]. exact (proj2 H2).
Defined.

(** * The autostart flag *)

Section AutostartFlag.

Variable E : env.

(** A platform step that answered [ok], followed by the update of the
    flag. *)
Lemma flag_after_step (b : bool) (n : string) (ev : event) (step : M bool) :
  (forall o w, exists ok w1,
      step o w = (Ret ok, o, w1)
      /\ state_file w1 = state_file w /\ yaml_files w1 = yaml_files w
      /\ (ok = true -> In ev (log w1))) ->
  forall o w, exists ok w',
    (success <- step ;;
     when success (_update_tunnel_info E (Some n) [SetAutoStart b]) ;;;
     ret success) o w = (Ret ok, o, w')
    /\ yaml_files w' = yaml_files w
    /\ disk_current w' = disk_current w
    /\ (ok = false -> state_file w' = state_file w)
    /\ (ok = true ->
        In ev (log w')
        /\ forall i, disk_tunnels w !! n = Some i ->
                     disk_tunnels w' !! n = Some (apply_update i (SetAutoStart b))).
Proof.
  intros Hstep o w. destruct (Hstep o w) as (ok & w1 & Hrun & Hs1 & Hy1 & Hev).
  unfold bind at 1. rewrite Hrun. cbv beta iota.
  assert (Hl : loaded w1 = loaded w) by (unfold loaded; rewrite Hs1; reflexivity).
  destruct ok; unfold when.
  - pose proof (_update_tunnel_info_returns E (Some n) [SetAutoStart b] o w1) as Hr.
    pose proof (_update_tunnel_info_disk E (Some n) [SetAutoStart b] o w1) as [Hd Hc].
    pose proof (_update_tunnel_info_yaml E (yaml_files w) (Some n) [SetAutoStart b] o w1 Hy1)
      as Hy.
    assert (Hlog : preserves (fun _ x => In ev (log x))
                             (_update_tunnel_info E (Some n) [SetAutoStart b])) by pres.
    specialize (Hlog o w1 (Hev eq_refl)).
    unfold bind.
    destruct (_update_tunnel_info E (Some n) [SetAutoStart b] o w1) as [[r2 o2] w2].
    cbn [fst snd] in *. injection Hr as -> ->. cbv beta iota.
    exists true, w2. split; [reflexivity|]. split; [exact Hy|]. split.
    { rewrite Hc. unfold disk_current. rewrite Hl. reflexivity. }
    split; [discriminate|]. intros _. split; [exact Hlog|].
    intros i Hi. rewrite Hd, Hl. cbn [dict_get]. unfold disk_tunnels in Hi. rewrite Hi.
    change (json_key (Some n)) with n. apply lookup_insert_eq.
  - exists false, w1. cbn. split; [reflexivity|]. split; [exact Hy1|]. split.
    { unfold disk_current. rewrite Hl. reflexivity. }
    split; [intros _; exact Hs1 | discriminate].
Qed.

End AutostartFlag.



(** * The URL of a temporary tunnel *)

Lemma prefix_app p s :
  String.prefix p s = true -> s = p +:+ PyStr.drop (String.length p) s.
Proof.
  revert s. induction p as [|a p IH]; intros s H.
  - destruct s; reflexivity.
  - destruct s as [|b s]; [discriminate H|]. cbn in H.
    destruct (ascii_dec a b) as [->|]; [|discriminate H].
    change (String b s = String b (p +:+ PyStr.drop (String.length p) s)).
    f_equal. apply IH, H.
Qed.

Lemma prefix_app_same p t r :
  String.prefix t r = true -> String.prefix (p +:+ t) (p +:+ r) = true.
Proof.
  intros H. induction p as [|a p IH]; [exact H|].
  change (String.prefix (String a (p +:+ t)) (String a (p +:+ r)) = true).
  cbn. destruct (ascii_dec a a); [exact IH | contradiction].
Qed.

Lemma take_nonspace_prefix r : String.prefix (PyStr.take_nonspace r) r = true.
Proof.
  induction r as [|c r IH]; [reflexivity|]. cbn.
  destruct (PyStr.is_space c); [reflexivity|]. cbn.
  destruct (ascii_dec c c); [exact IH | contradiction].
Qed.

Lemma take_nonspace_all r : all_nonspace (PyStr.take_nonspace r) = true.
Proof.
  induction r as [|c r IH]; [reflexivity|]. cbn.
  destruct (PyStr.is_space c) eqn:Hc; [reflexivity|]. cbn. rewrite Hc. exact IH.
Qed.

Lemma contains_prefix sub s : String.prefix sub s = true -> PyStr.contains sub s = true.
Proof. intros H. destruct s; cbn [PyStr.contains]; rewrite H; reflexivity. Qed.

Lemma contains_tail sub c s : PyStr.contains sub s = true -> PyStr.contains sub (String c s) = true.
Proof. intros H. cbn [PyStr.contains]. destruct (String.prefix sub (String c s)); auto. Qed.

Lemma search_url_shape line url :
  PyStr.search_url line = Some url ->
  exists tok,
    url = "https://" +:+ tok
    /\ tok <> ""
    /\ all_nonspace tok = true
    /\ PyStr.contains url line = true.
Proof.
  induction line as [|c line IH]; [discriminate|].
  cbn [PyStr.search_url].
  destruct (String.prefix "https://" (String c line)) eqn:Hp.
  - destruct (PyStr.take_nonspace (PyStr.drop 8 (String c line))) as [|a tok] eqn:Htok.
    + intros H. destruct (IH H) as (tok & ? & ? & ? & Hc). exists tok.
      repeat split; try assumption. apply contains_tail, Hc.
    + intros [= <-]. exists (String a tok). split; [reflexivity|]. split; [discriminate|].
      split.
      * rewrite <- Htok. apply take_nonspace_all.
      * apply contains_prefix. pose proof (prefix_app _ _ Hp) as Hs.
        change (String.length "https://") with 8 in Hs.
        set (rest := PyStr.drop 8 (String c line)) in *. rewrite Hs.
        apply prefix_app_same. rewrite <- Htok. apply take_nonspace_prefix.
  - intros H. destruct (IH H) as (tok & ? & ? & ? & Hc). exists tok.
    repeat split; try assumption. apply contains_tail, Hc.
Qed.

(** X20. A URL that the polling loop of [create_temp_tunnel] takes from a
    line of the tunnel's output is [https://] followed by at least one
    character, holds no white space, and occurs in the line. *)
Theorem url_of_line_shape (line url : string)
        (Hfound : url_of_line line = Some url) :
  exists tok,
    url = "https://" +:+ tok
    /\ tok <> ""
    /\ all_nonspace tok = true
    /\ PyStr.contains url line = true.
Proof.
  unfold url_of_line in Hfound.
  destruct (negb (String.eqb line "") &&
            (PyStr.contains "https://" line || PyStr.contains "trycloudflare.com" line));
    [|discriminate Hfound].
  apply search_url_shape, Hfound.
Qed.

Lemma url_of_line_shape_witness :
  exists tok,
    "https://calm-river.trycloudflare.com" = "https://" +:+ tok
    /\ tok <> ""
    /\ all_nonspace tok = true
    /\ PyStr.contains "https://calm-river.trycloudflare.com"
                      "INF |  https://calm-river.trycloudflare.com  |" = true.
Proof.
  apply (url_of_line_shape "INF |  https://calm-river.trycloudflare.com  |").
  vm_compute. reflexivity.
Defined.

(** * Creating a tunnel that the listing does not show *)

Lemma _register_tunnel_log E n o w :
  log (_register_tunnel E n o w).2 = WriteState :: log w.
Proof.
  unfold _register_tunnel. unfold bind at 1. rewrite _load_state_eq. cbv beta iota.
  unfold bind at 1, get_now at 1. cbv beta iota zeta. rewrite _save_state_eq. reflexivity.
Qed.

Lemma use_tunnel_log E n o w :
  log (use_tunnel E n o w).2 = WriteState :: WriteState :: log w.
Proof.
  unfold use_tunnel. unfold bind at 1, set_tunnel_name at 1. cbv beta iota.
  unfold bind at 1, set_config_file at 1. cbv beta iota.
  unfold bind at 1.
  match goal with
  | |- context [_register_tunnel E n ?o1 w] =>
      pose proof (_register_tunnel_returns E n o1 w) as Hr;
      pose proof (_register_tunnel_log E n o1 w) as Hl;
      destruct (_register_tunnel E n o1 w) as [[r2 o2] w2]
  end.
  cbn [fst snd] in *. injection Hr as -> ->. cbv beta iota.
  unfold bind at 1. rewrite _load_state_eq. cbv beta iota.
  rewrite _save_state_eq. cbn [snd saved log]. rewrite Hl. reflexivity.
Qed.

(** X21. For a name that the provider's listing does not contain,
    [create_tunnel] runs the create command and returns exactly what that
    command answered.  Either way the name ends up registered and current:
    a failed creation leaves a record for a tunnel that does not exist.
    No config file is written. *)
Theorem create_tunnel_returns_create_outcome (E : env) (name : string)
        (setup_auto_start : option bool) (o : obj) (w : world)
        (Hname : truthy (Some name) = true)
        (Hunlisted : forall t, PyStr.contains name (tunnel_list_text E t) = false) :
  let r := create_tunnel E (Some name) setup_auto_start o w in
  r.1.1 = Ret (tunnel_create_ok E (3 + length (log w)))
  /\ selected (Some name) r.1.2 r.2
  /\ In (CmdTunnelCreate name) (log r.2)
  /\ yaml_files r.2 = yaml_files w.
Proof.
  cbv zeta.
  pose proof (create_tunnel_selects E (Some name) setup_auto_start o w Hname) as Hsel.
  pose proof (create_tunnel_creates E name setup_auto_start o w Hname Hunlisted) as Hcr.
  pose proof (create_tunnel_yaml E (yaml_files w) (Some name) setup_auto_start o w eq_refl)
    as Hy.
  unfold ensures in Hsel, Hcr.
  split; [|split; [exact Hsel|split; [exact Hcr|exact Hy]]].
  clear Hsel Hcr Hy.
  unfold create_tunnel. unfold bind at 1, get_self at 1. cbv beta iota.
  rewrite create_tunnel_guard_some, Hname.
  (* selecting the tunnel writes the state file twice *)
  pose proof (use_tunnel_selects E (Some name) o w) as [Hret _].
  pose proof (use_tunnel_log E (Some name) o w) as Hlog.
  unfold bind at 1.
  destruct (use_tunnel E (Some name) o w) as [[r1 o1] w1]. cbn [fst snd] in *.
  subst r1. cbv beta iota.
  unfold bind at 1, ask at 1. cbv beta iota. rewrite Hunlisted.
  unfold bind at 1, ask at 1. cbv beta iota.
  change (length (log (with_log CmdTunnelList w1))) with (S (length (log w1))).
  rewrite Hlog. change (S (length (WriteState :: WriteState :: log w)))
    with (3 + length (log w)).
  destruct (tunnel_create_ok E (3 + length (log w))); [|reflexivity].
  match goal with
  | |- (?m ?o ?w).1.1 = _ => destruct (m o w) as [[res o'] w'] eqn:H
  end.
  stepr H as u2 o2 w2 H2. stepr H as o2' o3 w3 H3. stepr H as u4 o4 w4 H4.
  injection H as <- _ _. reflexivity.
Qed.

Lemma create_tunnel_returns_create_outcome_witness :
  let r := create_tunnel Sample.host (Some "api") None Sample.fresh_manager
                         Sample.fresh_world in
  r.1.1 = Ret true
  /\ selected (Some "api") r.1.2 r.2
  /\ In (CmdTunnelCreate "api") (log r.2)
  /\ yaml_files r.2 = yaml_files Sample.fresh_world.
Proof.
  apply (create_tunnel_returns_create_outcome Sample.host "api" None
           Sample.fresh_manager Sample.fresh_world).
  - reflexivity.
  - intros t. vm_compute. reflexivity.
Defined.

(** * The convenience functions of [test/test.py] *)

Lemma length_append a b :
  String.length (a +:+ b) = String.length a + String.length b.
Proof.
  induction a as [|c a IH]; [reflexivity|].
  change (S (String.length (a +:+ b)) = S (String.length a + String.length b)).
  rewrite IH. reflexivity.
Qed.

Lemma append_inj_r a b t : a +:+ t = b +:+ t -> a = b.
Proof.
  revert b. induction a as [|c a IH]; intros [|d b] H.
  - reflexivity.
  - exfalso. apply (f_equal String.length) in H.
    change (String.length t = S (String.length (b +:+ t))) in H.
    rewrite length_append in H. lia.
  - exfalso. apply (f_equal String.length) in H.
    change (S (String.length (a +:+ t)) = String.length t) in H.
    rewrite length_append in H. lia.
  - change (String c (a +:+ t) = String d (b +:+ t)) in H.
    injection H as -> H. f_equal. apply IH, H.
Qed.

Lemma append_inj_l p a b : p +:+ a = p +:+ b -> a = b.
Proof.
  induction p as [|c p IH]; intros H; [exact H|].
  change (String c (p +:+ a) = String c (p +:+ b)) in H.
  injection H as H. apply IH, H.
Qed.

Lemma config_path_inj a b : config_path (Some a) = config_path (Some b) -> a = b.
Proof.
  unfold config_path. cbn [fmt]. intros H.
  apply append_inj_l, append_inj_l in H. apply append_inj_r in H. exact H.
Qed.

Lemma __init___yaml E tn auto o w : yaml_files (__init__ E tn auto o w).2 = yaml_files w.
Proof.
  unfold __init__.
  assert (H : preserves (fun _ x => yaml_files x = yaml_files w)
                (_init_state E ;;;
                 if truthy tn
                 then set_config_file (Some (config_path tn)) ;;; _register_tunnel E tn
                 else set_config_file None)).
  { apply preserves_bind; [pres|]. intros _. destruct (truthy tn); pres. }
  apply (H (Obj tn None auto) w eq_refl).
Qed.




(** * Starting a tunnel *)

(** X24. For a tunnel without a config file, [start_tunnel] launches
    nothing: it leaves a message on the console and changes neither the
    manager object, the state document, the files nor the log of external
    actions. *)
Theorem start_tunnel_without_config (tunnel_name : pyname) (o : obj) (w : world)
        (Hnone : yaml_files w
                 !! config_path (resolve_tunnel_name tunnel_name (self_tunnel_name o))
                 = None) :
  exists msg,
    start_tunnel tunnel_name o w
    = (Ret tt, o,
       World (state_file w) (yaml_files w) (dir_files w) (clock_ms w) (log w)
             (msg :: console w)).
Proof.
  unfold start_tunnel. unfold bind at 1, get_self at 1. cbv beta iota zeta.
  destruct (truthy (resolve_tunnel_name tunnel_name (self_tunnel_name o))); cbn [negb].
  - unfold bind, get_world. cbv beta iota. rewrite Hnone.
    rewrite bool_decide_eq_false_2 by (intros [? ?]; discriminate).
    cbn [negb]. eexists. reflexivity.
  - eexists. reflexivity.
Qed.

Lemma start_tunnel_without_config_witness :
  exists msg,
    start_tunnel (Some "my-app") Sample.fresh_manager Sample.routed_world
    = (Ret tt, Sample.fresh_manager,
       World (state_file Sample.routed_world) (yaml_files Sample.routed_world)
             (dir_files Sample.routed_world) (clock_ms Sample.routed_world)
             (log Sample.routed_world) (msg :: console Sample.routed_world)).
Proof.
  apply (start_tunnel_without_config (Some "my-app") Sample.fresh_manager Sample.routed_world).
  vm_compute. reflexivity.
Defined.

(** X25. After a successful [add_route] the tunnel has a config file, so
    [start_tunnel()] on the same manager launches the tunnel process with
    that file, and does nothing else. *)
Theorem start_tunnel_after_add_route (E : env) (domain : string) (port : Z)
        (host : option string) (tn_arg : option pyname) (o0 o : obj) (w0 w : world)
        (Hadd : add_route E domain port host tn_arg o0 w0 = (Ret true, o, w)) :
  let tn := resolve_tunnel_name (default universal_tunnel tn_arg) (self_tunnel_name o0) in
  start_tunnel None o w
  = (Ret tt, o, with_log (CmdTunnelRun (Some (config_path tn)) (fmt tn)) w).
Proof.
  cbv zeta.
  pose proof (add_route_success E _ _ _ _ _ _ _ _ Hadd) as Hsucc. cbv zeta in Hsucc.
  destruct Hsucc as (Htn & _ & (c & Hyc & _) & _).
  pose proof (add_route_selects E domain port host tn_arg o0 w0 Htn) as Hsel.
  unfold ensures in Hsel. rewrite Hadd in Hsel. cbn [fst snd] in Hsel.
  destruct Hsel as (Hn & _).
  unfold start_tunnel. unfold bind at 1, get_self at 1. cbv beta iota zeta.
  change (resolve_tunnel_name None (self_tunnel_name o)) with (self_tunnel_name o).
  rewrite Hn, Htn. cbn [negb].
  unfold bind, get_world. cbv beta iota.
  rewrite bool_decide_eq_true_2 by (rewrite Hyc, lookup_insert_eq; eauto).
  reflexivity.
Qed.

Lemma start_tunnel_after_add_route_witness :
  start_tunnel None
    (add_route Sample.host "app.example.com" 3000 None (Some (Some "demo"))
               Sample.fresh_manager Sample.fresh_world).1.2
    (add_route Sample.host "app.example.com" 3000 None (Some (Some "demo"))
               Sample.fresh_manager Sample.fresh_world).2
  = (Ret tt,
     (add_route Sample.host "app.example.com" 3000 None (Some (Some "demo"))
                Sample.fresh_manager Sample.fresh_world).1.2,
     with_log (CmdTunnelRun (Some (config_path (Some "demo"))) "demo")
       (add_route Sample.host "app.example.com" 3000 None (Some (Some "demo"))
                  Sample.fresh_manager Sample.fresh_world).2).
Proof.
  apply (start_tunnel_after_add_route Sample.host "app.example.com" 3000 None
           (Some (Some "demo")) Sample.fresh_manager _ Sample.fresh_world).
  vm_compute. reflexivity.
Defined.
